(** * masjiduna-waqt: the prayer-time kernel, shallowly embedded

    The TypeScript sources [units.ts], [solar.ts], [hour-angle.ts],
    [high-latitude.ts], [qibla.ts] and [prayers.ts] are translated function by
    function, and so are the parts of [date-utils.ts], [prayer-utils.ts],
    [sunnah.ts] and [schema.ts] that work on numbers.  A JavaScript [number]
    is an IEEE-754 binary64 value, so it is a primitive [float] here: [+],
    [-], [*], [/] and the comparisons are the kernel's own binary64
    operations, [===] on numbers is [PrimFloat.eqb] (it identifies [0] and
    [-0] and rejects [NaN]), and Leibniz equality of two floats is equality
    of their bits. *)

From Stdlib Require Import ZArith Floats Bool List String Lia.
Import ListNotations.

Set Warnings "-inexact-float".

Local Open Scope Z_scope.

(* ================================================================= *)
(** ** JavaScript numbers *)

Module Js.

(** The integer a finite number truncates to (toward zero); [0] for
    [NaN] and the infinities, as in ECMAScript's [ToInt32]. *)
Definition truncZ (x : float) : Z :=
  match Prim2SF x with
  | S754_finite s m e =>
      let a := if 0 <=? e then Z.pos m * 2 ^ e else Z.pos m / 2 ^ (- e) in
      if s then - a else a
  | _ => 0
  end.

(** The greatest integer below a finite number. *)
Definition floorZ (x : float) : Z :=
  match Prim2SF x with
  | S754_finite s m e =>
      let n := cond_Zopp s (Z.pos m) in
      if 0 <=? e then n * 2 ^ e else n / 2 ^ (- e)
  | _ => 0
  end.

(** An integer as a number (round to nearest, exact below [2^53]). *)
Definition of_Z (z : Z) : float :=
  SF2Prim (binary_normalize prec emax z 0 false).

(** [x | 0]: ECMAScript's [ToInt32]. *)
Definition ToInt32 (x : float) : Z :=
  let z := truncZ x mod 2 ^ 32 in
  if z <? 2 ^ 31 then z else z - 2 ^ 32.

(** [+b] for a boolean [b]. *)
Definition of_bool (b : bool) : float := if b then 1%float else 0%float.

(** [x !== y] on numbers. *)
Definition strict_ne (x y : float) : bool := negb (x =? y)%float.

(** [x % y], the exact remainder with the sign of the dividend. *)
Definition rem (x y : float) : float :=
  match Prim2SF x, Prim2SF y with
  | S754_nan, _ | _, S754_nan => nan
  | S754_infinity _, _ | _, S754_zero _ => nan
  | _, S754_infinity _ => x
  | S754_zero _, _ => x
  | S754_finite sx mx ex, S754_finite sy my ey =>
      let e := Z.min ex ey in
      let r := (Z.pos mx * 2 ^ (ex - e)) mod (Z.pos my * 2 ^ (ey - e)) in
      if r =? 0 then (if sx then neg_zero else zero)
      else SF2Prim (binary_normalize prec emax (cond_Zopp sx r) e false)
  end.

(** [Math.floor], [Math.round], [Math.max], [Math.min] and [Math.abs] are
    exactly specified by ECMAScript. *)
Definition floor (x : float) : float :=
  match Prim2SF x with
  | S754_finite _ _ _ => let z := floorZ x in if z =? 0 then zero else of_Z z
  | _ => x
  end.

Definition round (x : float) : float :=
  match Prim2SF x with
  | S754_finite s m e =>
      if 0 <=? e then x
      else
        let z := (2 * cond_Zopp s (Z.pos m) + 2 ^ (- e)) / 2 ^ (- e + 1) in
        if z =? 0 then (if s then neg_zero else zero) else of_Z z
  | _ => x
  end.

Definition max (x y : float) : float :=
  if is_nan x || is_nan y then nan
  else if (x <? y)%float then y
  else if (y <? x)%float then x
  else if get_sign x then y else x.

Definition min (x y : float) : float :=
  if is_nan x || is_nan y then nan
  else if (x <? y)%float then x
  else if (y <? x)%float then y
  else if get_sign x then x else y.

(** A number stored into a [Float32Array] lane and read back. *)
Definition fround (x : float) : float :=
  match Prim2SF x with
  | S754_finite s m e => SF2Prim (binary_round 24 128 s m e)
  | _ => x
  end.

(** Typed arrays have a fixed length: a read out of range is [undefined]
    ([NaN] as soon as it meets arithmetic) and a write out of range is
    dropped. *)
Definition in_range (len i : Z) : bool := (0 <=? i) && (i <? len).

Definition ta_get (len : Z) (a : Z -> float) (i : Z) : float :=
  if in_range len i then a i else nan.

Definition ta_set (len : Z) (a : Z -> float) (i : Z) (v : float) : Z -> float :=
  if in_range len i then fun j => if j =? i then v else a j else a.

Definition PI : float := 3.141592653589793%float.

(** [a[i]] for an array of numbers and a number [i]: the element when [i]
    is one of the array's indices ([-0] is index [0]), [undefined] ([NaN]
    as soon as it meets arithmetic) otherwise. *)
Definition array_get (a : list float) (i : float) : float :=
  match Prim2SF i with
  | S754_zero _ => nth 0 a nan
  | S754_finite false _ _ =>
      if ((floor i =? i) && (i <? of_Z (Z.of_nat (List.length a))))%float
      then nth (Z.to_nat (truncZ i)) a nan
      else nan
  | _ => nan
  end.

End Js.

(** The transcendental functions of the runtime's [Math] object.  ECMAScript
    leaves their results implementation-approximated, so the embedding is
    parametric in them; [SeriesMath] below is one double-precision
    implementation, used to run the kernel on concrete inputs. *)
Class MathObject : Type := {
  Math_sin : float -> float;
  Math_cos : float -> float;
  Math_tan : float -> float;
  Math_asin : float -> float;
  Math_acos : float -> float;
  Math_atan : float -> float;
  Math_atan2 : float -> float -> float;
  Math_sqrt : float -> float
}.

Local Open Scope float_scope.

(* ================================================================= *)
(** ** units.ts *)

Module Units.
Section WithMath.
Context {Math : MathObject}.

Definition DEG2RAD : float := Js.PI / 180.
Definition RAD2DEG : float := 180 / Js.PI.

Definition sinDeg (d : float) : float := Math_sin (d * DEG2RAD).
Definition cosDeg (d : float) : float := Math_cos (d * DEG2RAD).
Definition tanDeg (d : float) : float := Math_tan (d * DEG2RAD).
Definition asinDeg (v : float) : float := Math_asin v * RAD2DEG.
Definition acosDeg (v : float) : float := Math_acos v * RAD2DEG.
Definition atanDeg (v : float) : float := Math_atan v * RAD2DEG.
Definition atan2Deg (y x : float) : float := Math_atan2 y x * RAD2DEG.

(** Normalize an angle to [0, 360). *)
Definition normalizeDeg (d : float) : float :=
  if (0 <=? d) && (d <? 360) then d
  else if (360 <=? d) && (d <? 720) then d - 360
  else if (d <? 0) && (-360 <=? d) then d + 360
  else Js.rem (Js.rem d 360 + 360) 360.

End WithMath.
End Units.

(* ================================================================= *)
(** ** solar.ts *)

Module Solar.
Section WithMath.
Context {Math : MathObject}.
Import Units.

Record SolarPosition : Type := {
  declination : float;
  eqtMinutes : float;
  eclipticLong : float;
  obliquity : float;
  rightAscension : float;
  apparentSiderealTime : float
}.

(** Julian Date from a UTC calendar date. *)
Definition toJulianDate (year month day : float) : float :=
  let '(y, m) :=
    if month <=? 2 then (year - 1, month + 12) else (year, month) in
  let A := Js.floor (y / 100) in
  let B := 2 - A + Js.floor (A / 4) in
  Js.floor (365.25 * (y + 4716)) + Js.floor (30.6001 * (m + 1)) + day + B -
  1524.5.

(** Julian Century from Julian Date (offset from J2000.0 epoch). *)
Definition toJulianCentury (julianDate : float) : float :=
  (julianDate - 2451545.0) / 36525.0.

(** Full Meeus algorithm. *)
Definition solarPosition (julianDate : float) : SolarPosition :=
  let T := toJulianCentury julianDate in
  let T2 := T * T in
  let L0 := normalizeDeg (280.4664567 + 36000.76983 * T + 0.0003032 * T2) in
  let M := normalizeDeg (357.52911 + 35999.05029 * T - 0.0001537 * T2) in
  let eOrb := 0.016708634 - 0.000042037 * T - 0.0000001267 * T2 in
  let MRad := M * DEG2RAD in
  let sinM := Math_sin MRad in
  let cosM := Math_cos MRad in
  let sin2M := 2 * sinM * cosM in
  let C :=
    (1.914602 - 0.004817 * T - 0.000014 * T2) * sinM +
    (0.019993 - 0.000101 * T) * sin2M +
    0.000289 * (3 * sinM - 4 * sinM * sinM * sinM) in
  let Ltrue := normalizeDeg (L0 + C) in
  let omega := 125.04 - 1934.136 * T in
  let lambda := Ltrue - 0.00569 - 0.00478 * Math_sin (omega * DEG2RAD) in
  let T3 := T2 * T in
  let eps0 :=
    23.439291 - 0.013004167 * T - 0.0000001639 * T2 + 0.0000005036 * T3 in
  let Lp := 218.3165 + 481267.8813 * T in
  let Omega := 125.04452 - 1934.136261 * T + 0.0020708 * T2 + T3 / 450000 in
  let OmegaRad := Omega * DEG2RAD in
  let sinOmega := Math_sin OmegaRad in
  let cosOmega := Math_cos OmegaRad in
  let sin2Omega := 2 * sinOmega * cosOmega in
  let cos2Omega := cosOmega * cosOmega - sinOmega * sinOmega in
  let L0Rad := L0 * DEG2RAD in
  let sin2L0 := Math_sin (2 * L0Rad) in
  let cos2L0 := Math_cos (2 * L0Rad) in
  let sin2Lp := Math_sin (2 * Lp * DEG2RAD) in
  let cos2Lp := Math_cos (2 * Lp * DEG2RAD) in
  let dPsi :=
    (-17.2 / 3600) * sinOmega - (1.32 / 3600) * sin2L0 -
    (0.23 / 3600) * sin2Lp + (0.21 / 3600) * sin2Omega in
  let dEpsilon :=
    (9.2 / 3600) * cosOmega + (0.57 / 3600) * cos2L0 +
    (0.1 / 3600) * cos2Lp - (0.09 / 3600) * cos2Omega in
  let eps := eps0 + dEpsilon in
  let epsRad := eps * DEG2RAD in
  let lambdaRad := lambda * DEG2RAD in
  let sinLambda := Math_sin lambdaRad in
  let cosLambda := Math_cos lambdaRad in
  let sinEps := Math_sin epsRad in
  let cosEps := Math_cos epsRad in
  let declination := Math_asin (sinEps * sinLambda) / DEG2RAD in
  let rightAscension :=
    normalizeDeg (Math_atan2 (cosEps * sinLambda) cosLambda / DEG2RAD) in
  let JD := T * 36525 + 2451545.0 in
  let Theta0 :=
    normalizeDeg
      (280.46061837 + 360.98564736629 * (JD - 2451545) +
       0.000387933 * T2 - T3 / 38710000) in
  let apparentSiderealTime := Theta0 + dPsi * Math_cos (eps * DEG2RAD) in
  let halfEpsRad := epsRad / 2 in
  let tanHalf := Math_tan halfEpsRad in
  let y := tanHalf * tanHalf in
  let sin4L0 := 2 * sin2L0 * cos2L0 in
  let eqtRad :=
    y * sin2L0 - 2 * eOrb * sinM + 4 * eOrb * y * sinM * cos2L0 -
    0.5 * y * y * sin4L0 - 1.25 * eOrb * eOrb * sin2M in
  {| declination := declination;
     eqtMinutes := eqtRad * 229.18;
     eclipticLong := lambda;
     obliquity := eps;
     rightAscension := rightAscension;
     apparentSiderealTime := apparentSiderealTime |}.

End WithMath.
End Solar.

(* ================================================================= *)
(** ** hour-angle.ts *)

Module HourAngle.
Section WithMath.
Context {Math : MathObject}.
Import Units.

(** Either a valid hour angle or an undefined marker. *)
Inductive HourAngleResult : Type :=
| ha_valid (angle cosOmega : float) (clamped : bool)
| ha_undefined (cosOmega : float).

Definition EPSILON : float := 1e-6.

(** The [cos] of the hour angle for a target altitude. *)
Definition cosOmega_of (alpha phi delta : float) : float :=
  (sinDeg alpha - sinDeg phi * sinDeg delta) / (cosDeg phi * cosDeg delta).

Definition computeHourAngle (alpha phi delta : float) : HourAngleResult :=
  let cosOmega := cosOmega_of alpha phi delta in
  if (cosOmega <? - (1 + EPSILON)) || (1 + EPSILON <? cosOmega) then
    ha_undefined cosOmega
  else
    let clamped := 1 <? abs cosOmega in
    let safe := Js.max (-1) (Js.min 1 cosOmega) in
    let omegaDeg := Math_acos safe * RAD2DEG in
    ha_valid omegaDeg cosOmega clamped.

(** Convert hour angle (degrees) to time offset (hours). *)
Definition hourAngleToHours (omegaDeg : float) : float := omegaDeg / 15.

(** Normalize a number to [0, max). *)
Definition normalizeToScale (num max : float) : float :=
  num - max * Js.floor (num / max).

(** Shift angle to [-180, 180]. *)
Definition quadrantShiftAngle (angle : float) : float :=
  if (-180 <=? angle) && (angle <=? 180) then angle
  else angle - 360 * Js.round (angle / 360).

(** Quadratic interpolation. *)
Definition interpolate (y2 y1 y3 n : float) : float :=
  let a := y2 - y1 in
  let b := y3 - y2 in
  let c := b - a in
  y2 + (n / 2) * (a + b + n * c).

(** Quadratic interpolation with angle unwinding. *)
Definition interpolateAngles (y2 y1 y3 n : float) : float :=
  let a := normalizeDeg (y2 - y1) in
  let b := normalizeDeg (y3 - y2) in
  let c := b - a in
  y2 + (n / 2) * (a + b + n * c).

(** Altitude of a celestial body. *)
Definition altitudeOfCelestialBody (phi delta H : float) : float :=
  Math_asin
    (sinDeg phi * sinDeg delta + cosDeg phi * cosDeg delta * cosDeg H) *
  RAD2DEG.

(** Approximate transit as a day fraction. *)
Definition approximateTransit (lng siderealTime rightAscension : float)
    : float :=
  let Lw := - lng in
  normalizeToScale ((rightAscension + Lw - siderealTime) / 360) 1.

(** Corrected transit: UTC hours of solar noon. *)
Definition correctedTransit (m0 lng Theta0 a2 a1 a3 : float) : float :=
  let Lw := - lng in
  let Theta := normalizeDeg (Theta0 + 360.985647 * m0) in
  let a := normalizeDeg (interpolateAngles a2 a1 a3 m0) in
  let H := quadrantShiftAngle (Theta - Lw - a) in
  let dm := H / -360 in
  (m0 + dm) * 24.

(** Corrected hour angle: UTC hours of the event in [angle] of a valid
    result. *)
Definition correctedHourAngle
    (m0 angle lat lng : float) (afterTransit : bool)
    (Theta0 a2 a1 a3 d2 d1 d3 : float) : HourAngleResult :=
  let Lw := - lng in
  let latRad := lat * DEG2RAD in
  let sinLat := Math_sin latRad in
  let cosLat := Math_cos latRad in
  let d2Rad := d2 * DEG2RAD in
  let cosH0 :=
    (Math_sin (angle * DEG2RAD) - sinLat * Math_sin d2Rad) /
    (cosLat * Math_cos d2Rad) in
  if (cosH0 <? - (1 + EPSILON)) || (1 + EPSILON <? cosH0) then
    ha_undefined cosH0
  else
    let clamped := 1 <? abs cosH0 in
    let safeCos := Js.max (-1) (Js.min 1 cosH0) in
    let H0 := Math_acos safeCos * RAD2DEG in
    let m := if afterTransit then m0 + H0 / 360 else m0 - H0 / 360 in
    let Theta := normalizeDeg (Theta0 + 360.985647 * m) in
    let a := normalizeDeg (interpolateAngles a2 a1 a3 m) in
    let delta := interpolate d2 d1 d3 m in
    let H := Theta - Lw - a in
    let deltaRad := delta * DEG2RAD in
    let HRad := H * DEG2RAD in
    let h :=
      Math_asin
        (sinLat * Math_sin deltaRad +
         cosLat * Math_cos deltaRad * Math_cos HRad) * RAD2DEG in
    let dm :=
      (h - angle) / (360 * Math_cos deltaRad * cosLat * Math_sin HRad) in
    let utcHours := (m + dm) * 24 in
    ha_valid utcHours cosH0 clamped.

(** Corrected hour angle, fast variant with pre-computed latitude trig. *)
Definition correctedHourAngleFast
    (m0 angle sinLat cosLat Lw : float) (afterTransit : bool)
    (Theta0 a2 a1 a3 d2 d1 d3 : float) : HourAngleResult :=
  let d2Rad := d2 * DEG2RAD in
  let cosH0 :=
    (Math_sin (angle * DEG2RAD) - sinLat * Math_sin d2Rad) /
    (cosLat * Math_cos d2Rad) in
  if (cosH0 <? - (1 + EPSILON)) || (1 + EPSILON <? cosH0) then
    ha_undefined cosH0
  else
    let clamped := 1 <? abs cosH0 in
    let safeCos := Js.max (-1) (Js.min 1 cosH0) in
    let H0 := Math_acos safeCos * RAD2DEG in
    let m := if afterTransit then m0 + H0 / 360 else m0 - H0 / 360 in
    let Theta := normalizeDeg (Theta0 + 360.985647 * m) in
    let a := normalizeDeg (interpolateAngles a2 a1 a3 m) in
    let delta := interpolate d2 d1 d3 m in
    let H := Theta - Lw - a in
    let deltaRad := delta * DEG2RAD in
    let HRad := H * DEG2RAD in
    let h :=
      Math_asin
        (sinLat * Math_sin deltaRad +
         cosLat * Math_cos deltaRad * Math_cos HRad) * RAD2DEG in
    let dm :=
      (h - angle) / (360 * Math_cos deltaRad * cosLat * Math_sin HRad) in
    ha_valid ((m + dm) * 24) cosH0 clamped.

End WithMath.
End HourAngle.

(* ================================================================= *)
(** ** qibla.ts *)

Module Qibla.
Section WithMath.
Context {Math : MathObject}.
Import Units.

Definition MAKKAH_LAT : float := 21.4225241.
Definition MAKKAH_LNG : float := 39.8261818.
Definition MAKKAH_LNG_RAD : float := MAKKAH_LNG * DEG2RAD.
Definition TAN_MAKKAH_LAT : float := Math_tan (MAKKAH_LAT * DEG2RAD).

(** The Qibla direction (bearing in degrees from North). *)
Definition computeQibla (lat lng : float) : float :=
  let dLng := MAKKAH_LNG_RAD - lng * DEG2RAD in
  let latRad := lat * DEG2RAD in
  let term1 := Math_sin dLng in
  let term2 := Math_cos latRad * TAN_MAKKAH_LAT in
  let term3 := Math_sin latRad * Math_cos dLng in
  normalizeDeg (Math_atan2 term1 (term2 - term3) * RAD2DEG).

End WithMath.
End Qibla.

(* ================================================================= *)
(** ** prayers.ts *)

Module Prayers.

Import Units Solar.

(** *** Input interfaces *)

(** A field of type [number | null | undefined]. *)
Inductive OptNum : Type :=
| JsUndefined
| JsNull
| JsNum (x : float).

(** [a !== b] and [a != null] on such a field. *)
Definition optnum_strict_ne (a b : OptNum) : bool :=
  match a, b with
  | JsUndefined, JsUndefined => false
  | JsNull, JsNull => false
  | JsNum x, JsNum y => Js.strict_ne x y
  | _, _ => true
  end.

Definition not_nullish (a : OptNum) : bool :=
  match a with JsNum _ => true | _ => false end.

(** The number a field yields inside arithmetic. *)
Definition optnum_value (a : OptNum) : float :=
  match a with JsNum x => x | JsNull => 0 | JsUndefined => nan end.

Inductive Madhab : Type := standard | hanafi.
Inductive HighLatRule : Type :=
  middle_of_night | seventh_of_night | twilight_angle | none.
Inductive PolarRule : Type := unresolved | aqrab_balad | aqrab_yaum.
Inductive MidnightMode : Type := midnight_standard.

Definition Madhab_eqb (a b : Madhab) : bool :=
  match a, b with
  | standard, standard | hanafi, hanafi => true
  | _, _ => false
  end.

Record MethodInput : Type := {
  method_fajr : float;
  method_isha : float;
  ishaInterval : OptNum;
  maghribAngle : OptNum
}.

Record AdjustmentsInput : Type := {
  adj_fajr : float;
  adj_sunrise : float;
  adj_dhuhr : float;
  adj_asr : float;
  adj_maghrib : float;
  adj_isha : float
}.

Record PrayerTimeInput : Type := {
  latitude : float;
  longitude : float;
  date : float;
  timezoneId : string;
  method : MethodInput;
  madhab : option Madhab;
  highLatRule : option HighLatRule;
  polarRule : option PolarRule;
  midnightMode : option MidnightMode;
  adjustments : option AdjustmentsInput;
  elevation : option float
}.

(** Fully resolved input, used internally by [_computeCore].  When
    [_resolve] returns its argument unchanged, [midnightMode] may still be
    missing; nothing reads it. *)
Record ResolvedInput : Type := {
  r_latitude : float;
  r_longitude : float;
  r_date : float;
  r_timezoneId : string;
  r_method : MethodInput;
  r_madhab : Madhab;
  r_highLatRule : HighLatRule;
  r_polarRule : PolarRule;
  r_midnightMode : option MidnightMode;
  r_adjustments : AdjustmentsInput;
  r_elevation : float
}.

Definition NO_ADJUSTMENTS : AdjustmentsInput :=
  {| adj_fajr := 0; adj_sunrise := 0; adj_dhuhr := 0;
     adj_asr := 0; adj_maghrib := 0; adj_isha := 0 |}.

Definition _DEFAULT_ADJ : AdjustmentsInput := NO_ADJUSTMENTS.

(** [a ?? d] *)
Definition nullish {A : Type} (a : option A) (d : A) : A :=
  match a with Some x => x | None => d end.

Definition _resolve (config : PrayerTimeInput) : ResolvedInput :=
  match madhab config, highLatRule config, polarRule config,
        adjustments config, elevation config with
  | Some md, Some hl, Some pr, Some adj, Some el =>
      {| r_latitude := latitude config;
         r_longitude := longitude config;
         r_date := date config;
         r_timezoneId := timezoneId config;
         r_method := method config;
         r_madhab := md;
         r_highLatRule := hl;
         r_polarRule := pr;
         r_midnightMode := midnightMode config;
         r_adjustments := adj;
         r_elevation := el |}
  | _, _, _, _, _ =>
      {| r_latitude := latitude config;
         r_longitude := longitude config;
         r_date := date config;
         r_timezoneId := timezoneId config;
         r_method := method config;
         r_madhab := nullish (madhab config) standard;
         r_highLatRule := nullish (highLatRule config) middle_of_night;
         r_polarRule := nullish (polarRule config) unresolved;
         r_midnightMode := Some (nullish (midnightMode config) midnight_standard);
         r_adjustments := nullish (adjustments config) _DEFAULT_ADJ;
         r_elevation := nullish (elevation config) 0 |}
  end.

(** *** Output types *)

Record PrayerDiagnostics : Type := {
  cosOmega : option float;
  clamped : bool;
  fallbackUsed : option string;
  targetAltitude : float
}.

Inductive PrayerTimeResult : Type :=
| valid (ms : float) (diagnostics : PrayerDiagnostics)
| undefined (reason : string) (diagnostics : PrayerDiagnostics).

Definition diagnostics_of (r : PrayerTimeResult) : PrayerDiagnostics :=
  match r with valid _ d => d | undefined _ d => d end.

Record Meta : Type := {
  meta_declination : float;
  meta_eqtMinutes : float;
  solarNoonMs : float;
  julianDate : float
}.

Record PrayerTimesOutput : Type := {
  out_fajr : PrayerTimeResult;
  out_sunrise : PrayerTimeResult;
  out_dhuhr : PrayerTimeResult;
  out_asr : PrayerTimeResult;
  out_sunset : PrayerTimeResult;
  out_maghrib : PrayerTimeResult;
  out_isha : PrayerTimeResult;
  out_midnight : PrayerTimeResult;
  out_imsak : PrayerTimeResult;
  out_firstThird : PrayerTimeResult;
  out_lastThird : PrayerTimeResult;
  out_meta : Meta
}.

(** *** Module state: the three caches and the slab *)

Definition CACHE_MASK : Z := 511.
Definition DC_STRIDE : Z := 16.
Definition DC_THETA0 : Z := 0.
Definition DC_A2 : Z := 1.
Definition DC_D2 : Z := 2.
Definition DC_RA_AB : Z := 3.
Definition DC_RA_C : Z := 4.
Definition DC_DECL_AB : Z := 5.
Definition DC_DECL_C : Z := 6.
Definition DC_SIN_D2 : Z := 7.
Definition DC_COS_D2 : Z := 8.
Definition DC_EQT : Z := 9.
Definition DC_MIDNIGHT_MS : Z := 10.

Definition _SLAB_SLOTS : Z := 16384.
Definition _SLAB_LEN : Z := 29 * _SLAB_SLOTS.

(** The config cache: the last configuration seen ([_cc...]) and the
    values derived from it. *)
Record ConfigCache : Type := {
  _ccLat : float;
  _ccLng : float;
  _ccElev : float;
  _ccFajr : float;
  _ccIsha : float;
  _ccIshaInt : OptNum;
  _ccMadhab : option Madhab;   (* [None] is the initial empty string *)
  _ccAdjF : float;
  _ccAdjSr : float;
  _ccAdjD : float;
  _ccAdjA : float;
  _ccAdjM : float;
  _ccAdjI : float;
  _sinLat : float;
  _cosLat : float;
  _Lw : float;
  _360cosLat : float;
  _horizonAlt : float;
  _sinHorizonAlt : float;
  _base90Horizon : float;
  _fajrAlt : float;
  _sinFajrAlt : float;
  _base90Fajr : float;
  _ishaAlt : float;
  _sinIshaAlt : float;
  _base90Isha : float;
  _adjFajrMs : float;
  _adjSunriseMs : float;
  _adjDhuhrMs : float;
  _adjAsrMs : float;
  _adjMaghribMs : float;
  _adjIshaMs : float;
  _shadowK : float
}.

Record Engine : Type := {
  _cacheJDs : Z -> float;                       (* Float64Array(512) *)
  _cacheVals : Z -> option SolarPosition;       (* Array(512) *)
  _dcJDs : Z -> float;                          (* Float64Array(512) *)
  _dc : Z -> float;                             (* Float64Array(512 * 16) *)
  cc : ConfigCache;
  _SLAB : Z -> float;                           (* Float64Array(_SLAB_LEN) *)
  _slabOff : Z
}.

Definition initialConfigCache : ConfigCache :=
  {| _ccLat := nan; _ccLng := nan; _ccElev := nan; _ccFajr := nan;
     _ccIsha := nan; _ccIshaInt := JsUndefined; _ccMadhab := None;
     _ccAdjF := nan; _ccAdjSr := nan; _ccAdjD := nan; _ccAdjA := nan;
     _ccAdjM := nan; _ccAdjI := nan;
     _sinLat := 0; _cosLat := 0; _Lw := 0; _360cosLat := 0;
     _horizonAlt := 0; _sinHorizonAlt := 0; _base90Horizon := 0;
     _fajrAlt := 0; _sinFajrAlt := 0; _base90Fajr := 0;
     _ishaAlt := 0; _sinIshaAlt := 0; _base90Isha := 0;
     _adjFajrMs := 0; _adjSunriseMs := 0; _adjDhuhrMs := 0;
     _adjAsrMs := 0; _adjMaghribMs := 0; _adjIshaMs := 0;
     _shadowK := 1 |}.

(** The module as loaded: zero-filled typed arrays, an empty [_cacheVals]. *)
Definition initialEngine : Engine :=
  {| _cacheJDs := fun _ => 0;
     _cacheVals := fun _ => None;
     _dcJDs := fun _ => 0;
     _dc := fun _ => 0;
     cc := initialConfigCache;
     _SLAB := fun _ => 0;
     _slabOff := 0%Z |}.

Definition JD_get (a : Z -> float) (i : Z) : float := Js.ta_get 512 a i.
Definition JD_set (a : Z -> float) (i : Z) (v : float) := Js.ta_set 512 a i v.
Definition DC_get (a : Z -> float) (i : Z) : float :=
  Js.ta_get (512 * DC_STRIDE) a i.
Definition DC_set (a : Z -> float) (i : Z) (v : float) :=
  Js.ta_set (512 * DC_STRIDE) a i v.
Definition SLAB_get (S : Z -> float) (i : Z) : float := Js.ta_get _SLAB_LEN S i.
Definition SLAB_set (S : Z -> float) (i : Z) (v : float) :=
  Js.ta_set _SLAB_LEN S i v.

Definition with_cc (st : Engine) (c : ConfigCache) : Engine :=
  {| _cacheJDs := _cacheJDs st; _cacheVals := _cacheVals st;
     _dcJDs := _dcJDs st; _dc := _dc st; cc := c;
     _SLAB := _SLAB st; _slabOff := _slabOff st |}.

Definition with_SLAB (st : Engine) (S : Z -> float) : Engine :=
  {| _cacheJDs := _cacheJDs st; _cacheVals := _cacheVals st;
     _dcJDs := _dcJDs st; _dc := _dc st; cc := cc st;
     _SLAB := S; _slabOff := _slabOff st |}.

Definition with_slabOff (st : Engine) (off : Z) : Engine :=
  {| _cacheJDs := _cacheJDs st; _cacheVals := _cacheVals st;
     _dcJDs := _dcJDs st; _dc := _dc st; cc := cc st;
     _SLAB := _SLAB st; _slabOff := off |}.

Definition with_solar (st : Engine) (jds : Z -> float)
    (vals : Z -> option SolarPosition) : Engine :=
  {| _cacheJDs := jds; _cacheVals := vals;
     _dcJDs := _dcJDs st; _dc := _dc st; cc := cc st;
     _SLAB := _SLAB st; _slabOff := _slabOff st |}.

Definition with_dc (st : Engine) (jds : Z -> float) (d : Z -> float) : Engine :=
  {| _cacheJDs := _cacheJDs st; _cacheVals := _cacheVals st;
     _dcJDs := jds; _dc := d; cc := cc st;
     _SLAB := _SLAB st; _slabOff := _slabOff st |}.

(** Clear the solar position cache. *)
Definition clearSolarCache (st : Engine) : Engine :=
  {| _cacheJDs := fun _ => 0;                 (* _cacheJDs.fill(0) *)
     _cacheVals := _cacheVals st;
     _dcJDs := fun _ => 0;                    (* _dcJDs.fill(0) *)
     _dc := _dc st;
     cc :=
       {| _ccLat := nan;                      (* invalidate config cache *)
          _ccLng := _ccLng (cc st); _ccElev := _ccElev (cc st);
          _ccFajr := _ccFajr (cc st); _ccIsha := _ccIsha (cc st);
          _ccIshaInt := _ccIshaInt (cc st); _ccMadhab := _ccMadhab (cc st);
          _ccAdjF := _ccAdjF (cc st); _ccAdjSr := _ccAdjSr (cc st);
          _ccAdjD := _ccAdjD (cc st); _ccAdjA := _ccAdjA (cc st);
          _ccAdjM := _ccAdjM (cc st); _ccAdjI := _ccAdjI (cc st);
          _sinLat := _sinLat (cc st); _cosLat := _cosLat (cc st);
          _Lw := _Lw (cc st); _360cosLat := _360cosLat (cc st);
          _horizonAlt := _horizonAlt (cc st);
          _sinHorizonAlt := _sinHorizonAlt (cc st);
          _base90Horizon := _base90Horizon (cc st);
          _fajrAlt := _fajrAlt (cc st); _sinFajrAlt := _sinFajrAlt (cc st);
          _base90Fajr := _base90Fajr (cc st);
          _ishaAlt := _ishaAlt (cc st); _sinIshaAlt := _sinIshaAlt (cc st);
          _base90Isha := _base90Isha (cc st);
          _adjFajrMs := _adjFajrMs (cc st);
          _adjSunriseMs := _adjSunriseMs (cc st);
          _adjDhuhrMs := _adjDhuhrMs (cc st);
          _adjAsrMs := _adjAsrMs (cc st);
          _adjMaghribMs := _adjMaghribMs (cc st);
          _adjIshaMs := _adjIshaMs (cc st);
          _shadowK := _shadowK (cc st) |};
     _SLAB := _SLAB st;
     _slabOff := 0%Z |}.                      (* reset slab ring buffer *)

(** How a call ends: normally with a value, or by throwing a
    [TypeError]. *)
Inductive completion (A : Type) : Type :=
| Normal (st : Engine) (a : A)
| Throw (st : Engine).
Arguments Normal {A} st a.
Arguments Throw {A} st.

(** *** Internal constants *)

Definition EPSILON : float := 1e-6.
Definition NEG_COS_BOUND : float := - (1 + EPSILON).
Definition POS_COS_BOUND : float := 1 + EPSILON.
Definition INV360 : float := 1 / 360.
Definition MS_PER_DAY : float := 86400000.
Definition MS_PER_MIN : float := 60000.

Section WithMath.
Context {Math : MathObject}.

(** *** Trig lookup tables: degree-indexed sin, value-indexed acos and atan

    Each table is given by its contents once the module's initialising loop
    has run: lane [i] for [0 <= i <= SIZE], a copy of the last lane at
    [SIZE + 1], nothing beyond. *)

Definition _S_SCALE : float := 5.
Definition _S_OFF : float := 540.
Definition _S_BASE : float := _S_OFF * _S_SCALE.
Definition _C_BASE : float := (_S_OFF + 90) * _S_SCALE.
Definition _S_SIZE : Z := 1170 * 5.

Definition _S_lane (i : Z) : float :=
  Math_sin ((Js.of_Z i / _S_SCALE - _S_OFF) * DEG2RAD).

Definition _S (i : Z) : float :=
  if (0 <=? i)%Z && (i <=? _S_SIZE)%Z then _S_lane i
  else if (i =? _S_SIZE + 1)%Z then _S_lane _S_SIZE
  else nan.

Definition _A_HALF : float := 4096.
Definition _A_SIZE : Z := 4096 * 2.

Definition _A_lane (i : Z) : float :=
  Math_acos (Js.of_Z i / _A_HALF - 1) * RAD2DEG.

Definition _A (i : Z) : float :=
  if (0 <=? i)%Z && (i <=? _A_SIZE)%Z then _A_lane i
  else if (i =? _A_SIZE + 1)%Z then _A_lane _A_SIZE
  else nan.

Definition _AT_HALF : float := 4096.
Definition _AT_SIZE : Z := 4096 * 2.

(** [_AT] is a [Float32Array]. *)
Definition _AT_lane (i : Z) : float :=
  Js.fround (Math_atan (Js.of_Z i / _AT_HALF - 1) * RAD2DEG).

Definition _AT (i : Z) : float :=
  if (0 <=? i)%Z && (i <=? _AT_SIZE)%Z then _AT_lane i
  else if (i =? _AT_SIZE + 1)%Z then _AT_lane _AT_SIZE
  else nan.

Definition tSin (deg : float) : float :=
  let idx := deg * _S_SCALE + _S_BASE in
  let i := Js.ToInt32 idx in
  _S i + (idx - Js.of_Z i) * (_S (i + 1) - _S i).

Definition tCos (deg : float) : float :=
  let idx := deg * _S_SCALE + _C_BASE in
  let i := Js.ToInt32 idx in
  _S i + (idx - Js.of_Z i) * (_S (i + 1) - _S i).

Definition tAcos (x : float) : float :=
  let cx := Js.max (-1) (Js.min 1 x) in
  let idx := (cx + 1) * _A_HALF in
  let i := Js.ToInt32 idx in
  _A i + (idx - Js.of_Z i) * (_A (i + 1) - _A i).

Definition tAtan (x : float) : float :=
  let idx := (x + 1) * _AT_HALF in
  let i := Js.ToInt32 idx in
  _AT i + (idx - Js.of_Z i) * (_AT (i + 1) - _AT i).

(** *** Solar position cache *)

Definition cache_index (jd : float) : Z :=
  Z.land (Js.ToInt32 (jd + 0.5)) CACHE_MASK.

(** The cached value may be [undefined]: a slot whose key is still the
    initial [0] answers a lookup of Julian Date [0]. *)
Definition cachedSolarPosition (jd : float) (st : Engine)
    : Engine * option SolarPosition :=
  let idx := cache_index jd in
  if JD_get (_cacheJDs st) idx =? jd then (st, _cacheVals st idx)
  else
    let sp := solarPosition jd in
    (with_solar st (JD_set (_cacheJDs st) idx jd)
                (fun j => if (j =? idx)%Z then Some sp else _cacheVals st j),
     Some sp).

(** *** Lightweight valid result: [_cf] packs clamped (bit 0) and the
    fallback type (bits 1-4) *)

Record V : Type := {
  V_ms : float;
  _co : option float;
  _cf : float;
  _ta : float
}.

Definition bit_set (x : float) (mask : Z) : bool :=
  negb (Z.land (Js.ToInt32 x) mask =? 0)%Z.

Definition V_diagnostics (v : V) : PrayerDiagnostics :=
  let cf := _cf v in
  {| cosOmega := _co v;
     clamped := bit_set cf 1;
     fallbackUsed :=
       if bit_set cf 2 then Some "interval"%string
       else if bit_set cf 4 then Some "middle_of_night"%string
       else if bit_set cf 8 then Some "seventh_of_night"%string
       else if bit_set cf 16 then Some "twilight_angle"%string
       else None;
     targetAltitude := _ta v |}.

(** A [V] seen through the [PrayerTimeResult] interface. *)
Definition V_result (v : V) : PrayerTimeResult :=
  valid (V_ms v) (V_diagnostics v).

Definition DERIVED_DIAG : PrayerDiagnostics :=
  {| cosOmega := None; clamped := false; fallbackUsed := None;
     targetAltitude := 0 |}.

Definition UNDEFINED_REASON : string := "sun never reaches target altitude".

Definition UNDEF_NIGHT : PrayerTimeResult :=
  undefined "sunset or sunrise undefined" DERIVED_DIAG.

Definition UNDEF_FAJR : PrayerTimeResult :=
  undefined "fajr is undefined" DERIVED_DIAG.

(** [co !== co ? null : co] *)
Definition nan_to_null (co : float) : option float :=
  if is_nan co then None else Some co.

Definition _vFromSlot (S : Z -> float) (o p : Z) : V :=
  let co := SLAB_get S (o + 6 + p) in
  {| V_ms := SLAB_get S (o + p);
     _co := nan_to_null co;
     _cf := SLAB_get S (o + 12 + p);
     _ta := SLAB_get S (o + 18 + p) |}.

Definition _undefFromSlot (S : Z -> float) (o p : Z) : PrayerTimeResult :=
  let co := SLAB_get S (o + 6 + p) in
  undefined UNDEFINED_REASON
    {| cosOmega := nan_to_null co;
       clamped := false;
       fallbackUsed := None;
       targetAltitude := SLAB_get S (o + 18 + p) |}.

(** *** The output view: a slab offset and the undefined bitmask.  Every
    getter reads the slab at the time it is called. *)

Record PTR : Type := { _o : Z; _uf : Z }.

Definition uf_has (uf mask : Z) : bool := negb (Z.land uf mask =? 0)%Z.

Section Getters.
Variable S : Z -> float.
Variable this : PTR.

Definition PTR_fajr : PrayerTimeResult :=
  if uf_has (_uf this) 1 then _undefFromSlot S (_o this) 0
  else V_result (_vFromSlot S (_o this) 0).

Definition PTR_sunrise : PrayerTimeResult :=
  if uf_has (_uf this) 2 then _undefFromSlot S (_o this) 1
  else V_result (_vFromSlot S (_o this) 1).

Definition PTR_dhuhr : PrayerTimeResult :=
  V_result (_vFromSlot S (_o this) 2).

Definition PTR_asr : PrayerTimeResult :=
  if uf_has (_uf this) 4 then _undefFromSlot S (_o this) 3
  else V_result (_vFromSlot S (_o this) 3).

Definition PTR_sunset : PrayerTimeResult :=
  if uf_has (_uf this) 8 then _undefFromSlot S (_o this) 4
  else
    let o := _o this in
    let co := SLAB_get S (o + 10) in
    V_result {| V_ms := SLAB_get S (o + 28);
                _co := nan_to_null co;
                _cf := SLAB_get S (o + 16);
                _ta := SLAB_get S (o + 22) |}.

Definition PTR_maghrib : PrayerTimeResult :=
  if uf_has (_uf this) 8 then _undefFromSlot S (_o this) 4
  else V_result (_vFromSlot S (_o this) 4).

Definition PTR_isha : PrayerTimeResult :=
  if uf_has (_uf this) 16 then _undefFromSlot S (_o this) 5
  else V_result (_vFromSlot S (_o this) 5).

Definition PTR_midnight : PrayerTimeResult :=
  if uf_has (_uf this) 10 then UNDEF_NIGHT
  else
    let o := _o this in
    let sMs := SLAB_get S (o + 28) in
    V_result {| V_ms := sMs + (SLAB_get S (o + 1) + MS_PER_DAY - sMs) * 0.5;
                _co := None; _cf := 0; _ta := 0 |}.

Definition PTR_imsak : PrayerTimeResult :=
  if uf_has (_uf this) 1 then UNDEF_FAJR
  else V_result {| V_ms := SLAB_get S (_o this) - 10 * MS_PER_MIN;
                   _co := None; _cf := 0; _ta := 0 |}.

Definition PTR_firstThird : PrayerTimeResult :=
  if uf_has (_uf this) 10 then UNDEF_NIGHT
  else
    let o := _o this in
    let sMs := SLAB_get S (o + 28) in
    V_result {| V_ms := sMs + (SLAB_get S (o + 1) + MS_PER_DAY - sMs) / 3;
                _co := None; _cf := 0; _ta := 0 |}.

Definition PTR_lastThird : PrayerTimeResult :=
  if uf_has (_uf this) 10 then UNDEF_NIGHT
  else
    let o := _o this in
    let sMs := SLAB_get S (o + 28) in
    V_result {| V_ms := sMs + (SLAB_get S (o + 1) + MS_PER_DAY - sMs) * (2 / 3);
                _co := None; _cf := 0; _ta := 0 |}.

Definition PTR_meta : Meta :=
  let o := _o this in
  {| meta_declination := SLAB_get S (o + 24);
     meta_eqtMinutes := SLAB_get S (o + 25);
     solarNoonMs := SLAB_get S (o + 26);
     julianDate := SLAB_get S (o + 27) |}.

(** All twelve getters read at once. *)
Definition PTR_read : PrayerTimesOutput :=
  {| out_fajr := PTR_fajr; out_sunrise := PTR_sunrise;
     out_dhuhr := PTR_dhuhr; out_asr := PTR_asr;
     out_sunset := PTR_sunset; out_maghrib := PTR_maghrib;
     out_isha := PTR_isha; out_midnight := PTR_midnight;
     out_imsak := PTR_imsak; out_firstThird := PTR_firstThird;
     out_lastThird := PTR_lastThird; out_meta := PTR_meta |}.
End Getters.

(** *** Core computation kernel: writes to the slab at offset [o] and
    returns the [uf] bitmask (bit 0 = fajr, 1 = sunrise, 2 = asr,
    3 = sunset/maghrib, 4 = isha) *)

(** 0. Config cache: skip recomputation if location, method and
    adjustments are unchanged. *)
Definition cc_changed (config : ResolvedInput) (c : ConfigCache) : bool :=
  Js.strict_ne (r_latitude config) (_ccLat c) ||
  Js.strict_ne (r_longitude config) (_ccLng c) ||
  Js.strict_ne (r_elevation config) (_ccElev c) ||
  Js.strict_ne (method_fajr (r_method config)) (_ccFajr c) ||
  Js.strict_ne (method_isha (r_method config)) (_ccIsha c) ||
  optnum_strict_ne (ishaInterval (r_method config)) (_ccIshaInt c) ||
  negb (match _ccMadhab c with
        | Some m => Madhab_eqb (r_madhab config) m
        | None => false
        end) ||
  Js.strict_ne (adj_fajr (r_adjustments config)) (_ccAdjF c) ||
  Js.strict_ne (adj_sunrise (r_adjustments config)) (_ccAdjSr c) ||
  Js.strict_ne (adj_dhuhr (r_adjustments config)) (_ccAdjD c) ||
  Js.strict_ne (adj_asr (r_adjustments config)) (_ccAdjA c) ||
  Js.strict_ne (adj_maghrib (r_adjustments config)) (_ccAdjM c) ||
  Js.strict_ne (adj_isha (r_adjustments config)) (_ccAdjI c).

Definition cc_refresh (config : ResolvedInput) : ConfigCache :=
  let cosLat := tCos (r_latitude config) in
  let horizonAlt := - (0.8333 + 0.0347 * Math_sqrt (r_elevation config)) in
  let fajrAlt := - method_fajr (r_method config) in
  let ishaAlt := - method_isha (r_method config) in
  {| _ccLat := r_latitude config;
     _ccLng := r_longitude config;
     _ccElev := r_elevation config;
     _ccFajr := method_fajr (r_method config);
     _ccIsha := method_isha (r_method config);
     _ccIshaInt := ishaInterval (r_method config);
     _ccMadhab := Some (r_madhab config);
     _ccAdjF := adj_fajr (r_adjustments config);
     _ccAdjSr := adj_sunrise (r_adjustments config);
     _ccAdjD := adj_dhuhr (r_adjustments config);
     _ccAdjA := adj_asr (r_adjustments config);
     _ccAdjM := adj_maghrib (r_adjustments config);
     _ccAdjI := adj_isha (r_adjustments config);
     _sinLat := tSin (r_latitude config);
     _cosLat := cosLat;
     _Lw := - r_longitude config;
     _360cosLat := 360 * cosLat;
     _horizonAlt := horizonAlt;
     _sinHorizonAlt := tSin horizonAlt;
     _base90Horizon := 90 - horizonAlt;
     _fajrAlt := fajrAlt;
     _sinFajrAlt := tSin fajrAlt;
     _base90Fajr := 90 - fajrAlt;
     _ishaAlt := ishaAlt;
     _sinIshaAlt := tSin ishaAlt;
     _base90Isha := 90 - ishaAlt;
     _adjFajrMs := adj_fajr (r_adjustments config) * MS_PER_MIN;
     _adjSunriseMs := adj_sunrise (r_adjustments config) * MS_PER_MIN;
     _adjDhuhrMs := adj_dhuhr (r_adjustments config) * MS_PER_MIN;
     _adjAsrMs := adj_asr (r_adjustments config) * MS_PER_MIN;
     _adjMaghribMs := adj_maghrib (r_adjustments config) * MS_PER_MIN;
     _adjIshaMs := adj_isha (r_adjustments config) * MS_PER_MIN;
     _shadowK := match r_madhab config with standard => 1 | hanafi => 2 end |}.

Definition configCache (config : ResolvedInput) (st : Engine) : Engine :=
  if cc_changed config (cc st) then with_cc st (cc_refresh config) else st.

(** 1. Julian Date and the DayConstants cache (location-independent).
    The boolean is [false] when a property of an [undefined] solar position
    is read, which throws a [TypeError] after the three cache lookups. *)
Definition julDate_of (config : ResolvedInput) : float :=
  r_date config / 86400000 + 2440587.5.

Definition dayConstants (julDate : float) (st : Engine) : Engine * bool :=
  let dcIdx := cache_index julDate in
  let dcBase := (dcIdx * DC_STRIDE)%Z in
  if Js.strict_ne (JD_get (_dcJDs st) dcIdx) julDate then
    let '(st1, prevSolar) := cachedSolarPosition (julDate - 1) st in
    let '(st2, solar) := cachedSolarPosition julDate st1 in
    let '(st3, nextSolar) := cachedSolarPosition (julDate + 1) st2 in
    match prevSolar, solar, nextSolar with
    | Some prevSolar, Some solar, Some nextSolar =>
        let ca2 := rightAscension solar in
        let cd2 := declination solar in
        let raA := normalizeDeg (ca2 - rightAscension prevSolar) in
        let raB := normalizeDeg (rightAscension nextSolar - ca2) in
        let declA := cd2 - declination prevSolar in
        let declB := declination nextSolar - cd2 in
        let d := _dc st3 in
        let d := DC_set d (dcBase + DC_THETA0) (apparentSiderealTime solar) in
        let d := DC_set d (dcBase + DC_A2) ca2 in
        let d := DC_set d (dcBase + DC_D2) cd2 in
        let d := DC_set d (dcBase + DC_RA_AB) (raA + raB) in
        let d := DC_set d (dcBase + DC_RA_C) (raB - raA) in
        let d := DC_set d (dcBase + DC_DECL_AB) (declA + declB) in
        let d := DC_set d (dcBase + DC_DECL_C) (declB - declA) in
        let d := DC_set d (dcBase + DC_SIN_D2) (tSin cd2) in
        let d := DC_set d (dcBase + DC_COS_D2) (tCos cd2) in
        let d := DC_set d (dcBase + DC_EQT) (eqtMinutes solar) in
        let d := DC_set d (dcBase + DC_MIDNIGHT_MS)
                   ((julDate - 2440587.5) * MS_PER_DAY) in
        (with_dc st3 (JD_set (_dcJDs st3) dcIdx julDate) d, true)
    | _, _, _ => (st3, false)
    end
  else (st, true).

Section Core.
Variable config : ResolvedInput.
Variable st : Engine.     (* the module state once steps 0 and 1 are done *)
Variable dcBase : Z.
Variable o : Z.

(** 2. Load day constants from cache; copy the cached module variables
    to locals. *)
Definition Theta0 : float := DC_get (_dc st) (dcBase + DC_THETA0).
Definition a2 : float := DC_get (_dc st) (dcBase + DC_A2).
Definition d2 : float := DC_get (_dc st) (dcBase + DC_D2).
Definition raAB : float := DC_get (_dc st) (dcBase + DC_RA_AB).
Definition raC : float := DC_get (_dc st) (dcBase + DC_RA_C).
Definition declAB : float := DC_get (_dc st) (dcBase + DC_DECL_AB).
Definition declC : float := DC_get (_dc st) (dcBase + DC_DECL_C).
Definition dateUtcMidnightMs : float :=
  DC_get (_dc st) (dcBase + DC_MIDNIGHT_MS).

Definition sinLat : float := _sinLat (cc st).
Definition cosLat : float := _cosLat (cc st).
Definition Lw : float := _Lw (cc st).
Definition c360cosLat : float := _360cosLat (cc st).
Definition horizonAlt : float := _horizonAlt (cc st).
Definition sinHorizonAlt : float := _sinHorizonAlt (cc st).
Definition base90Horizon : float := _base90Horizon (cc st).
Definition fajrAlt : float := _fajrAlt (cc st).
Definition sinFajrAlt : float := _sinFajrAlt (cc st).
Definition base90Fajr : float := _base90Fajr (cc st).
Definition ishaAlt : float := _ishaAlt (cc st).
Definition sinIshaAlt : float := _sinIshaAlt (cc st).
Definition base90Isha : float := _base90Isha (cc st).
Definition adjFajrMs : float := _adjFajrMs (cc st).
Definition adjSunriseMs : float := _adjSunriseMs (cc st).
Definition adjDhuhrMs : float := _adjDhuhrMs (cc st).
Definition adjAsrMs : float := _adjAsrMs (cc st).
Definition adjMaghribMs : float := _adjMaghribMs (cc st).
Definition adjIshaMs : float := _adjIshaMs (cc st).
Definition shadowK : float := _shadowK (cc st).
Definition sinLatSinD2 : float :=
  sinLat * DC_get (_dc st) (dcBase + DC_SIN_D2).
Definition cosLatCosD2 : float :=
  cosLat * DC_get (_dc st) (dcBase + DC_COS_D2).

(** 3. Transit (Dhuhr) *)
Definition m0Raw : float := (a2 + Lw - Theta0) * INV360.
Definition m0 : float := m0Raw - Js.floor m0Raw.

Definition transitTheta : float :=
  let t := Theta0 + 360.985647 * m0 in
  let t := if 360 <=? t then t - 360 else t in
  if 360 <=? t then t - 360 else t.

Definition transitA : float :=
  let a := a2 + m0 * 0.5 * (raAB + m0 * raC) in
  if 360 <=? a then a - 360 else if a <? 0 then a + 360 else a.

Definition rawTransitH : float := transitTheta - Lw - transitA.

Definition transitH : float :=
  if (-180 <=? rawTransitH) && (rawTransitH <=? 180) then rawTransitH
  else rawTransitH - 360 * Js.round (rawTransitH * INV360).

Definition transitUtcH : float := (m0 - transitH * INV360) * 24.

(** 4. Asr altitude (date-dependent) *)
Definition transitFrac : float := transitUtcH / 24.
Definition declAtTransit : float :=
  d2 + transitFrac * 0.5 * (declAB + transitFrac * declC).
Definition _asrDiff : float := abs (r_latitude config - declAtTransit).
Definition asrAlt : float :=
  tAtan (1 / (shadowK + tSin _asrDiff / tCos _asrDiff)).
Definition sinAsrAlt : float := tSin asrAlt.
Definition base90Asr : float := 90 - asrAlt.

(** 5. CHA prayers, written directly to the slab.  The source repeats
    the following refinement step in each of its five blocks; it yields
    [dm] for the trial fraction [m]. *)
Definition refine_dm (m base90 : float) : float :=
  let _t := Theta0 + 360.985647 * m in
  let _t := if 360 <=? _t then _t - 360 else _t in
  let _t := if 360 <=? _t then _t - 360 else _t in
  let _hn := m * 0.5 in
  let _a := a2 + _hn * (raAB + m * raC) in
  let _a := if 360 <=? _a then _a - 360
            else if _a <? 0 then _a + 360 else _a in
  let _d := d2 + _hn * (declAB + m * declC) in
  let _H := _t - Lw - _a in
  let _sd := tSin _d in
  let _cd := tCos _d in
  (base90 - tAcos (sinLat * _sd + cosLat * _cd * tCos _H)) /
  (c360cosLat * _cd * tSin _H).

Definition out_of_bounds (cosH0 : float) : bool :=
  (cosH0 <? NEG_COS_BOUND) || (POS_COS_BOUND <? cosH0).

Definition clamp_flag (cosH0 : float) : float :=
  Js.of_bool ((1 <? cosH0) || (cosH0 <? -1)).

(** Fajr (before transit, slot 0) *)
Definition fajrBlock (Su : (Z -> float) * Z) : (Z -> float) * Z :=
  let S := fst Su in
  let uf := snd Su in
  let cosH0 := (sinFajrAlt - sinLatSinD2) / cosLatCosD2 in
  let S := SLAB_set S (o + 6) cosH0 in
  let S := SLAB_set S (o + 18) fajrAlt in
  if out_of_bounds cosH0 then (S, Z.lor uf 1)
  else
    let S := SLAB_set S (o + 12) (clamp_flag cosH0) in
    let H0 := tAcos cosH0 in
    let m := m0 - H0 * INV360 in
    let dm := refine_dm m base90Fajr in
    (SLAB_set S (o + 0)
       (dateUtcMidnightMs + (m + dm) * MS_PER_DAY + adjFajrMs), uf).

(** Sunrise (slot 1) and Sunset/Maghrib (slots 28 and 4) *)
Definition sunBlock (Su : (Z -> float) * Z) : (Z -> float) * Z :=
  let S := fst Su in
  let uf := snd Su in
  let cosH0 := (sinHorizonAlt - sinLatSinD2) / cosLatCosD2 in
  let S := SLAB_set S (o + 7) cosH0 in
  let S := SLAB_set S (o + 10) cosH0 in
  let S := SLAB_set S (o + 19) horizonAlt in
  let S := SLAB_set S (o + 22) horizonAlt in
  if out_of_bounds cosH0 then (S, Z.lor uf 10)
  else
    let cf := clamp_flag cosH0 in
    let S := SLAB_set S (o + 13) cf in
    let S := SLAB_set S (o + 16) cf in
    let H0 := tAcos cosH0 in
    let mR := m0 - H0 * INV360 in
    let S := SLAB_set S (o + 1)
               (dateUtcMidnightMs +
                (mR + refine_dm mR base90Horizon) * MS_PER_DAY +
                adjSunriseMs) in
    let mS := m0 + H0 * INV360 in
    let sunsetMs :=
      dateUtcMidnightMs + (mS + refine_dm mS base90Horizon) * MS_PER_DAY in
    let S := SLAB_set S (o + 28) sunsetMs in
    (SLAB_set S (o + 4) (sunsetMs + adjMaghribMs), uf).

(** Dhuhr (slot 2, always valid) *)
Definition dhuhrBlock (Su : (Z -> float) * Z) : (Z -> float) * Z :=
  let S := fst Su in
  let uf := snd Su in
  let S := SLAB_set S (o + 2)
             (dateUtcMidnightMs + transitUtcH * 3600000 + adjDhuhrMs) in
  let S := SLAB_set S (o + 8) nan in
  let S := SLAB_set S (o + 14) 0 in
  (SLAB_set S (o + 20) 90, uf).

(** Asr (slot 3) *)
Definition asrBlock (Su : (Z -> float) * Z) : (Z -> float) * Z :=
  let S := fst Su in
  let uf := snd Su in
  let cosH0 := (sinAsrAlt - sinLatSinD2) / cosLatCosD2 in
  let S := SLAB_set S (o + 9) cosH0 in
  let S := SLAB_set S (o + 21) asrAlt in
  if out_of_bounds cosH0 then (S, Z.lor uf 4)
  else
    let S := SLAB_set S (o + 15) (clamp_flag cosH0) in
    let H0 := tAcos cosH0 in
    let m := m0 + H0 * INV360 in
    let dm := refine_dm m base90Asr in
    (SLAB_set S (o + 3)
       (dateUtcMidnightMs + (m + dm) * MS_PER_DAY + adjAsrMs), uf).

(** Isha (slot 5) *)
Definition ishaBlock (Su : (Z -> float) * Z) : (Z -> float) * Z :=
  let S := fst Su in
  let uf := snd Su in
  if not_nullish (ishaInterval (r_method config)) && negb (uf_has uf 8)
  then
    let S := SLAB_set S (o + 5)
               (SLAB_get S (o + 4) +
                (optnum_value (ishaInterval (r_method config)) +
                 adj_isha (r_adjustments config)) * MS_PER_MIN) in
    let S := SLAB_set S (o + 11) nan in
    let S := SLAB_set S (o + 17) 2 in
    (SLAB_set S (o + 23) 0, uf)
  else
    let cosH0 := (sinIshaAlt - sinLatSinD2) / cosLatCosD2 in
    let S := SLAB_set S (o + 11) cosH0 in
    let S := SLAB_set S (o + 23) ishaAlt in
    if out_of_bounds cosH0 then (S, Z.lor uf 16)
    else
      let S := SLAB_set S (o + 17) (clamp_flag cosH0) in
      let H0 := tAcos cosH0 in
      let m := m0 + H0 * INV360 in
      let dm := refine_dm m base90Isha in
      (SLAB_set S (o + 5)
         (dateUtcMidnightMs + (m + dm) * MS_PER_DAY + adjIshaMs), uf).

Definition chaPrayers (S : Z -> float) : (Z -> float) * Z :=
  ishaBlock (asrBlock (dhuhrBlock (sunBlock (fajrBlock (S, 0%Z))))).

(** 6. High-latitude fallback, inlined with pure ms arithmetic *)
Definition is_none (rule : HighLatRule) : bool :=
  match rule with none => true | _ => false end.

Definition cfFlag_of (rule : HighLatRule) : float :=
  match rule with
  | middle_of_night => 4
  | seventh_of_night => 8
  | _ => 16
  end.

Definition fajr_fbMs (rule : HighLatRule)
    (sunsetMs nextSunriseMs nightMs : float) : float :=
  match rule with
  | middle_of_night => sunsetMs + nightMs * 0.5
  | seventh_of_night => nextSunriseMs - nightMs / 7
  | _ => nextSunriseMs - (method_fajr (r_method config) / 60) * nightMs
  end.

Definition isha_fbMs (rule : HighLatRule)
    (sunsetMs nightMs : float) : float :=
  match rule with
  | middle_of_night => sunsetMs + nightMs * 0.5
  | seventh_of_night => sunsetMs + nightMs / 7
  | _ => sunsetMs + (method_isha (r_method config) / 60) * nightMs
  end.

Definition highLatFallback (Su : (Z -> float) * Z) : (Z -> float) * Z :=
  let S := fst Su in
  let uf := snd Su in
  if negb (is_none (r_highLatRule config)) && negb (uf_has uf 10) then
    if uf_has uf 17 then
      let sunsetMs := SLAB_get S (o + 28) in
      let nextSunriseMs := SLAB_get S (o + 1) + MS_PER_DAY in
      let nightMs := nextSunriseMs - sunsetMs in
      if 0 <? nightMs then
        let rule := r_highLatRule config in
        let cfFlag := cfFlag_of rule in
        let Su1 :=
          if uf_has uf 1 then
            let fbMs := fajr_fbMs rule sunsetMs nextSunriseMs nightMs in
            let S := SLAB_set S (o + 0) (fbMs + adjFajrMs) in
            (SLAB_set S (o + 12) cfFlag, Z.land uf (Z.lnot 1))
          else (S, uf) in
        let S := fst Su1 in
        let uf := snd Su1 in
        if uf_has uf 16 then
          let fbMs := isha_fbMs rule sunsetMs nightMs in
          let S := SLAB_set S (o + 5) (fbMs + adjIshaMs) in
          (SLAB_set S (o + 17) cfFlag, Z.land uf (Z.lnot 16))
        else (S, uf)
      else (S, uf)
    else (S, uf)
  else (S, uf).

(** Meta values *)
Definition metaValues (julDate : float) (S : Z -> float) : Z -> float :=
  let S := SLAB_set S (o + 24) d2 in
  let S := SLAB_set S (o + 25) (DC_get (_dc st) (dcBase + DC_EQT)) in
  let S := SLAB_set S (o + 26) (dateUtcMidnightMs + transitUtcH * 3600000) in
  SLAB_set S (o + 27) julDate.

End Core.

(** Steps 0 to 5: the caches are consulted and the five blocks have
    written their lanes; [None] stands for the [TypeError]. *)
Definition coreEvents (config : ResolvedInput) (st : Engine) (o : Z)
    : Engine * option ((Z -> float) * Z) :=
  let st := configCache config st in
  let julDate := julDate_of config in
  let dcBase := (cache_index julDate * DC_STRIDE)%Z in
  match dayConstants julDate st with
  | (st, false) => (st, None)
  | (st, true) => (st, Some (chaPrayers config st dcBase o (_SLAB st)))
  end.

Definition _computeCore (config : ResolvedInput) (st : Engine) (o : Z)
    : Engine * option Z :=
  let julDate := julDate_of config in
  let dcBase := (cache_index julDate * DC_STRIDE)%Z in
  match coreEvents config st o with
  | (st, None) => (st, None)
  | (st, Some Su) =>
      let Su := highLatFallback config st o Su in
      (with_SLAB st (metaValues st dcBase o julDate (fst Su)), Some (snd Su))
  end.

(** *** Main entry point *)

(** [const o = _slabOff; _slabOff += 29; if (_slabOff >= _SLAB_LEN) _slabOff = 0] *)
Definition takeSlot (st : Engine) : Z * Engine :=
  let o := _slabOff st in
  let off := (o + 29)%Z in
  (o, with_slabOff st (if (_SLAB_LEN <=? off)%Z then 0%Z else off)).

Definition run_core (resolved : ResolvedInput) (st : Engine) : completion PTR :=
  let '(o, st) := takeSlot st in
  match _computeCore resolved st o with
  | (st, Some uf) => Normal st {| _o := o; _uf := uf |}
  | (st, None) => Throw st
  end.

Definition computePrayerTimes (config : PrayerTimeInput) (st : Engine)
    : completion PTR :=
  run_core (_resolve config) st.

(** *** Context API: construct the config once, call [compute] per day *)

Record PrayerContextConfig : Type := {
  ctx_latitude : float;
  ctx_longitude : float;
  ctx_elevation : option float;
  ctx_method : MethodInput;
  ctx_madhab : option Madhab;
  ctx_highLatRule : option HighLatRule;
  ctx_polarRule : option PolarRule;
  ctx_midnightMode : option MidnightMode;
  ctx_adjustments : option AdjustmentsInput;
  ctx_timezoneId : option string
}.

(** The context holds the [input] object its [compute] closes over. *)
Record PrayerContext : Type := { input : ResolvedInput }.

Definition createPrayerContext (config : PrayerContextConfig) : PrayerContext :=
  {| input :=
       {| r_latitude := ctx_latitude config;
          r_longitude := ctx_longitude config;
          r_date := 0;
          r_timezoneId := nullish (ctx_timezoneId config) "UTC"%string;
          r_method := ctx_method config;
          r_madhab := nullish (ctx_madhab config) standard;
          r_highLatRule := nullish (ctx_highLatRule config) middle_of_night;
          r_polarRule := nullish (ctx_polarRule config) unresolved;
          r_midnightMode :=
            Some (nullish (ctx_midnightMode config) midnight_standard);
          r_adjustments := nullish (ctx_adjustments config) _DEFAULT_ADJ;
          r_elevation := nullish (ctx_elevation config) 0 |} |}.

Definition set_date (r : ResolvedInput) (d : float) : ResolvedInput :=
  {| r_latitude := r_latitude r; r_longitude := r_longitude r;
     r_date := d; r_timezoneId := r_timezoneId r; r_method := r_method r;
     r_madhab := r_madhab r; r_highLatRule := r_highLatRule r;
     r_polarRule := r_polarRule r; r_midnightMode := r_midnightMode r;
     r_adjustments := r_adjustments r; r_elevation := r_elevation r |}.

(** [context.compute(date)]: [input.date = date], then the same kernel. *)
Definition compute (ctx : PrayerContext) (d : float) (st : Engine)
    : completion PTR :=
  run_core (set_date (input ctx) d) st.

End WithMath.
End Prayers.

(* ================================================================= *)
(** ** high-latitude.ts *)

Module HighLatitude.
Import Prayers.

Inductive Side : Type := side_fajr | side_isha.

Definition rule_name (rule : HighLatRule) : string :=
  match rule with
  | middle_of_night => "middle_of_night"
  | seventh_of_night => "seventh_of_night"
  | twilight_angle => "twilight_angle"
  | none => "none"
  end.

(** Apply high-latitude fallback to an undefined Fajr or Isha result;
    [original] is the [reason] and [diagnostics] of that result. *)
Definition applyHighLatFallback (reason : string) (diag : PrayerDiagnostics)
    (rule : HighLatRule) (sunsetMs sunriseMs angle : float) (side : Side)
    : PrayerTimeResult :=
  let original := undefined reason diag in
  match rule with
  | none => original
  | _ =>
      let nightMs := sunriseMs - sunsetMs in
      if nightMs <=? 0 then original
      else
        let utcMs :=
          match rule with
          | middle_of_night => sunsetMs + nightMs * 0.5
          | seventh_of_night =>
              let seventhMs := nightMs / 7 in
              match side with
              | side_fajr => sunriseMs - seventhMs
              | side_isha => sunsetMs + seventhMs
              end
          | _ =>
              let offsetMs := (angle / 60) * nightMs in
              match side with
              | side_fajr => sunriseMs - offsetMs
              | side_isha => sunsetMs + offsetMs
              end
          end in
        valid utcMs
          {| cosOmega := cosOmega diag;
             clamped := clamped diag;
             fallbackUsed := Some (rule_name rule);
             targetAltitude := targetAltitude diag |}
  end.

End HighLatitude.

(* ================================================================= *)
(** ** date-utils.ts *)

Module DateUtils.

(** Whether a Gregorian year is a leap year. *)
Definition isLeapYear (year : float) : bool :=
  if Js.strict_ne (Js.rem year 4) 0 then false
  else if (Js.rem year 100 =? 0) && Js.strict_ne (Js.rem year 400) 0
       then false
  else true.

(** Cumulative days before each month (non-leap). Index 0 = Jan. *)
Definition MONTH_CUM : list float :=
  [0; 31; 59; 90; 120; 151; 181; 212; 243; 273; 304; 334].

(** What [dayOfYear] asks of its [Date]: the calendar fields in local
    time. *)
Record Date : Type := {
  getFullYear : float;
  getMonth : float;
  getDate : float
}.

(** Day of year (1-366) for a Date. *)
Definition dayOfYear (date : Date) : float :=
  let m := getMonth date in
  Js.array_get MONTH_CUM m + getDate date +
  Js.of_bool ((1 <? m) && isLeapYear (getFullYear date)).

(** Number of days since the winter solstice. *)
Definition daysSinceSolstice (doy year latitude : float) : float :=
  let daysInYear := if isLeapYear year then 366 else 365 in
  if 0 <=? latitude then
    let d := doy + 10 in
    if daysInYear <=? d then d - daysInYear else d
  else
    let southernOffset := if isLeapYear year then 173 else 172 in
    let d := doy - southernOffset in
    if d <? 0 then d + daysInYear else d.

End DateUtils.

(* ================================================================= *)
(** ** prayer-utils.ts *)

Module PrayerUtils.
Import Prayers.

(** [Prayer] of schema.ts. *)
Inductive Prayer : Type :=
  fajr | sunrise | dhuhr | asr | maghrib | isha | none.

(** Prayer names in chronological order (daytime). *)
Definition PRAYER_ORDER : list Prayer :=
  [fajr; sunrise; dhuhr; asr; maghrib; isha].

(** The epoch ms for a given prayer, or [null] for ["none"] and for a
    prayer whose result is undefined. *)
Definition timeForPrayer (times : PrayerTimesOutput) (prayer : Prayer)
    : option float :=
  let of_result (result : PrayerTimeResult) :=
    match result with
    | valid ms _ => Some ms
    | undefined _ _ => None
    end in
  match prayer with
  | none => None
  | fajr => of_result (out_fajr times)
  | sunrise => of_result (out_sunrise times)
  | dhuhr => of_result (out_dhuhr times)
  | asr => of_result (out_asr times)
  | maghrib => of_result (out_maghrib times)
  | isha => of_result (out_isha times)
  end.

(** A [for] loop over prayers that returns the first one passing a test,
    ["none"] when the loop runs out. *)
Fixpoint first_passing (test : Prayer -> bool) (ps : list Prayer) : Prayer :=
  match ps with
  | [] => none
  | p :: ps => if test p then p else first_passing test ps
  end.

(** Which prayer is currently active: walks backward from Isha to Fajr. *)
Definition currentPrayer (times : PrayerTimesOutput) (nowMs : float)
    : Prayer :=
  first_passing
    (fun p =>
       match timeForPrayer times p with
       | Some t => t <=? nowMs
       | None => false
       end)
    (rev PRAYER_ORDER).

(** The next upcoming prayer. *)
Definition nextPrayer (times : PrayerTimesOutput) (nowMs : float)
    : Prayer :=
  first_passing
    (fun p =>
       match timeForPrayer times p with
       | Some t => nowMs <? t
       | None => false
       end)
    PRAYER_ORDER.

Record NightPortions : Type := { np_fajr : float; np_isha : float }.

(** Night portions used by high-latitude rules to bound Fajr/Isha. *)
Definition nightPortions (highLatRule : HighLatRule)
    (fajrAngle ishaAngle : float) : NightPortions :=
  match highLatRule with
  | middle_of_night => {| np_fajr := 1 / 2; np_isha := 1 / 2 |}
  | seventh_of_night => {| np_fajr := 1 / 7; np_isha := 1 / 7 |}
  | twilight_angle =>
      {| np_fajr := fajrAngle / 60; np_isha := ishaAngle / 60 |}
  | Prayers.none => {| np_fajr := 0; np_isha := 0 |}
  end.

Definition recommendedHighLatRule (latitude : float) : HighLatRule :=
  if 48 <? latitude then seventh_of_night else middle_of_night.

End PrayerUtils.

(* ================================================================= *)
(** ** sunnah.ts *)

Module Sunnah.

Record SunnahTimesResult : Type := {
  middleOfTheNight : float;
  lastThirdOfTheNight : float
}.

(** Sunnah night times from today's sunset and tomorrow's fajr. *)
Definition computeSunnahTimes (sunsetMs nextDayFajrMs : float)
    : SunnahTimesResult :=
  let nightMs := nextDayFajrMs - sunsetMs in
  {| middleOfTheNight := sunsetMs + nightMs * 0.5;
     lastThirdOfTheNight := sunsetMs + nightMs * (2 / 3) |}.

End Sunnah.

(* ================================================================= *)
(** ** schema.ts: the numeric validators *)

Module Schema.

(** [assert] returns its argument or throws a [RangeError]. *)
Inductive asserted : Type :=
| Returns (v : float)
| RangeError (message : string).

Definition Latitude_assert (v : float) : asserted :=
  if (v <? -90) || (90 <? v) then RangeError "Latitude out of range"
  else Returns v.

Definition Longitude_assert (v : float) : asserted :=
  if (v <? -180) || (180 <? v) then RangeError "Longitude out of range"
  else Returns v.

Definition Meters_assert (v : float) : asserted :=
  if v <? 0 then RangeError "Meters out of range" else Returns v.

End Schema.

(* ================================================================= *)
(** ** A double-precision [Math] object

    Argument reduction followed by Taylor polynomials.  It stands for the
    runtime's [Math] wherever the kernel is run on a concrete input; the
    general theorems hold for every [MathObject] and use nothing of it. *)

Module Series.

Definition horner (cs : list float) (z : float) : float :=
  fold_right (fun c acc => c + z * acc) 0 cs.

(** [1/1!, -1/3!, 1/5!, ...] and [1/0!, -1/2!, 1/4!, ...], built by division. *)
Fixpoint alt_inv_fact (n : nat) (k : float) (term : float) : list float :=
  match n with
  | O => []
  | S n' =>
      term :: alt_inv_fact n' (k + 2) (- term / ((k + 1) * (k + 2)))
  end.

Definition sin_coeffs : list float := alt_inv_fact 10 1 1.
Definition cos_coeffs : list float := alt_inv_fact 10 0 1.

Definition ksin (r : float) : float := r * horner sin_coeffs (r * r).
Definition kcos (r : float) : float := horner cos_coeffs (r * r).

(** [pi/2] split in a 33-bit head and its tail. *)
Definition pio2_hi : float := 0x1.921fb544p+0.
Definition pio2_lo : float := 0x1.0b4611a626331p-34.

Definition reduce (x : float) : Z * float :=
  let k := Js.round (x * (2 / Js.PI)) in
  ((Js.truncZ k mod 4)%Z, (x - k * pio2_hi) - k * pio2_lo).

Definition sin (x : float) : float :=
  if abs x <? 0x1p-26 then x
  else
    let '(q, r) := reduce x in
    if (q =? 0)%Z then ksin r
    else if (q =? 1)%Z then kcos r
    else if (q =? 2)%Z then - ksin r
    else - kcos r.

Definition cos (x : float) : float :=
  let '(q, r) := reduce x in
  if (q =? 0)%Z then kcos r
  else if (q =? 1)%Z then - ksin r
  else if (q =? 2)%Z then - kcos r
  else ksin r.

Definition tan (x : float) : float := sin x / cos x.

(** [1, -1/3, 1/5, ...] *)
Fixpoint alt_inv_odd (n : nat) (k : float) (sgn : float) : list float :=
  match n with
  | O => []
  | S n' => sgn / k :: alt_inv_odd n' (k + 2) (- sgn)
  end.

Definition atan_coeffs : list float := alt_inv_odd 24 1 1.

Definition katan (t : float) : float := t * horner atan_coeffs (t * t).

Definition atan (x : float) : float :=
  if is_nan x then nan
  else
    let a := abs x in
    let r :=
      if a <? 0x1p-27 then a
      else if a <=? 0.41421356237309503 then katan a
      else if a <=? 2.414213562373095 then Js.PI / 4 + katan ((a - 1) / (a + 1))
      else Js.PI / 2 - katan (1 / a) in
    if get_sign x then - r else r.

Definition atan2 (y x : float) : float :=
  if is_nan x || is_nan y then nan
  else if 0 <? x then
    if is_infinity x && is_infinity y
    then (if get_sign y then - (Js.PI / 4) else Js.PI / 4)
    else atan (y / x)
  else if x <? 0 then
    if is_infinity x && is_infinity y
    then (if get_sign y then - (3 * Js.PI / 4) else 3 * Js.PI / 4)
    else if get_sign y then atan (y / x) - Js.PI else atan (y / x) + Js.PI
  else if 0 <? y then Js.PI / 2
  else if y <? 0 then - (Js.PI / 2)
  else if get_sign x then (if get_sign y then - Js.PI else Js.PI)
  else y.

Definition asin (x : float) : float := atan2 x (sqrt ((1 - x) * (1 + x))).
Definition acos (x : float) : float := atan2 (sqrt ((1 - x) * (1 + x))) x.

End Series.

#[export] Instance SeriesMath : MathObject := {|
  Math_sin := Series.sin;
  Math_cos := Series.cos;
  Math_tan := Series.tan;
  Math_asin := Series.asin;
  Math_acos := Series.acos;
  Math_atan := Series.atan;
  Math_atan2 := Series.atan2;
  Math_sqrt := PrimFloat.sqrt
|}.

(* ================================================================= *)
(** ** Concrete inputs (config.ts profiles, cities and dates) *)

Module Examples.
Import Prayers.

Definition MWL : MethodInput :=
  {| method_fajr := 18; method_isha := 17;
     ishaInterval := JsNull; maghribAngle := JsNull |}.

Definition UmmAlQura : MethodInput :=
  {| method_fajr := 18.5; method_isha := 0;
     ishaInterval := JsNum 90; maghribAngle := JsNull |}.

Definition mkInput (lat lng d : float) (m : MethodInput) (md : Madhab)
    (rule : HighLatRule) (adj : AdjustmentsInput) : PrayerTimeInput :=
  {| latitude := lat; longitude := lng; date := d; timezoneId := "UTC";
     method := m; madhab := Some md; highLatRule := Some rule;
     polarRule := Some unresolved; midnightMode := Some midnight_standard;
     adjustments := Some adj; elevation := Some 0 |}.

(** 2026-02-25 and 2026-06-21, 00:00 UTC, in epoch milliseconds. *)
Definition d_2026_02_25 : float := 1771977600000.
Definition d_2026_06_21 : float := 1782000000000.

Definition chittagong : PrayerTimeInput :=
  mkInput 22.3569 91.7832 d_2026_02_25 MWL hanafi twilight_angle NO_ADJUSTMENTS.

Definition london : PrayerTimeInput :=
  mkInput 51.5074 (-0.1278) d_2026_06_21 MWL hanafi twilight_angle NO_ADJUSTMENTS.

Definition mecca : PrayerTimeInput :=
  mkInput 21.4225 39.8262 d_2026_02_25 UmmAlQura hanafi twilight_angle
          NO_ADJUSTMENTS.

Definition polar : PrayerTimeInput :=
  mkInput 71.0 25.78 d_2026_06_21 MWL standard none NO_ADJUSTMENTS.

End Examples.

(* ================================================================= *)
(** * Vocabulary of the statements *)

Import Prayers.

(** ** Completed calls *)

Definition state_of {A : Type} (c : completion A) : Engine :=
  match c with Normal st _ => st | Throw st => st end.

Definition value_of {A : Type} (c : completion A) : option A :=
  match c with Normal _ a => Some a | Throw _ => None end.

(** The output object with every getter read right after the call. *)
Definition output_of (c : completion PTR) : option PrayerTimesOutput :=
  match c with
  | Normal st p => Some (PTR_read (_SLAB st) p)
  | Throw _ => None
  end.

Definition ms_of (r : PrayerTimeResult) : float :=
  match r with valid m _ => m | undefined _ _ => nan end.

Definition is_undefined (r : PrayerTimeResult) : bool :=
  match r with undefined _ _ => true | valid _ _ => false end.

(** No undefined bit set: the six primary events are all defined. *)
Definition primary_defined (o : PrayerTimesOutput) : bool :=
  negb (is_undefined (out_fajr o) || is_undefined (out_sunrise o) ||
        is_undefined (out_dhuhr o) || is_undefined (out_asr o) ||
        is_undefined (out_maghrib o) || is_undefined (out_isha o)).

(** ** Engine states *)

(** A slot [o] handed out by [takeSlot] leaves room for its 29 lanes. *)
Definition slot_ok (o : Z) : Prop := (0 <= o <= _SLAB_LEN - 29)%Z.

(** The config cache is coherent for a configuration when a hit would serve
    the values that configuration derives. *)
Definition cc_ok {Math : MathObject} (st : Engine) (r : ResolvedInput) : Prop :=
  cc_changed r (cc st) = false -> cc st = cc_refresh r.

(** The config cache with the two maghrib entries replaced. *)
Definition cc_set_maghrib (c : ConfigCache) (k ms : float) : ConfigCache :=
  {| _ccLat := _ccLat c; _ccLng := _ccLng c; _ccElev := _ccElev c;
     _ccFajr := _ccFajr c; _ccIsha := _ccIsha c; _ccIshaInt := _ccIshaInt c;
     _ccMadhab := _ccMadhab c; _ccAdjF := _ccAdjF c; _ccAdjSr := _ccAdjSr c;
     _ccAdjD := _ccAdjD c; _ccAdjA := _ccAdjA c; _ccAdjM := k;
     _ccAdjI := _ccAdjI c;
     _sinLat := _sinLat c; _cosLat := _cosLat c; _Lw := _Lw c;
     _360cosLat := _360cosLat c; _horizonAlt := _horizonAlt c;
     _sinHorizonAlt := _sinHorizonAlt c; _base90Horizon := _base90Horizon c;
     _fajrAlt := _fajrAlt c; _sinFajrAlt := _sinFajrAlt c;
     _base90Fajr := _base90Fajr c; _ishaAlt := _ishaAlt c;
     _sinIshaAlt := _sinIshaAlt c; _base90Isha := _base90Isha c;
     _adjFajrMs := _adjFajrMs c; _adjSunriseMs := _adjSunriseMs c;
     _adjDhuhrMs := _adjDhuhrMs c; _adjAsrMs := _adjAsrMs c;
     _adjMaghribMs := ms; _adjIshaMs := _adjIshaMs c;
     _shadowK := _shadowK c |}.

(** A key no cleared slot holds: neither [0] nor [-0]. *)
Definition nonzero (x : float) : Prop := (x =? 0) = false.

(** A Julian Date whose day-constants lookup and three solar lookups use
    such keys. *)
Definition ordinary (jd : float) : Prop :=
  nonzero (jd - 1) /\ nonzero jd /\ nonzero (jd + 1).


(** ** Dates at UTC midnight *)


(** Days counted in a machine integer, to test a range of them by
    evaluation. *)
Module DayCount.
Import PrimInt63.




End DayCount.

Section CacheCoherence.
Context {Math : MathObject}.

(** The day constants the miss path stores for a Julian Date, by lane. *)
Definition dc_row (jd : float) (k : Z) : float :=
  let prevSolar := Solar.solarPosition (jd - 1) in
  let solar := Solar.solarPosition jd in
  let nextSolar := Solar.solarPosition (jd + 1) in
  let ca2 := Solar.rightAscension solar in
  let cd2 := Solar.declination solar in
  let raA := Units.normalizeDeg (ca2 - Solar.rightAscension prevSolar) in
  let raB := Units.normalizeDeg (Solar.rightAscension nextSolar - ca2) in
  let declA := cd2 - Solar.declination prevSolar in
  let declB := Solar.declination nextSolar - cd2 in
  match k with
  | 0%Z => Solar.apparentSiderealTime solar
  | 1%Z => ca2
  | 2%Z => cd2
  | 3%Z => raA + raB
  | 4%Z => raB - raA
  | 5%Z => declA + declB
  | 6%Z => declB - declA
  | 7%Z => tSin cd2
  | 8%Z => tCos cd2
  | 9%Z => Solar.eqtMinutes solar
  | _ => (jd - 2440587.5) * MS_PER_DAY
  end.

(** Every slot whose key is not a cleared one holds what the miss path
    would store under that key. *)
Definition solar_coherent (st : Engine) : Prop :=
  forall i, (0 <= i < 512)%Z ->
    (JD_get (_cacheJDs st) i =? 0) = true \/
    _cacheVals st i = Some (Solar.solarPosition (JD_get (_cacheJDs st) i)).

Definition dc_coherent (st : Engine) : Prop :=
  forall i, (0 <= i < 512)%Z ->
    (JD_get (_dcJDs st) i =? 0) = true \/
    forall j, (0 <= j <= 10)%Z ->
      DC_get (_dc st) (i * DC_STRIDE + j) = dc_row (JD_get (_dcJDs st) i) j.

(** The slab offset is the start of one of the ring's slots. *)
Definition slot_aligned (st : Engine) : Prop :=
  exists n, (0 <= n < _SLAB_SLOTS)%Z /\ _slabOff st = (29 * n)%Z.

Definition engine_ok (st : Engine) : Prop :=
  solar_coherent st /\ dc_coherent st /\ slot_aligned st.

End CacheCoherence.

(** ** Histories of a context *)





(** ** The kernel's branch conditions *)

Section BranchConditions.
Context {Math : MathObject}.
Variable config : ResolvedInput.
Variable st : Engine.
Variable dcBase : Z.

(** The four [cosH0] values the blocks compute. *)
Definition fajr_cosH0 : float :=
  (sinFajrAlt st - sinLatSinD2 st dcBase) / cosLatCosD2 st dcBase.

Definition sun_cosH0 : float :=
  (sinHorizonAlt st - sinLatSinD2 st dcBase) / cosLatCosD2 st dcBase.

Definition asr_cosH0 : float :=
  (sinAsrAlt config st dcBase - sinLatSinD2 st dcBase) / cosLatCosD2 st dcBase.

Definition isha_cosH0 : float :=
  (sinIshaAlt st - sinLatSinD2 st dcBase) / cosLatCosD2 st dcBase.

(** The isha time of the angle branch: the trial fraction for the hour
    angle of [isha_cosH0] after transit, refined once, as a time of the day
    plus the isha adjustment. *)
Definition isha_by_angle : float :=
  let m := m0 st dcBase + tAcos isha_cosH0 * INV360 in
  dateUtcMidnightMs st dcBase +
  (m + refine_dm st dcBase m (base90Isha st)) * MS_PER_DAY + adjIshaMs st.

(** Whether isha takes the interval branch, given the mask so far. *)
Definition by_interval (uf : Z) : bool :=
  not_nullish (ishaInterval (r_method config)) && negb (uf_has uf 8).

(** Isha's bit is set only on the angle branch. *)
Definition isha_undefined : bool :=
  negb (not_nullish (ishaInterval (r_method config)) &&
        negb (out_of_bounds sun_cosH0)) &&
  out_of_bounds isha_cosH0.

(** Whether the isha block writes the time lane: on the interval branch,
    or on the angle branch within bounds. *)
Definition isha_set (uf : Z) : bool :=
  by_interval uf || negb (out_of_bounds isha_cosH0).

End BranchConditions.

(** The undefined bitmask from the four conditions. *)
Definition mask (bF bS bA bI : bool) : Z :=
  ((if bF then 1 else 0) + (if bS then 10 else 0) +
   (if bA then 4 else 0) + (if bI then 16 else 0))%Z.

(** ** Slabs compared lane by lane *)

(** Two slabs that agree on every lane but [o + 4] and [o + 5]. *)
Definition agree_off (o : Z) (S S' : Z -> float) : Prop :=
  forall j, j <> (o + 4)%Z -> j <> (o + 5)%Z -> SLAB_get S j = SLAB_get S' j.

(** Related kernel states: the same mask, slabs agreeing off lanes 4, 5. *)
Definition rel (o : Z) (Su Su' : (Z -> float) * Z) : Prop :=
  agree_off o (fst Su) (fst Su') /\ snd Su = snd Su'.

(** Two slabs agree on the lanes [k] of their slots [o1] and [o2] that
    satisfy [P]. *)
Definition agree_on (o1 o2 : Z) (P : Z -> Prop) (S1 S2 : Z -> float) : Prop :=
  forall k, P k -> SLAB_get S1 (o1 + k) = SLAB_get S2 (o2 + k).

Definition rel_on (o1 o2 : Z) (P : Z -> Prop) (Su1 Su2 : (Z -> float) * Z)
    : Prop :=
  snd Su1 = snd Su2 /\ agree_on o1 o2 P (fst Su1) (fst Su2).

(** The lanes of a slot the getters read under the mask [uf]. *)
Definition observable (uf k : Z) : Prop :=
  In k [2; 6; 7; 8; 9; 10; 11; 14; 18; 19; 20; 21; 22; 23; 24; 25; 26; 27]%Z \/
  (uf_has uf 1 = false /\ In k [0; 12]%Z) \/
  (uf_has uf 8 = false /\ In k [1; 4; 13; 16; 28]%Z) \/
  (uf_has uf 4 = false /\ In k [3; 15]%Z) \/
  (uf_has uf 16 = false /\ In k [5; 17]%Z).

(** ** Configurations *)

(** Two resolved configurations that differ at most in the maghrib minute
    adjustment (in the fields the kernel reads). *)
Definition differ_in_maghrib_adjustment_only (r1 r2 : ResolvedInput) : Prop :=
  r_latitude r1 = r_latitude r2 /\
  r_longitude r1 = r_longitude r2 /\
  r_date r1 = r_date r2 /\
  r_method r1 = r_method r2 /\
  r_madhab r1 = r_madhab r2 /\
  r_highLatRule r1 = r_highLatRule r2 /\
  r_elevation r1 = r_elevation r2 /\
  adj_fajr (r_adjustments r1) = adj_fajr (r_adjustments r2) /\
  adj_sunrise (r_adjustments r1) = adj_sunrise (r_adjustments r2) /\
  adj_dhuhr (r_adjustments r1) = adj_dhuhr (r_adjustments r2) /\
  adj_asr (r_adjustments r1) = adj_asr (r_adjustments r2) /\
  adj_isha (r_adjustments r1) = adj_isha (r_adjustments r2).

Definition omit_highLatRule (config : PrayerTimeInput) : PrayerTimeInput :=
  {| latitude := latitude config; longitude := longitude config;
     date := date config; timezoneId := timezoneId config;
     method := method config; madhab := madhab config;
     highLatRule := None; polarRule := polarRule config;
     midnightMode := midnightMode config;
     adjustments := adjustments config; elevation := elevation config |}.

Definition set_highLatRule (config : PrayerTimeInput) (rule : HighLatRule)
    : PrayerTimeInput :=
  {| latitude := latitude config; longitude := longitude config;
     date := date config; timezoneId := timezoneId config;
     method := method config; madhab := madhab config;
     highLatRule := Some rule; polarRule := polarRule config;
     midnightMode := midnightMode config;
     adjustments := adjustments config; elevation := elevation config |}.

Definition ctx_omit_highLatRule (config : PrayerContextConfig)
    : PrayerContextConfig :=
  {| ctx_latitude := ctx_latitude config;
     ctx_longitude := ctx_longitude config;
     ctx_elevation := ctx_elevation config;
     ctx_method := ctx_method config; ctx_madhab := ctx_madhab config;
     ctx_highLatRule := None; ctx_polarRule := ctx_polarRule config;
     ctx_midnightMode := ctx_midnightMode config;
     ctx_adjustments := ctx_adjustments config;
     ctx_timezoneId := ctx_timezoneId config |}.

Definition ctx_set_highLatRule (config : PrayerContextConfig)
    (rule : HighLatRule) : PrayerContextConfig :=
  {| ctx_latitude := ctx_latitude config;
     ctx_longitude := ctx_longitude config;
     ctx_elevation := ctx_elevation config;
     ctx_method := ctx_method config; ctx_madhab := ctx_madhab config;
     ctx_highLatRule := Some rule; ctx_polarRule := ctx_polarRule config;
     ctx_midnightMode := ctx_midnightMode config;
     ctx_adjustments := ctx_adjustments config;
     ctx_timezoneId := ctx_timezoneId config |}.

(** ** The high-latitude rules in the specification's words *)

(** [none] never reaches them. *)
Definition spec_fajr_fallback (rule : HighLatRule)
    (sunset nextSunrise night fajr_angle : float) : float :=
  match rule with
  | middle_of_night => sunset + night * 0.5
  | seventh_of_night => nextSunrise - night / 7
  | twilight_angle => nextSunrise - (fajr_angle / 60) * night
  | none => nan
  end.

Definition spec_isha_fallback (rule : HighLatRule)
    (sunset night isha_angle : float) : float :=
  match rule with
  | middle_of_night => sunset + night * 0.5
  | seventh_of_night => sunset + night / 7
  | twilight_angle => sunset + (isha_angle / 60) * night
  | none => nan
  end.

(** ** Scenarios *)

Module Scenarios.
Import Examples.

(** A call on a freshly loaded module, and one on a given engine state,
    both with the series for [Math]. *)
Definition fresh (config : PrayerTimeInput) : completion PTR :=
  computePrayerTimes (Math := SeriesMath) config initialEngine.

Definition then_compute (config : PrayerTimeInput) (st : Engine)
    : completion PTR :=
  computePrayerTimes (Math := SeriesMath) config st.

Definition maghrib_adjusted (k : float) : AdjustmentsInput :=
  {| adj_fajr := 0; adj_sunrise := 0; adj_dhuhr := 0; adj_asr := 0;
     adj_maghrib := k; adj_isha := 0 |}.

(** Mecca on 2026-02-25 with maghrib moved by [k] minutes. *)
Definition mecca_maghrib (k : float) : PrayerTimeInput :=
  mkInput 21.4225 39.8262 d_2026_02_25 MWL standard middle_of_night
          (maghrib_adjusted k).

Definition mecca_umm_al_qura (k : float) : PrayerTimeInput :=
  mkInput 21.4225 39.8262 d_2026_02_25 UmmAlQura hanafi twilight_angle
          (maghrib_adjusted k).

(** Tromso on 2026-01-30 and a point on the Antarctic coast on 2026-06-01,
    both with a sun that barely clears the horizon. *)
Definition tromso : PrayerTimeInput :=
  mkInput 69.6492 18.9553 1769731200000 MWL standard middle_of_night
          NO_ADJUSTMENTS.

Definition antarctic_coast : PrayerTimeInput :=
  mkInput (-68.78) 0 1780272000000 MWL standard none NO_ADJUSTMENTS.

(** An isha interval of zero minutes. *)
Definition zero_interval : PrayerTimeInput :=
  mkInput 21.4225 39.8262 d_2026_02_25
          {| method_fajr := 18.5; method_isha := 17;
             ishaInterval := JsNum 0; maghribAngle := JsNull |}
          standard middle_of_night NO_ADJUSTMENTS.

(** Mecca at the epoch of the Julian Date, and on 2026-05-23, whose Julian
    Date 2461183.5 shares cache slot 0 with it. *)
Definition mecca_on (d : float) : PrayerTimeInput :=
  mkInput 21.4225 39.8262 d MWL standard middle_of_night NO_ADJUSTMENTS.

Definition julian_epoch : float := -210866760000000.
Definition d_2026_05_23 : float := 1779494400000.

Definition dhuhr_ms (c : completion PTR) : option float :=
  option_map (fun o => ms_of (out_dhuhr o)) (output_of c).

End Scenarios.

(* ================================================================= *)
(** * Vocabulary of the further properties *)

(** ** Entry points *)

(** The one-shot configuration that a context configuration and a date
    stand for. *)
Definition as_input (config : PrayerContextConfig) (d : float)
    : PrayerTimeInput :=
  {| latitude := ctx_latitude config;
     longitude := ctx_longitude config;
     date := d;
     timezoneId := nullish (ctx_timezoneId config) "UTC"%string;
     method := ctx_method config;
     madhab := ctx_madhab config;
     highLatRule := ctx_highLatRule config;
     polarRule := ctx_polarRule config;
     midnightMode := ctx_midnightMode config;
     adjustments := ctx_adjustments config;
     elevation := ctx_elevation config |}.

(** A configuration with other values in [timezoneId], [polarRule] and
    [midnightMode]. *)
Definition with_unread (config : PrayerTimeInput) (tz : string)
    (pr : option PolarRule) (mm : option MidnightMode) : PrayerTimeInput :=
  {| latitude := latitude config;
     longitude := longitude config;
     date := date config;
     timezoneId := tz;
     method := method config;
     madhab := madhab config;
     highLatRule := highLatRule config;
     polarRule := pr;
     midnightMode := mm;
     adjustments := adjustments config;
     elevation := elevation config |}.

(** ** Sequences of calls *)

(** The engine after further calls, one per configuration, through either
    entry point; a call that throws leaves its state behind as well. *)
Definition then_calls {Math : MathObject} (rs : list ResolvedInput)
    (st : Engine) : Engine :=
  fold_left (fun st r => state_of (run_core r st)) rs st.

(** ** The atan table *)

(** The table index at which the kernel looks up the asr altitude: the
    index [tAtan] computes for [1 / (shadowK + tan |latitude - declination|)],
    on the day constants of the engine [st]. *)
Definition asr_atan_index {Math : MathObject} (r : ResolvedInput)
    (st : Engine) : Z :=
  let dcBase := (cache_index (julDate_of r) * DC_STRIDE)%Z in
  let d := _asrDiff r st dcBase in
  Js.ToInt32 ((1 / (shadowK st + tSin d / tCos d) + 1) * _AT_HALF).

(** ** The civil calendar *)

Definition gregorian_leap (y : Z) : bool :=
  ((y mod 4 =? 0) && (negb (y mod 100 =? 0) || (y mod 400 =? 0)))%Z.

(** Days of the month with index [m] (0 = January). *)
Definition month_length (leap : bool) (m : Z) : Z :=
  match m with
  | 1 => if leap then 29 else 28
  | 3 | 5 | 8 | 10 => 30
  | _ => 31
  end%Z.

Definition year_length (leap : bool) : Z := if leap then 366%Z else 365%Z.

(** Days of the year before the month with index [m]. *)
Definition days_before (leap : bool) (m : Z) : Z :=
  fold_right Z.add 0%Z
    (map (fun i => month_length leap (Z.of_nat i)) (seq 0 (Z.to_nat m))).

(** The day after year [y], month [m] (1 = January), day [d]. *)
Definition tomorrow (ymd : Z * Z * Z) : Z * Z * Z :=
  let '(y, m, d) := ymd in
  if (d <? month_length (gregorian_leap y) (m - 1))%Z then (y, m, d + 1)%Z
  else if (m <? 12)%Z then (y, m + 1, 1)%Z
  else (y + 1, 1, 1)%Z.

Definition julian_date_of (ymd : Z * Z * Z) : float :=
  let '(y, m, d) := ymd in
  Solar.toJulianDate (Js.of_Z y) (Js.of_Z m) (Js.of_Z d).

(** ** Checking a test on a range of integers *)

(** [test lo], [test (lo + 1)], ..., [n] of them. *)
Fixpoint holds_from (test : Z -> bool) (lo : Z) (n : nat) : bool :=
  match n with
  | O => true
  | S n => if test lo then holds_from test (lo + 1) n else false
  end.

(** ** The daily order of the prayers *)

Module Daily.
Import PrayerUtils.

(** The place of a prayer in [PRAYER_ORDER], from 1; 0 for ["none"]. *)
Definition place (p : Prayer) : Z :=
  match p with
  | none => 0 | fajr => 1 | sunrise => 2 | dhuhr => 3
  | asr => 4 | maghrib => 5 | isha => 6
  end%Z.

(** The prayer after a given one; fajr after none and none after isha. *)
Definition following (p : Prayer) : Prayer :=
  match p with
  | none => fajr | fajr => sunrise | sunrise => dhuhr | dhuhr => asr
  | asr => maghrib | maghrib => isha | isha => none
  end.

(** A prayer whose time is defined and has come, and one whose time is
    defined and still ahead. *)
Definition due (times : PrayerTimesOutput) (nowMs : float) (p : Prayer)
    : bool :=
  match timeForPrayer times p with
  | Some t => t <=? nowMs
  | None => false
  end.

Definition ahead (times : PrayerTimesOutput) (nowMs : float) (p : Prayer)
    : bool :=
  match timeForPrayer times p with
  | Some t => nowMs <? t
  | None => false
  end.

(** All six times are defined and none is earlier than the one before. *)
Definition chronological (times : PrayerTimesOutput) : Prop :=
  exists t1 t2 t3 t4 t5 t6,
    timeForPrayer times fajr = Some t1 /\
    timeForPrayer times sunrise = Some t2 /\
    timeForPrayer times dhuhr = Some t3 /\
    timeForPrayer times asr = Some t4 /\
    timeForPrayer times maghrib = Some t5 /\
    timeForPrayer times isha = Some t6 /\
    (t1 <=? t2) = true /\ (t2 <=? t3) = true /\ (t3 <=? t4) = true /\
    (t4 <=? t5) = true /\ (t5 <=? t6) = true.

End Daily.

(** ** The Julian Date, month by month *)

(** The part of [toJulianDate] that depends on the year and the month only:
    the sum of the two floors, and the century term [B]. *)
Definition month_base (y m : Z) : float * float :=
  let year := Js.of_Z y in
  let month := Js.of_Z m in
  let '(y, m) :=
    if month <=? 2 then (year - 1, month + 12) else (year, month) in
  let A := Js.floor (y / 100) in
  let B := 2 - A + Js.floor (A / 4) in
  (Js.floor (365.25 * (y + 4716)) + Js.floor (30.6001 * (m + 1)), B).

Definition julian_date_from (base : float * float) (d : Z) : float :=
  fst base + Js.of_Z d + snd base - 1524.5.

Definition next_month (y m : Z) : Z * Z :=
  if (m <? 12)%Z then (y, m + 1)%Z else (y + 1, 1)%Z.

(** Within the month and into the next one, the Julian Date grows by one
    each day. *)
Definition month_steps_by_one (y m : Z) : bool :=
  let base := month_base y m in
  let len := month_length (gregorian_leap y) (m - 1) in
  holds_from
    (fun d =>
       implb (d <? len)%Z
         (PrimFloat.Leibniz.eqb (julian_date_from base (d + 1))
            (julian_date_from base d + 1)))
    1 30 &&
  (let '(y', m') := next_month y m in
   PrimFloat.Leibniz.eqb (julian_date_from (month_base y' m') 1)
     (julian_date_from base len + 1)).

(** ** Configurations that differ in a prayer's own inputs *)

(** Two resolved configurations that differ at most in the madhab and in
    the fajr, dhuhr, asr and isha minute adjustments. *)
Definition differ_in_own_inputs (r1 r2 : ResolvedInput) : Prop :=
  r_latitude r1 = r_latitude r2 /\
  r_longitude r1 = r_longitude r2 /\
  r_date r1 = r_date r2 /\
  r_method r1 = r_method r2 /\
  r_highLatRule r1 = r_highLatRule r2 /\
  r_elevation r1 = r_elevation r2 /\
  adj_sunrise (r_adjustments r1) = adj_sunrise (r_adjustments r2) /\
  adj_maghrib (r_adjustments r1) = adj_maghrib (r_adjustments r2).

(** The lanes of a slot such inputs reach: the time lane of a prayer whose
    adjustment differs, and the four asr lanes when the madhab or the asr
    adjustment differs. *)
Definition own_lane (r1 r2 : ResolvedInput) (k : Z) : Prop :=
  (k = 0%Z /\ adj_fajr (r_adjustments r1) <> adj_fajr (r_adjustments r2)) \/
  (k = 2%Z /\ adj_dhuhr (r_adjustments r1) <> adj_dhuhr (r_adjustments r2)) \/
  (k = 5%Z /\ adj_isha (r_adjustments r1) <> adj_isha (r_adjustments r2)) \/
  ((k = 3 \/ k = 9 \/ k = 15 \/ k = 21)%Z /\
   ~ (r_madhab r1 = r_madhab r2 /\
      adj_asr (r_adjustments r1) = adj_asr (r_adjustments r2))).

(** Two slabs agree on the lanes of slot [o] that are not in [X]. *)
Definition agree_but (o : Z) (X : Z -> Prop) (S S' : Z -> float) : Prop :=
  forall k, ~ X k -> SLAB_get S (o + k) = SLAB_get S' (o + k).

(** The undefined mask without its asr bit. *)
Definition asr_free (uf : Z) : Z := Z.land uf (Z.lnot 4).

(** Related kernel states: slabs agreeing off [X], masks agreeing off the
    asr bit, and altogether when [A] holds. *)
Definition rel_but (o : Z) (X : Z -> Prop) (A : Prop)
    (Su Su' : (Z -> float) * Z) : Prop :=
  agree_but o X (fst Su) (fst Su') /\
  asr_free (snd Su) = asr_free (snd Su') /\
  (A -> snd Su = snd Su').

(** ** Defaults *)

(** The configuration with every omitted field given its default. *)
Definition with_defaults (config : PrayerTimeInput) : PrayerTimeInput :=
  {| latitude := latitude config;
     longitude := longitude config;
     date := date config;
     timezoneId := timezoneId config;
     method := method config;
     madhab := Some (nullish (madhab config) standard);
     highLatRule := Some (nullish (highLatRule config) middle_of_night);
     polarRule := Some (nullish (polarRule config) unresolved);
     midnightMode := Some (nullish (midnightMode config) midnight_standard);
     adjustments := Some (nullish (adjustments config) NO_ADJUSTMENTS);
     elevation := Some (nullish (elevation config) 0) |}.

(** ** Further scenarios *)

Module Further.
Import Examples.

(** Mecca on 2026-02-25 for the standard madhab without adjustments, and
    for the hanafi madhab with the fajr, dhuhr, asr and isha times moved. *)
Definition mecca_standard : PrayerTimeInput :=
  mkInput 21.4225 39.8262 d_2026_02_25 MWL standard middle_of_night
          NO_ADJUSTMENTS.

Definition mecca_hanafi_adjusted : PrayerTimeInput :=
  mkInput 21.4225 39.8262 d_2026_02_25 MWL hanafi middle_of_night
          {| adj_fajr := 2; adj_sunrise := 0; adj_dhuhr := 5; adj_asr := 4;
             adj_maghrib := 0; adj_isha := -1 |}.

(** Chittagong with dhuhr five minutes after solar noon. *)
Definition chittagong_dhuhr_5 : PrayerTimeInput :=
  mkInput 22.3569 91.7832 d_2026_02_25 MWL hanafi twilight_angle
          {| adj_fajr := 0; adj_sunrise := 0; adj_dhuhr := 5; adj_asr := 0;
             adj_maghrib := 0; adj_isha := 0 |}.

(** Latitude 88 on 2025-12-21, hanafi: the sun stays more than 90 degrees
    from the zenith at transit. *)
Definition near_pole : PrayerTimeInput :=
  mkInput 88 0 1766275200000 MWL hanafi middle_of_night NO_ADJUSTMENTS.

(** The result of a first call, and the engine it leaves. *)
Definition first_result : PTR := {| _o := 0; _uf := 0 |}.

Definition after (config : PrayerTimeInput) : Engine :=
  state_of (Scenarios.fresh config).

Definition shown (config : PrayerTimeInput) : PrayerTimesOutput :=
  PTR_read (_SLAB (after config)) first_result.

End Further.

(* ================================================================= *)
(** * Properties *)


(** ** Comparisons and signed zeros of binary64 *)

Lemma SFcompare_antisym (a b : spec_float) :
  SFcompare b a = option_map CompOpp (SFcompare a b).
Proof.
  destruct a as [sa|sa| |sa ma ea], b as [sb|sb| |sb mb eb]; cbn;
    try destruct sa; try destruct sb; try reflexivity.
  all: rewrite (Z.compare_antisym ea eb); destruct (ea ?= eb)%Z; cbn;
    try reflexivity.
  all: rewrite (Pos.compare_cont_antisym ma mb Eq); cbn;
    now rewrite ?CompOpp_involutive.
Qed.

Lemma ltb_compare (x y : float) :
  (x <? y) = match SFcompare (Prim2SF x) (Prim2SF y) with
             | Some Lt => true | _ => false end.
Proof. now rewrite ltb_spec. Qed.

Lemma leb_compare (x y : float) :
  (x <=? y) = match SFcompare (Prim2SF x) (Prim2SF y) with
              | Some (Lt | Eq) => true | _ => false end.
Proof. now rewrite leb_spec. Qed.

Lemma is_nan_spec (x : float) :
  is_nan x = match Prim2SF x with S754_nan => true | _ => false end.
Proof.
  unfold is_nan. rewrite FloatAxioms.eqb_spec. unfold SFeqb.
  destruct (Prim2SF x) as [s|s| |s m e]; cbn; try reflexivity.
  - now destruct s.
  - destruct s; rewrite Z.compare_refl, Pos.compare_cont_refl; reflexivity.
Qed.

(** Two numbers are ordered unless one of them is [NaN]. *)
Lemma compare_defined (x y : float) :
  is_nan x = false -> is_nan y = false ->
  exists c, SFcompare (Prim2SF x) (Prim2SF y) = Some c.
Proof.
  rewrite !is_nan_spec.
  destruct (Prim2SF x), (Prim2SF y); cbn; try discriminate; eauto.
Qed.

Lemma not_ltb_leb (x y : float) :
  is_nan x = false -> is_nan y = false -> (y <? x) = false -> (x <=? y) = true.
Proof.
  intros Nx Ny. rewrite ltb_compare, leb_compare, SFcompare_antisym.
  destruct (compare_defined x y Nx Ny) as [[| |] ->]; cbn; congruence.
Qed.

Lemma ltb_leb (x y : float) : (x <? y) = true -> (x <=? y) = true.
Proof.
  rewrite ltb_compare, leb_compare.
  destruct (SFcompare _ _) as [[| |]|]; congruence.
Qed.

Lemma ltb_not_nan (x y : float) :
  (x <? y) = true -> is_nan x = false /\ is_nan y = false.
Proof.
  rewrite ltb_compare, !is_nan_spec.
  destruct (Prim2SF x), (Prim2SF y); cbn; auto; discriminate.
Qed.

(** [|x| > b] is [x > b || x < -b] for a positive finite [b]. *)
Lemma SFltb_abs (x : spec_float) (mb : positive) (eb : Z) :
  let b := S754_finite false mb eb in
  SFltb b (SFabs x) = SFltb b x || SFltb x (SFopp b).
Proof.
  unfold SFltb, SFabs, SFopp.
  destruct x as [s|s| |s m e]; try (destruct s; reflexivity);
    try reflexivity.
  destruct s; unfold SFcompare, negb.
  - rewrite (Z.compare_antisym e eb).
    destruct (e ?= eb)%Z; try reflexivity.
    rewrite (Pos.compare_cont_antisym m mb Eq).
    now destruct (Pos.compare_cont Eq m mb).
  - now rewrite orb_false_r.
Qed.

Lemma Prim2SF_one : Prim2SF 1 = S754_finite false 4503599627370496 (-52).
Proof. vm_compute. reflexivity. Qed.

Lemma Prim2SF_minus_one :
  Prim2SF (-1) = S754_finite true 4503599627370496 (-52).
Proof. vm_compute. reflexivity. Qed.

Lemma abs_gt_one (x : float) : (1 <? abs x) = ((1 <? x) || (x <? -1)).
Proof.
  rewrite !ltb_spec, abs_spec, Prim2SF_one, Prim2SF_minus_one.
  apply (SFltb_abs (Prim2SF x) 4503599627370496 (-52)).
Qed.

(** Adding a zero changes nothing but the sign of a zero. *)
Lemma add_zero_r (x : float) : x <> neg_zero -> x + 0 = x.
Proof.
  intros H. apply Prim2SF_inj. rewrite add_spec.
  change (Prim2SF 0) with (S754_zero false). unfold SF64add, SFadd.
  destruct (Prim2SF x) as [s|s| |s m e] eqn:E; try reflexivity.
  destruct s; [|reflexivity].
  exfalso. apply H. apply Prim2SF_inj. now rewrite E.
Qed.

Lemma add_neg_zero_r (x : float) : x + neg_zero = x.
Proof.
  apply Prim2SF_inj. rewrite add_spec.
  change (Prim2SF neg_zero) with (S754_zero true). unfold SF64add, SFadd.
  destruct (Prim2SF x) as [s|s| |s m e] eqn:E; try reflexivity.
  now destruct s.
Qed.

(** [x === y] means the same bits, two zeros apart. *)
Lemma eqb_true (x y : float) :
  (x =? y) = true -> x = y \/ (abs x = 0 /\ abs y = 0).
Proof.
  rewrite FloatAxioms.eqb_spec. unfold SFeqb. intros H.
  destruct (Prim2SF x) as [s|s| |s m e] eqn:Ex,
           (Prim2SF y) as [s'|s'| |s' m' e'] eqn:Ey; cbn in H;
    try discriminate; try (destruct s; discriminate);
    try (destruct s'; discriminate).
  - right. split; apply Prim2SF_inj; rewrite abs_spec, ?Ex, ?Ey; reflexivity.
  - left. apply Prim2SF_inj. rewrite Ex, Ey.
    destruct s, s'; try discriminate; reflexivity.
  - left. apply Prim2SF_inj. rewrite Ex, Ey.
    destruct s, s'; try discriminate;
      destruct (e ?= e')%Z eqn:Ee; try discriminate;
      apply Z.compare_eq in Ee; subst e';
      destruct (Pos.compare_cont Eq m m') eqn:Em; try discriminate;
      apply Pos.compare_eq in Em; now subst m'.
Qed.

Lemma eqb_nan_r (x : float) : (x =? nan) = false.
Proof.
  rewrite FloatAxioms.eqb_spec. change (Prim2SF nan) with S754_nan.
  unfold SFeqb. now destruct (Prim2SF x).
Qed.


(** ** Slab reads after writes *)

Lemma SLAB_gss (S : Z -> float) (i : Z) (v : float) :
  (0 <= i < _SLAB_LEN)%Z -> SLAB_get (SLAB_set S i v) i = v.
Proof.
  intros H. unfold SLAB_get, SLAB_set, Js.ta_get, Js.ta_set, Js.in_range.
  replace ((0 <=? i)%Z && (i <? _SLAB_LEN)%Z) with true
    by (symmetry; apply andb_true_intro; split;
        [apply Z.leb_le | apply Z.ltb_lt]; lia).
  now rewrite Z.eqb_refl.
Qed.

Lemma SLAB_gso (S : Z -> float) (i j : Z) (v : float) :
  j <> i -> SLAB_get (SLAB_set S i v) j = SLAB_get S j.
Proof.
  intros H. unfold SLAB_get, SLAB_set, Js.ta_get, Js.ta_set.
  destruct (Js.in_range _SLAB_LEN i); [|reflexivity].
  destruct (Js.in_range _SLAB_LEN j); [|reflexivity].
  now apply Z.eqb_neq in H as ->.
Qed.


Ltac slab :=
  repeat first
    [ rewrite SLAB_gso by lia
    | rewrite SLAB_gss by (unfold slot_ok, _SLAB_LEN, _SLAB_SLOTS in *; lia) ].

(** ** The output view *)


Lemma derived_diagnostics (ms0 : float) :
  V_result {| V_ms := ms0; _co := None; _cf := 0; _ta := 0 |} =
  valid ms0 DERIVED_DIAG.
Proof. reflexivity. Qed.

Lemma ten_minutes : 10 * MS_PER_MIN = 600000.
Proof. reflexivity. Qed.

(** Imsak is read off the fajr lane. *)
Lemma PTR_imsak_of_fajr (S : Z -> float) (p : PTR) (f : float)
    (d : PrayerDiagnostics) :
  PTR_fajr S p = valid f d -> PTR_imsak S p = valid (f - 600000) DERIVED_DIAG.
Proof.
  unfold PTR_fajr, PTR_imsak.
  destruct (uf_has (_uf p) 1); [discriminate|].
  unfold V_result at 1; cbn [V_ms _vFromSlot].
  intros [= <- _]. rewrite derived_diagnostics, ten_minutes.
  now rewrite Z.add_0_r.
Qed.

(** C8. For every configuration and date whose computation returns with a
    defined fajr, the imsak read from the same result is valid and is
    fajr - 600000 ms, the subtraction being the one of binary64. *)
Theorem C8_imsak_is_fajr_minus_600000 {Math : MathObject}
    (config : PrayerTimeInput) (st st' : Engine) (p : PTR)
    (f : float) (d : PrayerDiagnostics) :
  computePrayerTimes config st = Normal st' p ->
  PTR_fajr (_SLAB st') p = valid f d ->
  PTR_imsak (_SLAB st') p = valid (f - 600000) DERIVED_DIAG.
Proof. intros _. apply PTR_imsak_of_fajr. Qed.


(** A completed call is its final state and its value. *)
Lemma returns_with {A : Type} (c : completion A) (a : A) :
  value_of c = Some a -> c = Normal (state_of c) a.
Proof. destruct c; cbn; congruence. Qed.

Lemma slot_ok_initial : slot_ok (_slabOff initialEngine).
Proof. unfold slot_ok. cbn. lia. Qed.

Lemma C8_witness :
  let st' := state_of (Scenarios.fresh Examples.chittagong) in
  let p := {| _o := 0; _uf := 0 |} in
  PTR_imsak (_SLAB st') p = valid (1771974170473.6189 - 600000) DERIVED_DIAG.
Proof.
  apply (C8_imsak_is_fajr_minus_600000 (Math := SeriesMath)
           Examples.chittagong initialEngine _ _ _
           {| cosOmega := Some (-0.27208688105923834); clamped := false;
              fallbackUsed := None; targetAltitude := -18 |}).
  - apply returns_with. vm_compute. reflexivity.
  - vm_compute. reflexivity.
Defined.

(** ** The kernel, block by block *)

Section KernelFacts.
Context {Math : MathObject}.
Variable config : ResolvedInput.
Variable st : Engine.
Variables dcBase o : Z.
Implicit Type Su : (Z -> float) * Z.


Lemma fajrBlock_uf Su :
  snd (fajrBlock st dcBase o Su) =
  if out_of_bounds (fajr_cosH0 st dcBase) then Z.lor (snd Su) 1 else snd Su.
Proof.
  unfold fajrBlock, fajr_cosH0. now destruct (out_of_bounds _).
Qed.

Lemma sunBlock_uf Su :
  snd (sunBlock st dcBase o Su) =
  if out_of_bounds (sun_cosH0 st dcBase) then Z.lor (snd Su) 10 else snd Su.
Proof.
  unfold sunBlock, sun_cosH0. now destruct (out_of_bounds _).
Qed.

Lemma dhuhrBlock_uf Su : snd (dhuhrBlock st dcBase o Su) = snd Su.
Proof. reflexivity. Qed.

Lemma asrBlock_uf Su :
  snd (asrBlock config st dcBase o Su) =
  if out_of_bounds (asr_cosH0 config st dcBase) then Z.lor (snd Su) 4 else snd Su.
Proof.
  unfold asrBlock, asr_cosH0. now destruct (out_of_bounds _).
Qed.

Lemma ishaBlock_uf Su :
  snd (ishaBlock config st dcBase o Su) =
  if by_interval config (snd Su) then snd Su
  else if out_of_bounds (isha_cosH0 st dcBase) then Z.lor (snd Su) 16 else snd Su.
Proof.
  unfold ishaBlock, isha_cosH0, by_interval.
  destruct (_ && _); [reflexivity|]. now destruct (out_of_bounds _).
Qed.

(** Lanes a block leaves alone. *)
Lemma fajrBlock_frame Su j :
  j <> (o + 0)%Z -> j <> (o + 6)%Z -> j <> (o + 12)%Z -> j <> (o + 18)%Z ->
  SLAB_get (fst (fajrBlock st dcBase o Su)) j = SLAB_get (fst Su) j.
Proof.
  intros. unfold fajrBlock.
  destruct (out_of_bounds _); cbn [fst]; now slab.
Qed.

Lemma sunBlock_frame Su j :
  j <> (o + 1)%Z -> j <> (o + 4)%Z -> j <> (o + 7)%Z -> j <> (o + 10)%Z ->
  j <> (o + 13)%Z -> j <> (o + 16)%Z -> j <> (o + 19)%Z ->
  j <> (o + 22)%Z -> j <> (o + 28)%Z ->
  SLAB_get (fst (sunBlock st dcBase o Su)) j = SLAB_get (fst Su) j.
Proof.
  intros. unfold sunBlock.
  destruct (out_of_bounds _); cbn [fst]; now slab.
Qed.

Lemma dhuhrBlock_frame Su j :
  j <> (o + 2)%Z -> j <> (o + 8)%Z -> j <> (o + 14)%Z -> j <> (o + 20)%Z ->
  SLAB_get (fst (dhuhrBlock st dcBase o Su)) j = SLAB_get (fst Su) j.
Proof. intros. unfold dhuhrBlock; cbn [fst]; now slab. Qed.

Lemma asrBlock_frame Su j :
  j <> (o + 3)%Z -> j <> (o + 9)%Z -> j <> (o + 15)%Z -> j <> (o + 21)%Z ->
  SLAB_get (fst (asrBlock config st dcBase o Su)) j = SLAB_get (fst Su) j.
Proof.
  intros. unfold asrBlock.
  destruct (out_of_bounds _); cbn [fst]; now slab.
Qed.

Lemma ishaBlock_frame Su j :
  j <> (o + 5)%Z -> j <> (o + 11)%Z -> j <> (o + 17)%Z -> j <> (o + 23)%Z ->
  SLAB_get (fst (ishaBlock config st dcBase o Su)) j = SLAB_get (fst Su) j.
Proof.
  intros. unfold ishaBlock.
  destruct (_ && _); [cbn [fst]; now slab|].
  destruct (out_of_bounds _); cbn [fst]; now slab.
Qed.

Lemma highLatFallback_frame Su j :
  j <> (o + 0)%Z -> j <> (o + 12)%Z -> j <> (o + 5)%Z -> j <> (o + 17)%Z ->
  SLAB_get (fst (highLatFallback config st o Su)) j = SLAB_get (fst Su) j.
Proof.
  intros. unfold highLatFallback.
  destruct (_ && _); [|reflexivity].
  destruct (uf_has (snd Su) 17); [|reflexivity].
  destruct (0 <? _); [|reflexivity].
  destruct (uf_has (snd Su) 1); cbn [fst snd];
    (destruct (uf_has _ 16); cbn [fst]; now slab).
Qed.

Lemma metaValues_frame jd S j :
  j <> (o + 24)%Z -> j <> (o + 25)%Z -> j <> (o + 26)%Z -> j <> (o + 27)%Z ->
  SLAB_get (metaValues st dcBase o jd S) j = SLAB_get S j.
Proof. intros. unfold metaValues. now slab. Qed.

End KernelFacts.

(** ** The undefined bitmask the kernel returns *)


Section MaskFacts.
Context {Math : MathObject}.
Variable config : ResolvedInput.
Variable st : Engine.
Variables dcBase o : Z.


Lemma chaPrayers_uf (S : Z -> float) :
  snd (chaPrayers config st dcBase o S) =
  mask (out_of_bounds (fajr_cosH0 st dcBase))
       (out_of_bounds (sun_cosH0 st dcBase))
       (out_of_bounds (asr_cosH0 config st dcBase))
       (isha_undefined config st dcBase).
Proof.
  unfold chaPrayers, isha_undefined.
  rewrite ishaBlock_uf, asrBlock_uf, dhuhrBlock_uf, sunBlock_uf, fajrBlock_uf.
  unfold by_interval; cbn [snd].
  destruct (out_of_bounds (fajr_cosH0 st dcBase)),
           (out_of_bounds (sun_cosH0 st dcBase)),
           (out_of_bounds (asr_cosH0 config st dcBase)),
           (out_of_bounds (isha_cosH0 st dcBase)),
           (not_nullish (ishaInterval (r_method config))); reflexivity.
Qed.

(** Rewriting fajr or isha never touches the sunrise and sunset bits. *)
Lemma highLatFallback_uf_sun (Su : (Z -> float) * Z) (bF bS bA bI : bool) :
  snd Su = mask bF bS bA bI ->
  let uf' := snd (highLatFallback config st o Su) in
  uf_has uf' 2 = bS /\ uf_has uf' 8 = bS /\ uf_has uf' 10 = bS /\
  uf_has uf' 4 = bA /\
  (uf_has uf' 1 = true -> bF = true) /\ (uf_has uf' 16 = true -> bI = true).
Proof.
  intros E. unfold highLatFallback. rewrite E.
  destruct (negb (is_none (r_highLatRule config))), (0 <? _),
    bF, bS, bA, bI; cbn; intuition congruence.
Qed.

End MaskFacts.

(** ** What a completed call leaves behind *)

Section RunFacts.
Context {Math : MathObject}.

Lemma cachedSolarPosition_keeps (jd : float) (st : Engine) :
  let st' := fst (cachedSolarPosition jd st) in
  cc st' = cc st /\ _SLAB st' = _SLAB st /\ _slabOff st' = _slabOff st /\
  _dc st' = _dc st /\ _dcJDs st' = _dcJDs st.
Proof.
  unfold cachedSolarPosition.
  destruct (JD_get _ _ =? jd); cbn; auto.
Qed.

Lemma dayConstants_keeps (jd : float) (st : Engine) :
  let st' := fst (dayConstants jd st) in
  cc st' = cc st /\ _SLAB st' = _SLAB st /\ _slabOff st' = _slabOff st.
Proof.
  unfold dayConstants.
  destruct (Js.strict_ne _ _); [|cbn; auto].
  destruct (cachedSolarPosition (jd - 1) st) as [st1 r1] eqn:E1.
  destruct (cachedSolarPosition jd st1) as [st2 r2] eqn:E2.
  destruct (cachedSolarPosition (jd + 1) st2) as [st3 r3] eqn:E3.
  pose proof (cachedSolarPosition_keeps (jd - 1) st) as K1.
  pose proof (cachedSolarPosition_keeps jd st1) as K2.
  pose proof (cachedSolarPosition_keeps (jd + 1) st2) as K3.
  rewrite E1 in K1. rewrite E2 in K2. rewrite E3 in K3. cbn [fst] in *.
  destruct K1 as (? & ? & ? & _), K2 as (? & ? & ? & _), K3 as (? & ? & ? & _).
  destruct r1, r2, r3; cbn; repeat split; congruence.
Qed.

(** The state and lanes behind a result of [run_core]. *)
Lemma run_core_inv (r : ResolvedInput) (st st' : Engine) (p : PTR) :
  run_core r st = Normal st' p ->
  let o := _slabOff st in
  let jd := julDate_of r in
  let dcBase := (cache_index jd * DC_STRIDE)%Z in
  exists st1,
    dayConstants jd (configCache r (snd (takeSlot st))) = (st1, true) /\
    cc st1 = cc (configCache r st) /\
    let Su := highLatFallback r st1 o (chaPrayers r st1 dcBase o (_SLAB st)) in
    _SLAB st' = metaValues st1 dcBase o jd (fst Su) /\
    cc st' = cc st1 /\
    p = {| _o := o; _uf := snd Su |}.
Proof.
  unfold run_core, _computeCore, coreEvents, takeSlot. cbn [fst snd].
  set (st0 := with_slabOff st _).
  pose proof (dayConstants_keeps (julDate_of r) (configCache r st0)) as K.
  destruct (dayConstants (julDate_of r) (configCache r st0)) as [st1 [|]];
    [|discriminate].
  cbn [fst] in K. destruct K as (Kc & Ks & _).
  intros [= <- <-]. exists st1. split; [reflexivity|].
  assert (Hs : _SLAB st1 = _SLAB st).
  { rewrite Ks. unfold configCache. now destruct (cc_changed _ _). }
  assert (Hc : cc st1 = cc (configCache r st)).
  { rewrite Kc. unfold configCache. subst st0. cbn [cc with_slabOff].
    now destruct (cc_changed _ _). }
  rewrite Hs. repeat split; assumption.
Qed.

End RunFacts.

(** ** C6 *)

Section Undefined.
Context {Math : MathObject}.

Lemma sun_getters (S : Z -> float) (p : PTR) :
  is_undefined (PTR_sunrise S p) = uf_has (_uf p) 2 /\
  is_undefined (PTR_sunset S p) = uf_has (_uf p) 8 /\
  is_undefined (PTR_fajr S p) = uf_has (_uf p) 1.
Proof.
  unfold PTR_sunrise, PTR_sunset, PTR_fajr.
  destruct (uf_has (_uf p) 2), (uf_has (_uf p) 8), (uf_has (_uf p) 1);
    repeat split; reflexivity.
Qed.

(** The mask of a completed call sets the sunrise and sunset bits together. *)
Lemma run_core_sun_bits (r : ResolvedInput) (st st' : Engine) (p : PTR) :
  run_core r st = Normal st' p ->
  uf_has (_uf p) 2 = uf_has (_uf p) 8 /\ uf_has (_uf p) 10 = uf_has (_uf p) 8.
Proof.
  intros H. apply run_core_inv in H. cbv zeta in H.
  destruct H as (st1 & _ & _ & _ & _ & ->). cbn [_uf].
  destruct (highLatFallback_uf_sun r st1 (_slabOff st) _ _ _ _ _
              (chaPrayers_uf r st1 (cache_index (julDate_of r) * DC_STRIDE)
                 (_slabOff st) (_SLAB st)))
    as (-> & -> & -> & _).
  split; reflexivity.
Qed.

End Undefined.

(** C6 (as amended). For every computation that returns: sunrise is undefined
    exactly when sunset is; when sunset is undefined, maghrib is undefined
    with the same reason and diagnostics as sunset, the reason being "sun
    never reaches target altitude", while midnight, first third and last
    third are undefined with reason "sunset or sunrise undefined"; when fajr
    is undefined, imsak is undefined with reason "fajr is undefined". *)
Theorem C6_undefined_cascade {Math : MathObject}
    (config : PrayerTimeInput) (st st' : Engine) (p : PTR) :
  computePrayerTimes config st = Normal st' p ->
  let S := _SLAB st' in
  is_undefined (PTR_sunrise S p) = is_undefined (PTR_sunset S p) /\
  (is_undefined (PTR_sunset S p) = true ->
     (exists d,
        PTR_sunset S p = undefined "sun never reaches target altitude" d /\
        PTR_maghrib S p = undefined "sun never reaches target altitude" d) /\
     PTR_midnight S p = undefined "sunset or sunrise undefined" DERIVED_DIAG /\
     PTR_firstThird S p = undefined "sunset or sunrise undefined" DERIVED_DIAG /\
     PTR_lastThird S p = undefined "sunset or sunrise undefined" DERIVED_DIAG) /\
  (is_undefined (PTR_fajr S p) = true ->
     PTR_imsak S p = undefined "fajr is undefined" DERIVED_DIAG).
Proof.
  intros H S.
  destruct (run_core_sun_bits _ _ _ _ H) as [B2 B10].
  destruct (sun_getters S p) as (-> & -> & ->).
  split; [exact B2|]. split.
  - intros U. unfold PTR_sunset, PTR_maghrib, PTR_midnight, PTR_firstThird,
      PTR_lastThird. rewrite B10, U. repeat split.
    eexists; split; reflexivity.
  - intros U. unfold PTR_imsak. now rewrite U.
Qed.

Lemma C6_witness :
  let st' := state_of (Scenarios.fresh Examples.polar) in
  let p := {| _o := 0; _uf := 27 |} in
  PTR_midnight (_SLAB st') p =
  undefined "sunset or sunrise undefined" DERIVED_DIAG.
Proof.
  assert (E : computePrayerTimes (Math := SeriesMath) Examples.polar
                initialEngine =
              Normal (state_of (Scenarios.fresh Examples.polar))
                {| _o := 0; _uf := 27 |})
    by (apply (returns_with (Scenarios.fresh Examples.polar));
        vm_compute; reflexivity).
  destruct (C6_undefined_cascade (Math := SeriesMath) _ _ _ _ E)
    as (_ & H & _).
  apply H. vm_compute. reflexivity.
Defined.

(** C6 (as stated) fails on the reason of maghrib: at 71 N on 2026-06-21 the
    sun does not set, and maghrib is undefined with the reason of sunset,
    not with the one of the night divisions. *)
Lemma C6_counterexample :
  match output_of (Scenarios.fresh Examples.polar) with
  | Some o =>
      is_undefined (out_sunset o) = true /\
      out_maghrib o =
        undefined "sun never reaches target altitude"
          {| cosOmega := Some (-1.3077129128949418); clamped := false;
             fallbackUsed := None;
             targetAltitude := -0.83330000000000004 |} /\
      out_maghrib o = out_sunset o /\
      out_midnight o = undefined "sunset or sunrise undefined" DERIVED_DIAG
  | None => False
  end.
Proof. vm_compute. repeat split. Qed.

Lemma ltb_asym (x y : float) : (x <? y) = true -> (y <? x) = false.
Proof.
  rewrite !ltb_compare, (SFcompare_antisym (Prim2SF x) (Prim2SF y)).
  destruct (SFcompare (Prim2SF x) (Prim2SF y)) as [[| |]|]; cbn; congruence.
Qed.

(** [Math.max(-1, Math.min(1, x))] by cases. *)
Lemma snap_cases (x : float) :
  is_nan x = false ->
  Js.max (-1) (Js.min 1 x) = if 1 <? x then 1 else if x <? -1 then -1 else x.
Proof.
  intros N. unfold Js.min. rewrite N.
  change (is_nan 1 || false) with false. cbv iota.
  destruct (1 <? x) eqn:G; [reflexivity|].
  assert (M : (if x <? 1 then x else if get_sign 1 then 1 else x) = x)
    by (destruct (x <? 1); reflexivity).
  rewrite M. unfold Js.max. rewrite N.
  change (is_nan (-1) || false) with false. cbv iota.
  destruct (-1 <? x) eqn:L.
  - now rewrite (ltb_asym _ _ L).
  - now destruct (x <? -1).
Qed.

Lemma snap_bounds (x : float) :
  is_nan x = false ->
  let s := if 1 <? x then 1 else if x <? -1 then -1 else x in
  (-1 <=? s) = true /\ (s <=? 1) = true.
Proof.
  intros N. cbv zeta.
  destruct (1 <? x) eqn:G; [split; reflexivity|].
  destruct (x <? -1) eqn:L; [split; reflexivity|].
  split; apply not_ltb_leb; auto.
Qed.

(** ** C2 *)

(** The kernel's inline copy of the policy, on its fajr block: the raw
    cos H0 goes to lane 6; out of bounds the fajr bit is set; within bounds
    the mask is kept and lane 12 takes the clamped flag. *)
Lemma fajrBlock_policy {Math : MathObject} (st : Engine) (dcBase o : Z)
    (Su : (Z -> float) * Z) :
  slot_ok o ->
  let k := fajr_cosH0 st dcBase in
  let out := fajrBlock st dcBase o Su in
  SLAB_get (fst out) (o + 6) = k /\
  if (k <? - (1 + 1e-6)) || (1 + 1e-6 <? k)
  then snd out = Z.lor (snd Su) 1
  else snd out = snd Su /\
       SLAB_get (fst out) (o + 12) = Js.of_bool ((1 <? k) || (k <? -1)).
Proof.
  intros Ho. cbv zeta. unfold fajrBlock, fajr_cosH0.
  set (k := (sinFajrAlt st - sinLatSinD2 st dcBase) / cosLatCosD2 st dcBase).
  change ((k <? - (1 + 1e-6)) || (1 + 1e-6 <? k)) with (out_of_bounds k).
  destruct (out_of_bounds k); cbn [fst snd]; repeat split; now slab.
Qed.

(** C2. With cos H0 = (sin a - sin phi sin delta) / (cos phi cos delta) and
    eps = 1e-6: [computeHourAngle] returns the undefined variant, carrying
    the raw cos H0, exactly when cos H0 < -(1 + eps) or cos H0 > 1 + eps;
    otherwise it returns the valid variant with the raw cos H0, a clamped
    flag that is set exactly when cos H0 > 1 or cos H0 < -1, that is when
    |cos H0| > 1, and the angle acos of the snapped value in degrees; for a
    cos H0 that is a number the snapped value is 1 above 1, -1 below -1 and
    cos H0 itself otherwise, so it lies in [-1, 1].  The kernel applies the
    same bounds and the same flag to its own cos H0 (shown on the fajr
    block: undefined bit, raw value in lane 6, flag in lane 12). *)
Theorem C2_hour_angle_policy {Math : MathObject} (alpha phi delta : float) :
  let c :=
    (Units.sinDeg alpha - Units.sinDeg phi * Units.sinDeg delta) /
    (Units.cosDeg phi * Units.cosDeg delta) in
  let snapped := if 1 <? c then 1 else if c <? -1 then -1 else c in
  (if (c <? - (1 + 1e-6)) || (1 + 1e-6 <? c)
   then HourAngle.computeHourAngle alpha phi delta = HourAngle.ha_undefined c
   else HourAngle.computeHourAngle alpha phi delta =
        HourAngle.ha_valid
          (Math_acos (Js.max (-1) (Js.min 1 c)) * Units.RAD2DEG) c
          ((1 <? c) || (c <? -1))) /\
  ((1 <? abs c) = ((1 <? c) || (c <? -1))) /\
  (is_nan c = false ->
   Js.max (-1) (Js.min 1 c) = snapped /\
   (-1 <=? snapped) = true /\ (snapped <=? 1) = true) /\
  (forall (st : Engine) (dcBase o : Z) (Su : (Z -> float) * Z),
     slot_ok o ->
     let k := fajr_cosH0 st dcBase in
     let out := fajrBlock st dcBase o Su in
     SLAB_get (fst out) (o + 6) = k /\
     if (k <? - (1 + 1e-6)) || (1 + 1e-6 <? k)
     then snd out = Z.lor (snd Su) 1
     else snd out = snd Su /\
          SLAB_get (fst out) (o + 12) = Js.of_bool ((1 <? k) || (k <? -1))).
Proof.
  cbv zeta. unfold HourAngle.computeHourAngle, HourAngle.cosOmega_of,
    HourAngle.EPSILON.
  set (c := _ / _). split; [|split; [|split]].
  - destruct ((c <? - (1 + 1e-6)) || (1 + 1e-6 <? c)); [reflexivity|].
    now rewrite abs_gt_one.
  - apply abs_gt_one.
  - intros N. split; [now apply snap_cases|now apply snap_bounds].
  - intros st dcBase o Su Ho. now apply fajrBlock_policy.
Qed.

(** ** What the kernel reads of a configuration *)

(** The kernel reads neither [timezoneId], [polarRule] nor [midnightMode]. *)
Section Reads.
Context {Math : MathObject}.
Variables r1 r2 : ResolvedInput.
Hypothesis Hlat : r_latitude r1 = r_latitude r2.
Hypothesis Hlng : r_longitude r1 = r_longitude r2.
Hypothesis Hdate : r_date r1 = r_date r2.
Hypothesis Hmethod : r_method r1 = r_method r2.
Hypothesis Hmadhab : r_madhab r1 = r_madhab r2.
Hypothesis Hrule : r_highLatRule r1 = r_highLatRule r2.
Hypothesis Hadj : r_adjustments r1 = r_adjustments r2.
Hypothesis HadjI :
  adj_isha (r_adjustments r1) = adj_isha (r_adjustments r2).
Hypothesis Helev : r_elevation r1 = r_elevation r2.

Lemma configCache_reads (st : Engine) : configCache r1 st = configCache r2 st.
Proof.
  unfold configCache, cc_changed, cc_refresh.
  now rewrite Hlat, Hlng, Hmethod, Hmadhab, Hadj, Helev.
Qed.

Lemma chaPrayers_reads (st : Engine) (dcBase o : Z) (S : Z -> float) :
  chaPrayers r1 st dcBase o S = chaPrayers r2 st dcBase o S.
Proof.
  unfold chaPrayers, ishaBlock, asrBlock, sinAsrAlt, base90Asr, asrAlt,
    _asrDiff.
  now rewrite Hlat, Hmethod, HadjI.
Qed.

Lemma highLatFallback_reads (st : Engine) (o : Z) (Su : (Z -> float) * Z) :
  highLatFallback r1 st o Su = highLatFallback r2 st o Su.
Proof.
  unfold highLatFallback, fajr_fbMs, isha_fbMs.
  now rewrite Hrule, Hmethod.
Qed.

Lemma run_core_reads (st : Engine) : run_core r1 st = run_core r2 st.
Proof.
  unfold run_core, _computeCore, coreEvents, julDate_of.
  destruct (takeSlot st) as [o st0].
  rewrite Hdate, configCache_reads.
  destruct (dayConstants _ _) as [st1 [|]]; [|reflexivity].
  now rewrite chaPrayers_reads, highLatFallback_reads.
Qed.
End Reads.

(** ** C10 *)

(** C10. A configuration that omits [highLatRule] is resolved to
    [middle_of_night], by [_resolve] for [computePrayerTimes] and by
    [createPrayerContext] alike: the guard of the kernel's fallback step
    ([highLatRule !== "none"]) holds by default, and every call answers as
    it does when [middle_of_night] is spelled out. *)
Theorem C10_default_highLatRule {Math : MathObject}
    (config : PrayerTimeInput) (c : PrayerContextConfig)
    (d : float) (st : Engine) :
  r_highLatRule (_resolve (omit_highLatRule config)) = middle_of_night /\
  r_highLatRule (input (createPrayerContext (ctx_omit_highLatRule c))) =
    middle_of_night /\
  is_none (r_highLatRule (_resolve (omit_highLatRule config))) = false /\
  is_none (r_highLatRule (input (createPrayerContext (ctx_omit_highLatRule c))))
    = false /\
  computePrayerTimes (omit_highLatRule config) st =
    computePrayerTimes (set_highLatRule config middle_of_night) st /\
  compute (createPrayerContext (ctx_omit_highLatRule c)) d st =
    compute (createPrayerContext (ctx_set_highLatRule c middle_of_night)) d st.
Proof.
  assert (R : r_highLatRule (_resolve (omit_highLatRule config)) =
              middle_of_night).
  { unfold _resolve, omit_highLatRule; cbn. now destruct (madhab config). }
  rewrite R. repeat split.
  unfold computePrayerTimes. apply run_core_reads;
    unfold _resolve, omit_highLatRule, set_highLatRule; cbn;
    destruct (madhab config), (polarRule config), (adjustments config),
      (elevation config); reflexivity.
Qed.

(** ** The config cache *)


Section ConfigCacheFacts.
Context {Math : MathObject}.

Lemma configCache_cc (st : Engine) (r : ResolvedInput) :
  cc_ok st r -> cc (configCache r st) = cc_refresh r.
Proof.
  unfold cc_ok, configCache.
  destruct (cc_changed r (cc st)); [reflexivity|auto].
Qed.

Lemma strict_ne_nan (x : float) : Js.strict_ne x nan = true.
Proof. unfold Js.strict_ne. now rewrite eqb_nan_r. Qed.

(** A cold cache, and a cleared one, miss on every configuration. *)
Lemma cc_ok_initial (r : ResolvedInput) : cc_ok initialEngine r.
Proof.
  unfold cc_ok, cc_changed. cbn [cc initialEngine initialConfigCache _ccLat].
  now rewrite strict_ne_nan.
Qed.

Lemma cc_ok_cleared (st : Engine) (r : ResolvedInput) :
  cc_ok (clearSolarCache st) r.
Proof.
  unfold cc_ok, cc_changed. cbn [cc clearSolarCache _ccLat].
  now rewrite strict_ne_nan.
Qed.

(** Once a call has returned, the cache is coherent for its configuration. *)
Lemma cc_ok_after (r : ResolvedInput) (st st' : Engine) (p : PTR) :
  cc_ok st r -> run_core r st = Normal st' p -> cc_ok st' r.
Proof.
  intros Hok H _. apply run_core_inv in H. cbv zeta in H.
  destruct H as (st1 & _ & Hc & _ & Hc' & _).
  now rewrite Hc', Hc, configCache_cc.
Qed.

End ConfigCacheFacts.

(** ** Reading the lanes of a completed call *)

Ltac frames :=
  repeat first
    [ rewrite metaValues_frame by lia
    | rewrite highLatFallback_frame by lia
    | rewrite ishaBlock_frame by lia
    | rewrite asrBlock_frame by lia
    | rewrite dhuhrBlock_frame by lia
    | rewrite sunBlock_frame by lia
    | rewrite fajrBlock_frame by lia ].

Section SunLanes.
Context {Math : MathObject}.
Variable config : ResolvedInput.
Variable st : Engine.
Variables dcBase o : Z.
Hypothesis Ho : slot_ok o.

(** When the horizon's cos H0 is within bounds, slot 4 is slot 28 plus the
    cached maghrib adjustment. *)
Lemma sunBlock_maghrib (Su : (Z -> float) * Z) :
  out_of_bounds (sun_cosH0 st dcBase) = false ->
  let S' := fst (sunBlock st dcBase o Su) in
  SLAB_get S' (o + 4) = SLAB_get S' (o + 28) + adjMaghribMs st.
Proof.
  intros B. unfold sun_cosH0 in B. unfold sunBlock. rewrite B.
  cbn [fst]. now slab.
Qed.

(** The sun block's lanes as the whole kernel leaves them. *)
Lemma kernel_sun_lanes (jd : float) (S : Z -> float) (k : Z) :
  In k [1; 4; 7; 10; 13; 16; 19; 22; 28]%Z ->
  SLAB_get
    (metaValues st dcBase o jd
       (fst (highLatFallback config st o (chaPrayers config st dcBase o S))))
    (o + k) =
  SLAB_get (fst (sunBlock st dcBase o (fajrBlock st dcBase o (S, 0%Z)))) (o + k).
Proof.
  intros Hk. unfold chaPrayers.
  cbn in Hk; repeat destruct Hk as [<-|Hk]; try contradiction;
    now frames.
Qed.

End SunLanes.

(** ** C1 *)


(** How maghrib follows sunset is the kernel's design.  For every
    configuration and date whose computation returns with sunset defined:
    the reported sunset is the raw slot-28 value, maghrib carries the same
    diagnostics and is sunset + maghrib adjustment x 60000 ms in binary64,
    so maghrib equals sunset when that adjustment is zero (a sunset of
    exactly -0 ms apart). *)
Theorem maghrib_is_sunset_plus_adjustment {Math : MathObject}
    (config : PrayerTimeInput) (st st' : Engine) (p : PTR)
    (s : float) (d : PrayerDiagnostics) :
  cc_ok st (_resolve config) ->
  slot_ok (_slabOff st) ->
  computePrayerTimes config st = Normal st' p ->
  PTR_sunset (_SLAB st') p = valid s d ->
  let a := adj_maghrib (r_adjustments (_resolve config)) in
  s = SLAB_get (_SLAB st') (_o p + 28) /\
  PTR_maghrib (_SLAB st') p = valid (s + a * 60000) d /\
  ((a = 0 \/ a = neg_zero) -> s <> neg_zero ->
   PTR_maghrib (_SLAB st') p = valid s d).
Proof.
  intros Hok Ho H Hs a.
  unfold computePrayerTimes in H.
  pose proof (run_core_inv _ _ _ _ H) as I. cbv zeta in I.
  destruct I as (st1 & _ & Hc & HS & _ & Hp). subst p. cbn [_o _uf] in *.
  set (r := _resolve config) in *.
  set (o := _slabOff st) in *.
  set (dcBase := (cache_index (julDate_of r) * DC_STRIDE)%Z) in *.
  set (uf := snd (highLatFallback r st1 o _)) in *.
  assert (Hadj : adjMaghribMs st1 = a * 60000).
  { unfold adjMaghribMs. now rewrite Hc, configCache_cc. }
  assert (U : uf_has uf 8 = false).
  { unfold PTR_sunset in Hs. cbn [_uf] in Hs. now destruct (uf_has uf 8). }
  (* sunset is defined, so the horizon's cos H0 was within bounds *)
  assert (B : out_of_bounds (sun_cosH0 st1 dcBase) = false).
  { destruct (highLatFallback_uf_sun r st1 o _ _ _ _ _
                (chaPrayers_uf r st1 dcBase o (_SLAB st)))
      as (_ & B8 & _).
    rewrite <- B8. exact U. }
  assert (M : SLAB_get (_SLAB st') (o + 4) =
              SLAB_get (_SLAB st') (o + 28) + a * 60000).
  { rewrite HS, !kernel_sun_lanes by (cbn; tauto).
    now rewrite sunBlock_maghrib, Hadj. }
  unfold PTR_sunset, PTR_maghrib in *. cbn [_o _uf] in *. rewrite U in *.
  unfold _vFromSlot.
  replace (o + 6 + 4)%Z with (o + 10)%Z by lia.
  replace (o + 12 + 4)%Z with (o + 16)%Z by lia.
  replace (o + 18 + 4)%Z with (o + 22)%Z by lia.
  unfold V_result in *. cbn [V_ms] in *.
  injection Hs as Hs Hd. rewrite M, Hs.
  split; [now symmetry|]. split.
  - now rewrite <- Hd.
  - intros [-> | ->] Hz.
    + change (0 * 60000) with 0. now rewrite add_zero_r, <- Hd.
    + change (neg_zero * 60000) with neg_zero.
      now rewrite add_neg_zero_r, <- Hd.
Qed.

Lemma maghrib_three_minutes_early :
  let st' := state_of (Scenarios.fresh (Scenarios.mecca_maghrib (-3))) in
  let p := {| _o := 0; _uf := 0 |} in
  PTR_maghrib (_SLAB st') p =
  valid (1772032991180.0986 + -3 * 60000)
    {| cosOmega := Some 0.047487764714441577; clamped := false;
       fallbackUsed := None; targetAltitude := -0.83330000000000004 |}.
Proof.
  cbv zeta.
  refine (proj1 (proj2
    (maghrib_is_sunset_plus_adjustment (Math := SeriesMath)
       (Scenarios.mecca_maghrib (-3)) initialEngine _ _
       1772032991180.0986
       {| cosOmega := Some 0.047487764714441577; clamped := false;
          fallbackUsed := None; targetAltitude := -0.83330000000000004 |}
       (cc_ok_initial _) slot_ok_initial _ _))).
  - apply returns_with. vm_compute. reflexivity.
  - vm_compute. reflexivity.
Defined.

(** So the adjustment decides the order of sunset and maghrib, by design:
    with all six primary events defined, an adjustment of -3 minutes puts
    maghrib before sunset, and one of 1e-9 minutes is not zero yet leaves
    maghrib equal to sunset in binary64. *)
Lemma maghrib_follows_its_adjustment :
  match output_of (Scenarios.fresh (Scenarios.mecca_maghrib (-3))) with
  | Some o =>
      primary_defined o = true /\
      ms_of (out_sunset o) = 1772032991180.0986 /\
      ms_of (out_maghrib o) = 1772032811180.0986 /\
      (ms_of (out_maghrib o) <? ms_of (out_sunset o)) = true
  | None => False
  end /\
  match output_of (Scenarios.fresh (Scenarios.mecca_maghrib 1e-9)) with
  | Some o =>
      primary_defined o = true /\
      (1e-9 =? 0) = false /\
      ms_of (out_maghrib o) = ms_of (out_sunset o)
  | None => False
  end.
Proof. vm_compute. repeat split. Qed.

(** C1 (divergence).  The order sunrise < dhuhr < asr < sunset, which the
    repository's tests assert of every result whose events are defined, is
    broken by the kernel where the sun barely clears the horizon, with no
    adjustment at all and all six primary events defined.  In Tromso
    (69.6492 N, 18.9553 E) on 2026-01-30 asr is reported 58 minutes 59
    seconds after sunset; at 68.78 S, 0 E on 2026-06-01 sunrise is reported
    after dhuhr and dhuhr after sunset.  In both the hour angle is small
    (cos H0 = 0.99991 for asr, 0.99864 for the horizon) and the one
    refinement step, which divides by sin H, moves the event across the
    transit or past the next event. *)
Theorem C1_order_of_the_day_fails_near_polar_night :
  (r_date (_resolve Scenarios.tromso) = Js.of_Z (86400000 * 20483) /\
   r_adjustments (_resolve Scenarios.tromso) = NO_ADJUSTMENTS /\
   match output_of (Scenarios.fresh Scenarios.tromso) with
   | Some o =>
       primary_defined o = true /\
       ms_of (out_sunrise o) = 1769762078643.0684 /\
       ms_of (out_dhuhr o) = 1769770646320.9617 /\
       out_asr o =
         valid 1769782819482.1248
           {| cosOmega := Some 0.99991246008032031; clamped := false;
              fallbackUsed := None; targetAltitude := 2.6349458034402091 |} /\
       ms_of (out_sunset o) = 1769779280381.2065 /\
       ms_of (out_maghrib o) = 1769779280381.2065 /\
       (ms_of (out_asr o) <? ms_of (out_sunset o)) = false /\
       (ms_of (out_sunset o) <? ms_of (out_asr o)) = true
   | None => False
   end) /\
  (r_date (_resolve Scenarios.antarctic_coast) =
     Js.of_Z (86400000 * 20605) /\
   r_adjustments (_resolve Scenarios.antarctic_coast) = NO_ADJUSTMENTS /\
   match output_of (Scenarios.fresh Scenarios.antarctic_coast) with
   | Some o =>
       primary_defined o = true /\
       out_sunrise o =
         valid 1780315258494.2346
           {| cosOmega := Some 0.99863612394906487; clamped := false;
              fallbackUsed := None;
              targetAltitude := -0.83330000000000004 |} /\
       ms_of (out_dhuhr o) = 1780315071969.3516 /\
       ms_of (out_asr o) = 1780315791473.7729 /\
       ms_of (out_sunset o) = 1780314843024.0198 /\
       (ms_of (out_sunrise o) <? ms_of (out_dhuhr o)) = false /\
       (ms_of (out_dhuhr o) <? ms_of (out_sunrise o)) = true /\
       (ms_of (out_sunset o) <? ms_of (out_dhuhr o)) = true
   | None => False
   end).
Proof.
  split; (split; [vm_compute; reflexivity|]);
    (split; [reflexivity|]); vm_compute; repeat split.
Qed.

(** ** The fajr and isha lanes *)

Lemma mask_bits (bF bS bA bI : bool) :
  uf_has (mask bF bS bA bI) 1 = bF /\ uf_has (mask bF bS bA bI) 16 = bI /\
  uf_has (mask bF bS bA bI) 10 = bS /\ uf_has (mask bF bS bA bI) 8 = bS /\
  uf_has (mask bF bS bA bI) 17 = bF || bI.
Proof. destruct bF, bS, bA, bI; repeat split; reflexivity. Qed.

Section FajrIshaLanes.
Context {Math : MathObject}.
Variable config : ResolvedInput.
Variable st : Engine.
Variables dcBase o : Z.
Hypothesis Ho : slot_ok o.
Implicit Type Su : (Z -> float) * Z.

Lemma fajrBlock_lanes Su :
  let S' := fst (fajrBlock st dcBase o Su) in
  SLAB_get S' (o + 6) = fajr_cosH0 st dcBase /\
  SLAB_get S' (o + 18) = fajrAlt st.
Proof.
  unfold fajrBlock, fajr_cosH0.
  destruct (out_of_bounds _); cbn [fst]; split; now slab.
Qed.

Lemma ishaBlock_interval Su :
  by_interval config (snd Su) = true ->
  let S' := fst (ishaBlock config st dcBase o Su) in
  SLAB_get S' (o + 5) =
    SLAB_get (fst Su) (o + 4) +
    (optnum_value (ishaInterval (r_method config)) +
     adj_isha (r_adjustments config)) * MS_PER_MIN /\
  SLAB_get S' (o + 11) = nan /\
  SLAB_get S' (o + 17) = 2 /\
  SLAB_get S' (o + 23) = 0.
Proof.
  unfold ishaBlock, by_interval. intros ->. cbn [fst]. repeat split; now slab.
Qed.

Lemma ishaBlock_angle Su :
  by_interval config (snd Su) = false ->
  let S' := fst (ishaBlock config st dcBase o Su) in
  SLAB_get S' (o + 11) = isha_cosH0 st dcBase /\
  SLAB_get S' (o + 23) = ishaAlt st /\
  (out_of_bounds (isha_cosH0 st dcBase) = false ->
   SLAB_get S' (o + 17) = clamp_flag (isha_cosH0 st dcBase)).
Proof.
  unfold ishaBlock, by_interval, isha_cosH0. intros ->.
  destruct (out_of_bounds _); cbn [fst]; repeat split; try discriminate;
    intros; now slab.
Qed.

(** Within bounds the angle branch writes the time lane. *)
Lemma ishaBlock_angle_time Su :
  by_interval config (snd Su) = false ->
  out_of_bounds (isha_cosH0 st dcBase) = false ->
  SLAB_get (fst (ishaBlock config st dcBase o Su)) (o + 5) =
  isha_by_angle st dcBase.
Proof.
  unfold ishaBlock, by_interval, isha_by_angle, isha_cosH0.
  intros -> ->. cbn [fst]. now slab.
Qed.

(** Step 6, case by case, on a mask of the kernel's making. *)
Lemma highLatFallback_spec Su (bF bA bI : bool) :
  snd Su = mask bF false bA bI ->
  let S := fst Su in
  let sunsetMs := SLAB_get S (o + 28) in
  let nextSunriseMs := SLAB_get S (o + 1) + MS_PER_DAY in
  let nightMs := nextSunriseMs - sunsetMs in
  let rule := r_highLatRule config in
  let Su' := highLatFallback config st o Su in
  if negb (is_none rule) && (0 <? nightMs) then
    snd Su' = mask false false bA false /\
    (if bF
     then SLAB_get (fst Su') (o + 0) =
            fajr_fbMs config rule sunsetMs nextSunriseMs nightMs + adjFajrMs st /\
          SLAB_get (fst Su') (o + 12) = cfFlag_of rule
     else SLAB_get (fst Su') (o + 0) = SLAB_get S (o + 0) /\
          SLAB_get (fst Su') (o + 12) = SLAB_get S (o + 12)) /\
    (if bI
     then SLAB_get (fst Su') (o + 5) =
            isha_fbMs config rule sunsetMs nightMs + adjIshaMs st /\
          SLAB_get (fst Su') (o + 17) = cfFlag_of rule
     else SLAB_get (fst Su') (o + 5) = SLAB_get S (o + 5) /\
          SLAB_get (fst Su') (o + 17) = SLAB_get S (o + 17))
  else Su' = Su.
Proof.
  destruct Su as [S0 uf]. cbn [fst snd]. intros ->.
  unfold highLatFallback. cbn [fst snd].
  destruct (is_none (r_highLatRule config)); cbn [negb andb];
    [now destruct bF, bA, bI|].
  destruct (0 <? _); cbn [andb].
  - destruct bF, bA, bI; cbn -[SLAB_get SLAB_set]; repeat split;
      try reflexivity; now slab.
  - now destruct bF, bA, bI.
Qed.

(** The same step when sunrise and sunset are undefined. *)
Lemma highLatFallback_polar Su (bF bA bI : bool) :
  snd Su = mask bF true bA bI -> highLatFallback config st o Su = Su.
Proof.
  destruct Su as [S0 uf]. cbn [fst snd]. intros ->.
  unfold highLatFallback. cbn [fst snd].
  now destruct (is_none (r_highLatRule config)), bF, bA, bI.
Qed.

End FajrIshaLanes.

Lemma out_of_bounds_not_nan (c : float) :
  out_of_bounds c = true -> nan_to_null c = Some c.
Proof.
  unfold out_of_bounds, nan_to_null. intros H.
  apply orb_true_iff in H as [H|H]; apply ltb_not_nan in H as [H1 H2];
    now rewrite ?H1, ?H2.
Qed.

Section KernelLanes.
Context {Math : MathObject}.
Variable config : ResolvedInput.
Variable st : Engine.
Variables dcBase o : Z.
Hypothesis Ho : slot_ok o.
Variable S : Z -> float.

Let Su0 := chaPrayers config st dcBase o S.

Lemma chaPrayers_fajr_lanes :
  SLAB_get (fst Su0) (o + 6) = fajr_cosH0 st dcBase /\
  SLAB_get (fst Su0) (o + 18) = fajrAlt st.
Proof.
  subst Su0. unfold chaPrayers.
  destruct (fajrBlock_lanes st dcBase o Ho (S, 0%Z)) as [<- <-].
  split; now frames.
Qed.

(** The mask isha's block sees has the sunset bit of the final mask. *)
Lemma by_interval_asr :
  by_interval config
    (snd (asrBlock config st dcBase o
            (dhuhrBlock st dcBase o
               (sunBlock st dcBase o (fajrBlock st dcBase o (S, 0%Z)))))) =
  not_nullish (ishaInterval (r_method config)) &&
  negb (out_of_bounds (sun_cosH0 st dcBase)).
Proof.
  unfold by_interval.
  rewrite asrBlock_uf, dhuhrBlock_uf, sunBlock_uf, fajrBlock_uf. cbn [snd].
  now destruct (out_of_bounds (fajr_cosH0 st dcBase)),
    (out_of_bounds (sun_cosH0 st dcBase)),
    (out_of_bounds (asr_cosH0 config st dcBase)).
Qed.

Lemma chaPrayers_isha_lanes :
  if not_nullish (ishaInterval (r_method config)) &&
     negb (out_of_bounds (sun_cosH0 st dcBase))
  then
    SLAB_get (fst Su0) (o + 5) =
      SLAB_get (fst Su0) (o + 4) +
      (optnum_value (ishaInterval (r_method config)) +
       adj_isha (r_adjustments config)) * MS_PER_MIN /\
    SLAB_get (fst Su0) (o + 11) = nan /\
    SLAB_get (fst Su0) (o + 17) = 2 /\
    SLAB_get (fst Su0) (o + 23) = 0
  else
    SLAB_get (fst Su0) (o + 11) = isha_cosH0 st dcBase /\
    SLAB_get (fst Su0) (o + 23) = ishaAlt st /\
    (out_of_bounds (isha_cosH0 st dcBase) = false ->
     SLAB_get (fst Su0) (o + 17) = clamp_flag (isha_cosH0 st dcBase)).
Proof.
  subst Su0. unfold chaPrayers. rewrite <- by_interval_asr.
  destruct (by_interval _ _) eqn:B.
  - rewrite (ishaBlock_frame _ _ _ _ _ (o + 4)%Z) by lia.
    now apply ishaBlock_interval.
  - now apply ishaBlock_angle.
Qed.

Lemma chaPrayers_isha_time :
  not_nullish (ishaInterval (r_method config)) &&
  negb (out_of_bounds (sun_cosH0 st dcBase)) = false ->
  out_of_bounds (isha_cosH0 st dcBase) = false ->
  SLAB_get (fst Su0) (o + 5) = isha_by_angle st dcBase.
Proof.
  subst Su0. unfold chaPrayers. rewrite <- by_interval_asr.
  intros B I. now apply ishaBlock_angle_time.
Qed.

End KernelLanes.

(** ** C3 *)


Lemma fallback_diagnostics (rule : HighLatRule) (m : float) (co : option float)
    (ta : float) :
  rule <> none ->
  V_result {| V_ms := m; _co := co; _cf := cfFlag_of rule; _ta := ta |} =
  valid m {| cosOmega := co; clamped := false;
             fallbackUsed := Some (HighLatitude.rule_name rule);
             targetAltitude := ta |}.
Proof. destruct rule; try reflexivity. congruence. Qed.

(** The fajr and isha getters with their lanes spelled out. *)
Lemma PTR_fajr_lanes (S : Z -> float) (o uf : Z) :
  PTR_fajr S {| _o := o; _uf := uf |} =
  if uf_has uf 1 then
    undefined UNDEFINED_REASON
      {| cosOmega := nan_to_null (SLAB_get S (o + 6)); clamped := false;
         fallbackUsed := None; targetAltitude := SLAB_get S (o + 18) |}
  else
    V_result {| V_ms := SLAB_get S (o + 0);
                _co := nan_to_null (SLAB_get S (o + 6));
                _cf := SLAB_get S (o + 12);
                _ta := SLAB_get S (o + 18) |}.
Proof.
  unfold PTR_fajr, _undefFromSlot, _vFromSlot. cbn [_o _uf].
  now rewrite !Z.add_0_r.
Qed.

Lemma PTR_isha_lanes (S : Z -> float) (o uf : Z) :
  PTR_isha S {| _o := o; _uf := uf |} =
  if uf_has uf 16 then
    undefined UNDEFINED_REASON
      {| cosOmega := nan_to_null (SLAB_get S (o + 11)); clamped := false;
         fallbackUsed := None; targetAltitude := SLAB_get S (o + 23) |}
  else
    V_result {| V_ms := SLAB_get S (o + 5);
                _co := nan_to_null (SLAB_get S (o + 11));
                _cf := SLAB_get S (o + 17);
                _ta := SLAB_get S (o + 23) |}.
Proof.
  unfold PTR_isha, _undefFromSlot, _vFromSlot. cbn [_o _uf].
  replace (o + 6 + 5)%Z with (o + 11)%Z by lia.
  replace (o + 12 + 5)%Z with (o + 17)%Z by lia.
  replace (o + 18 + 5)%Z with (o + 23)%Z by lia.
  reflexivity.
Qed.


Lemma ltb_leb_false (x y : float) : (x <? y) = true -> (y <=? x) = false.
Proof.
  rewrite ltb_compare, leb_compare, (SFcompare_antisym (Prim2SF x) (Prim2SF y)).
  destruct (SFcompare (Prim2SF x) (Prim2SF y)) as [[| |]|]; cbn; congruence.
Qed.

(** [applyHighLatFallback], the exported form of step 6 (it adds no minute
    adjustment and keeps the diagnostics of the undefined result). *)
Lemma applyHighLatFallback_rules (reason : string) (diag : PrayerDiagnostics)
    (rule : HighLatRule) (sunsetMs nextSunriseMs angle : float)
    (side : HighLatitude.Side) :
  let night := nextSunriseMs - sunsetMs in
  let res :=
    HighLatitude.applyHighLatFallback reason diag rule sunsetMs nextSunriseMs
      angle side in
  if negb (is_none rule) && (0 <? night) then
    res =
    valid
      match side with
      | HighLatitude.side_fajr =>
          spec_fajr_fallback rule sunsetMs nextSunriseMs night angle
      | HighLatitude.side_isha => spec_isha_fallback rule sunsetMs night angle
      end
      {| cosOmega := cosOmega diag; clamped := clamped diag;
         fallbackUsed := Some (HighLatitude.rule_name rule);
         targetAltitude := targetAltitude diag |}
  else
    is_none rule = true \/ is_nan night = false -> res = undefined reason diag.
Proof.
  cbv zeta. unfold HighLatitude.applyHighLatFallback.
  set (night := nextSunriseMs - sunsetMs).
  destruct rule; cbn [is_none negb andb]; try (intros _; reflexivity);
    (destruct (0 <? night) eqn:P;
     [ rewrite (ltb_leb_false _ _ P); now destruct side
     | intros [H|N]; [discriminate H|];
       now rewrite (not_ltb_leb night 0 N eq_refl P) ]).
Qed.

(** C3. For every computation that returns with sunrise and sunset defined,
    let night = (sunrise + 86400000) - sunset, sunset being the raw slot-28
    value.  A fajr whose cos H0 is out of bounds (undefined after step 5) is,
    when the rule is not [none] and night > 0, the valid time given by the
    rule (sunset + night/2, next sunrise - night/7, next sunrise -
    (fajr angle/60) night) plus the fajr adjustment, flagged with the rule
    and with its undefined bit cleared; it stays undefined under [none] or
    when night > 0 fails.  Isha likewise, with sunset + night/7 and sunset +
    (isha angle/60) night.  The exported [applyHighLatFallback] gives the
    same times before adjustment, and returns its argument under [none] or
    when night <= 0. *)
Theorem C3_high_latitude_fallback {Math : MathObject}
    (config : PrayerTimeInput) (st st' : Engine) (p : PTR)
    (sr ss : float) (dsr dss : PrayerDiagnostics) :
  cc_ok st (_resolve config) ->
  slot_ok (_slabOff st) ->
  computePrayerTimes config st = Normal st' p ->
  PTR_sunrise (_SLAB st') p = valid sr dsr ->
  PTR_sunset (_SLAB st') p = valid ss dss ->
  let r := _resolve config in
  let S := _SLAB st' in
  let rule := r_highLatRule r in
  let nextSunrise := sr + 86400000 in
  let night := nextSunrise - ss in
  let cosF := SLAB_get S (_o p + 6) in
  let cosI := SLAB_get S (_o p + 11) in
  (out_of_bounds cosF = true ->
   if negb (is_none rule) && (0 <? night) then
     PTR_fajr S p =
       valid (spec_fajr_fallback rule ss nextSunrise night
                (method_fajr (r_method r)) +
              adj_fajr (r_adjustments r) * 60000)
         {| cosOmega := Some cosF; clamped := false;
            fallbackUsed := Some (HighLatitude.rule_name rule);
            targetAltitude := - method_fajr (r_method r) |}
   else
     PTR_fajr S p =
       undefined "sun never reaches target altitude"
         {| cosOmega := Some cosF; clamped := false; fallbackUsed := None;
            targetAltitude := - method_fajr (r_method r) |}) /\
  (out_of_bounds cosI = true ->
   if negb (is_none rule) && (0 <? night) then
     PTR_isha S p =
       valid (spec_isha_fallback rule ss night (method_isha (r_method r)) +
              adj_isha (r_adjustments r) * 60000)
         {| cosOmega := Some cosI; clamped := false;
            fallbackUsed := Some (HighLatitude.rule_name rule);
            targetAltitude := - method_isha (r_method r) |}
   else
     PTR_isha S p =
       undefined "sun never reaches target altitude"
         {| cosOmega := Some cosI; clamped := false; fallbackUsed := None;
            targetAltitude := - method_isha (r_method r) |}) /\
  (forall reason diag angle side,
     let res :=
       HighLatitude.applyHighLatFallback reason diag rule ss nextSunrise
         angle side in
     if negb (is_none rule) && (0 <? night) then
       res =
       valid
         match side with
         | HighLatitude.side_fajr =>
             spec_fajr_fallback rule ss nextSunrise night angle
         | HighLatitude.side_isha => spec_isha_fallback rule ss night angle
         end
         {| cosOmega := cosOmega diag; clamped := clamped diag;
            fallbackUsed := Some (HighLatitude.rule_name rule);
            targetAltitude := targetAltitude diag |}
     else
       is_none rule = true \/ is_nan night = false ->
       res = undefined reason diag).
Proof.
  intros Hok Ho H Hsr Hss r S rule nextSunrise night cosF cosI.
  apply and_assoc. split;
    [|intros reason diag angle side;
      exact (applyHighLatFallback_rules reason diag rule ss nextSunrise
               angle side)].
  unfold computePrayerTimes in H. fold r in H, Hok.
  pose proof (run_core_inv _ _ _ _ H) as I. cbv zeta in I.
  destruct I as (st1 & _ & Hc & HS & _ & Hp). subst p. cbn [_o _uf] in *.
  set (o := _slabOff st) in *.
  set (dcBase := (cache_index (julDate_of r) * DC_STRIDE)%Z) in *.
  set (Su0 := chaPrayers r st1 dcBase o (_SLAB st)) in *.
  set (Su' := highLatFallback r st1 o Su0) in *.
  assert (Hcc : cc st1 = cc_refresh r) by (now rewrite Hc, configCache_cc).
  pose proof (chaPrayers_uf r st1 dcBase o (_SLAB st)) as Huf. fold Su0 in Huf.
  set (bF := out_of_bounds (fajr_cosH0 st1 dcBase)) in *.
  set (bS := out_of_bounds (sun_cosH0 st1 dcBase)) in *.
  set (bA := out_of_bounds (asr_cosH0 r st1 dcBase)) in *.
  set (bI := isha_undefined r st1 dcBase) in *.
  (* the final lanes in terms of steps 5 and 6 *)
  assert (Meta : forall k, (0 <= k < 24 \/ k = 28)%Z ->
            SLAB_get S (o + k) = SLAB_get (fst Su') (o + k)).
  { intros k Hk. subst S. rewrite HS. now frames. }
  assert (Keep : forall k, k <> 0%Z -> k <> 12%Z -> k <> 5%Z -> k <> 17%Z ->
            SLAB_get (fst Su') (o + k) = SLAB_get (fst Su0) (o + k)).
  { intros k ? ? ? ?. subst Su'. now frames. }
  (* sunset is defined *)
  destruct (highLatFallback_uf_sun r st1 o Su0 _ _ _ _ Huf) as (U2 & U8 & _).
  fold Su' in U2, U8.
  assert (BS : bS = false).
  { rewrite <- U8. unfold PTR_sunset in Hss. cbn [_uf] in Hss.
    now destruct (uf_has (snd Su') 8). }
  (* the lanes night is made of *)
  assert (L1 : SLAB_get (fst Su0) (o + 1) = sr).
  { unfold PTR_sunrise in Hsr. cbn [_uf _o] in Hsr. rewrite U2, BS in Hsr.
    injection Hsr as <- _. unfold _vFromSlot; cbn [V_ms]. fold S.
    rewrite Meta, Keep by lia. reflexivity. }
  assert (L28 : SLAB_get (fst Su0) (o + 28) = ss).
  { unfold PTR_sunset in Hss. cbn [_uf _o] in Hss. rewrite U8, BS in Hss.
    injection Hss as <- _. cbn [V_ms]. fold S.
    rewrite Meta, Keep by lia. reflexivity. }
  rewrite BS in Huf.
  pose proof (highLatFallback_spec r st1 o Ho Su0 bF bA bI Huf) as F.
  cbv zeta in F. fold Su' in F. rewrite L1, L28 in F.
  change MS_PER_DAY with 86400000 in F. fold nextSunrise night rule in F.
  (* the cos H0 and altitude lanes *)
  destruct (chaPrayers_fajr_lanes r st1 dcBase o Ho (_SLAB st)) as [F6 F18].
  pose proof (chaPrayers_isha_lanes r st1 dcBase o Ho (_SLAB st)) as LI.
  fold Su0 in F6, F18, LI. fold bS in LI. rewrite BS in LI.
  assert (C6 : cosF = fajr_cosH0 st1 dcBase).
  { subst cosF. rewrite Meta, Keep by lia. exact F6. }
  assert (A18 : SLAB_get S (o + 18) = - method_fajr (r_method r)).
  { rewrite Meta, Keep, F18 by lia. unfold fajrAlt. now rewrite Hcc. }
  assert (C11 : cosI = SLAB_get (fst Su0) (o + 11)).
  { subst cosI. now rewrite Meta, Keep by lia. }
  assert (A23 : SLAB_get S (o + 23) = SLAB_get (fst Su0) (o + 23)).
  { now rewrite Meta, Keep by lia. }
  assert (AF : adjFajrMs st1 = adj_fajr (r_adjustments r) * 60000).
  { unfold adjFajrMs. now rewrite Hcc. }
  assert (AI : adjIshaMs st1 = adj_isha (r_adjustments r) * 60000).
  { unfold adjIshaMs. now rewrite Hcc. }
  assert (AltI : ishaAlt st1 = - method_isha (r_method r)).
  { unfold ishaAlt. now rewrite Hcc. }
  split.
  - (* fajr *)
    intros OF. pose proof (out_of_bounds_not_nan _ OF) as NF.
    assert (BF : bF = true) by (subst bF; now rewrite <- C6).
    rewrite BF in F, Huf.
    rewrite PTR_fajr_lanes. fold cosF. rewrite NF, A18.
    destruct (negb (is_none rule) && (0 <? night)) eqn:Act.
    + destruct F as (Fu & (F0 & F12) & _).
      rewrite Fu. destruct (mask_bits false false bA false) as (-> & _).
      rewrite !Meta by lia. rewrite F0, F12, AF.
      rewrite fallback_diagnostics
        by (intros E; rewrite E in Act; discriminate Act).
      f_equal. f_equal.
      unfold fajr_fbMs, spec_fajr_fallback. fold r.
      subst rule. destruct (r_highLatRule r) eqn:R; try reflexivity.
      discriminate Act.
    + rewrite F, Huf. now destruct (mask_bits true false bA bI) as (-> & _).
  - (* isha *)
    intros OI. pose proof (out_of_bounds_not_nan _ OI) as NI.
    destruct (not_nullish (ishaInterval (r_method r))) eqn:IV;
      cbn [andb negb] in LI.
    { destruct LI as (_ & L11 & _). rewrite C11, L11 in OI. discriminate OI. }
    destruct LI as (L11 & L23 & _).
    assert (BI : bI = true).
    { subst bI. unfold isha_undefined. fold bS. rewrite BS, IV.
      cbn [andb negb]. now rewrite <- L11, <- C11. }
    rewrite BI in F, Huf.
    rewrite PTR_isha_lanes. fold cosI. rewrite NI, A23, L23, AltI.
    destruct (negb (is_none rule) && (0 <? night)) eqn:Act.
    + destruct F as (Fu & _ & (F5 & F17)).
      rewrite Fu. destruct (mask_bits false false bA false) as (_ & -> & _).
      rewrite !Meta by lia. rewrite F5, F17, AI.
      rewrite fallback_diagnostics
        by (intros E; rewrite E in Act; discriminate Act).
      f_equal. f_equal.
      unfold isha_fbMs, spec_isha_fallback. fold r.
      subst rule. destruct (r_highLatRule r) eqn:R; try reflexivity.
      discriminate Act.
    + rewrite F, Huf. now destruct (mask_bits bF false bA true) as (_ & -> & _).
Qed.

Lemma C3_witness :
  let st' := state_of (Scenarios.fresh Examples.london) in
  let p := {| _o := 0; _uf := 0 |} in
  let sunrise := 1782013385345.4836 in
  let sunset := 1782073295129.7812 in
  PTR_fajr (_SLAB st') p =
  valid (spec_fajr_fallback twilight_angle sunset (sunrise + 86400000)
           (sunrise + 86400000 - sunset) 18 + 0 * 60000)
    {| cosOmega := Some (-1.0862796845713705); clamped := false;
       fallbackUsed := Some "twilight_angle"%string;
       targetAltitude := -18 |}.
Proof.
  cbv zeta.
  assert (E : computePrayerTimes (Math := SeriesMath) Examples.london
                initialEngine =
              Normal (state_of (Scenarios.fresh Examples.london))
                {| _o := 0; _uf := 0 |})
    by (apply (returns_with (Scenarios.fresh Examples.london));
        vm_compute; reflexivity).
  assert (Hsr : PTR_sunrise
                  (_SLAB (state_of (Scenarios.fresh Examples.london)))
                  {| _o := 0; _uf := 0 |} =
                valid 1782013385345.4836
                  {| cosOmega := Some (-0.57061753776981627);
                     clamped := false; fallbackUsed := None;
                     targetAltitude := -0.83330000000000004 |})
    by (vm_compute; reflexivity).
  assert (Hss : PTR_sunset
                  (_SLAB (state_of (Scenarios.fresh Examples.london)))
                  {| _o := 0; _uf := 0 |} =
                valid 1782073295129.7812
                  {| cosOmega := Some (-0.57061753776981627);
                     clamped := false; fallbackUsed := None;
                     targetAltitude := -0.83330000000000004 |})
    by (vm_compute; reflexivity).
  pose proof (C3_high_latitude_fallback (Math := SeriesMath)
                Examples.london initialEngine _ _ _ _ _ _
                (cc_ok_initial _) slot_ok_initial E Hsr Hss) as H.
  cbv zeta in H. destruct H as (HF & _ & _).
  assert (B : out_of_bounds
                (SLAB_get (_SLAB (state_of (Scenarios.fresh Examples.london)))
                   (0 + 6)) = true) by (vm_compute; reflexivity).
  specialize (HF B).
  replace (SLAB_get (_SLAB (state_of (Scenarios.fresh Examples.london)))
             (0 + 6)) with (-1.0862796845713705) in HF
    by (vm_compute; reflexivity).
  exact HF.
Defined.

(** ** C4 *)

Lemma interval_diagnostics (m : float) :
  V_result {| V_ms := m; _co := nan_to_null nan; _cf := 2; _ta := 0 |} =
  valid m {| cosOmega := None; clamped := false;
             fallbackUsed := Some "interval"%string; targetAltitude := 0 |}.
Proof. reflexivity. Qed.

Lemma clamp_flag_diagnostics (c : float) (co : option float) (m ta : float) :
  fallbackUsed (V_diagnostics {| V_ms := m; _co := co; _cf := clamp_flag c;
                                 _ta := ta |}) = None.
Proof. unfold clamp_flag. now destruct (_ || _). Qed.

Lemma cfFlag_fallbackUsed (rule : HighLatRule) (m : float) (co : option float)
    (ta : float) :
  rule <> none ->
  fallbackUsed (V_diagnostics {| V_ms := m; _co := co; _cf := cfFlag_of rule;
                                 _ta := ta |}) =
  Some (HighLatitude.rule_name rule).
Proof. destruct rule; try reflexivity. congruence. Qed.

Lemma rule_name_not_interval (rule : HighLatRule) :
  Some (HighLatitude.rule_name rule) <> Some "interval"%string.
Proof. destruct rule; discriminate. Qed.

Lemma clamp_flag_result (c : float) (co : option float) (m ta : float) :
  V_result {| V_ms := m; _co := co; _cf := clamp_flag c; _ta := ta |} =
  valid m {| cosOmega := co; clamped := (1 <? c) || (c <? -1);
             fallbackUsed := None; targetAltitude := ta |}.
Proof. unfold clamp_flag. now destruct (_ || _). Qed.

(** The engine a returned call leaves is the engine of steps 0 and 1 with
    the slab replaced: the kernel's locals read the same on both. *)
Lemma run_core_final_state {Math : MathObject} (r : ResolvedInput)
    (st st' : Engine) (p : PTR) :
  run_core r st = Normal st' p ->
  exists st1,
    dayConstants (julDate_of r) (configCache r (snd (takeSlot st))) =
      (st1, true) /\
    st' = with_SLAB st1 (_SLAB st').
Proof.
  unfold run_core, _computeCore, coreEvents, takeSlot. cbn [fst snd].
  destruct (dayConstants _ _) as [st1 [|]]; [|discriminate].
  intros [= <- <-]. now exists st1.
Qed.

Lemma isha_locals_with_SLAB {Math : MathObject} (st : Engine)
    (S : Z -> float) (dcBase : Z) :
  isha_cosH0 (with_SLAB st S) dcBase = isha_cosH0 st dcBase /\
  isha_by_angle (with_SLAB st S) dcBase = isha_by_angle st dcBase /\
  cc (with_SLAB st S) = cc st.
Proof. repeat split. Qed.

(** C4 (as amended). For every computation that returns: when
    isha_interval_minutes is a number, zero included, and sunset is defined,
    isha is maghrib + (interval + isha adjustment) x 60000 ms with
    fallback_used = interval, a null cos_omega and target altitude 0.  When
    it is null or missing, or when sunset is undefined, isha comes from the
    isha angle a: with cos H0 = (sin(-a) - sin lat sin decl) / (cos lat cos
    decl), in the kernel's table sines, within [-(1 + 1e-6), 1 + 1e-6], isha
    is the time of the hour angle acos(cos H0) after transit, refined once,
    plus the isha adjustment, reported with that cos H0, clamped exactly
    when |cos H0| > 1, no fallback and target altitude -a; with cos H0
    beyond, isha is undefined with that cos H0 and target altitude, unless
    sunset is defined, the high-latitude rule is not [none] and the night is
    positive, when it is the rule's time plus the isha adjustment, flagged
    with the rule. *)
Theorem C4_isha_interval_or_angle {Math : MathObject}
    (config : PrayerTimeInput) (st st' : Engine) (p : PTR) :
  cc_ok st (_resolve config) ->
  slot_ok (_slabOff st) ->
  computePrayerTimes config st = Normal st' p ->
  let r := _resolve config in
  let S := _SLAB st' in
  (forall iv mg dmg,
     ishaInterval (r_method r) = JsNum iv ->
     PTR_maghrib S p = valid mg dmg ->
     PTR_isha S p =
       valid (mg + (iv + adj_isha (r_adjustments r)) * 60000)
         {| cosOmega := None; clamped := false;
            fallbackUsed := Some "interval"%string; targetAltitude := 0 |}) /\
  (not_nullish (ishaInterval (r_method r)) = false \/
   is_undefined (PTR_sunset S p) = true ->
   let angle := method_isha (r_method r) in
   let adjustment := adj_isha (r_adjustments r) * 60000 in
   let dcBase := (cache_index (julDate_of r) * DC_STRIDE)%Z in
   let c := isha_cosH0 st' dcBase in
   let rule := r_highLatRule r in
   let sunset := SLAB_get S (_o p + 28) in
   let night := SLAB_get S (_o p + 1) + 86400000 - sunset in
   sinIshaAlt st' = tSin (- angle) /\
   base90Isha st' = 90 - - angle /\
   adjIshaMs st' = adjustment /\
   PTR_isha S p =
     if out_of_bounds c then
       if negb (is_undefined (PTR_sunset S p)) && negb (is_none rule) &&
          (0 <? night)
       then
         valid (spec_isha_fallback rule sunset night angle + adjustment)
           {| cosOmega := Some c; clamped := false;
              fallbackUsed := Some (HighLatitude.rule_name rule);
              targetAltitude := - angle |}
       else
         undefined "sun never reaches target altitude"
           {| cosOmega := Some c; clamped := false; fallbackUsed := None;
              targetAltitude := - angle |}
     else
       valid (isha_by_angle st' dcBase)
         {| cosOmega := nan_to_null c; clamped := (1 <? c) || (c <? -1);
            fallbackUsed := None; targetAltitude := - angle |}).
Proof.
  intros Hok Ho H r S.
  unfold computePrayerTimes in H. fold r in H, Hok.
  pose proof (run_core_inv _ _ _ _ H) as I. cbv zeta in I.
  destruct I as (st1 & D1 & Hc & HS & _ & Hp).
  destruct (run_core_final_state _ _ _ _ H) as (st1' & D1' & Hst).
  rewrite D1 in D1'. injection D1' as <-.
  subst p. cbn [_o _uf] in *.
  set (o := _slabOff st) in *.
  set (dcBase := (cache_index (julDate_of r) * DC_STRIDE)%Z) in *.
  set (Su0 := chaPrayers r st1 dcBase o (_SLAB st)) in *.
  set (Su' := highLatFallback r st1 o Su0) in *.
  assert (Hcc : cc st1 = cc_refresh r) by (now rewrite Hc, configCache_cc).
  pose proof (chaPrayers_uf r st1 dcBase o (_SLAB st)) as Huf. fold Su0 in Huf.
  set (bF := out_of_bounds (fajr_cosH0 st1 dcBase)) in *.
  set (bS := out_of_bounds (sun_cosH0 st1 dcBase)) in *.
  set (bA := out_of_bounds (asr_cosH0 r st1 dcBase)) in *.
  set (bI := isha_undefined r st1 dcBase) in *.
  assert (Meta : forall k, (0 <= k < 24 \/ k = 28)%Z ->
            SLAB_get S (o + k) = SLAB_get (fst Su') (o + k)).
  { intros k Hk. subst S. rewrite HS. now frames. }
  assert (Keep : forall k, k <> 0%Z -> k <> 12%Z -> k <> 5%Z -> k <> 17%Z ->
            SLAB_get (fst Su') (o + k) = SLAB_get (fst Su0) (o + k)).
  { intros k ? ? ? ?. subst Su'. now frames. }
  destruct (highLatFallback_uf_sun r st1 o Su0 _ _ _ _ Huf)
    as (_ & U8 & _ & _ & _ & U16).
  fold Su' in U8, U16.
  pose proof (chaPrayers_isha_lanes r st1 dcBase o Ho (_SLAB st)) as LI.
  fold Su0 bS in LI.
  assert (AltI : ishaAlt st1 = - method_isha (r_method r)).
  { unfold ishaAlt. now rewrite Hcc. }
  (* lanes 5 and 17 survive step 6 unless isha was undefined *)
  assert (K5 : bI = false ->
            SLAB_get (fst Su') (o + 5) = SLAB_get (fst Su0) (o + 5) /\
            SLAB_get (fst Su') (o + 17) = SLAB_get (fst Su0) (o + 17) /\
            uf_has (snd Su') 16 = false).
  { intros BI.
    assert (uf_has (snd Su') 16 = false).
    { destruct (uf_has (snd Su') 16); [|reflexivity].
      specialize (U16 eq_refl). congruence. }
    rewrite BI in Huf.
    destruct bS.
    - repeat split; try assumption; subst Su';
        now rewrite (highLatFallback_polar r st1 o Su0 _ _ _ Huf).
    - pose proof (highLatFallback_spec r st1 o Ho Su0 _ _ _ Huf) as F.
      cbv zeta in F. fold Su' in F.
      destruct (negb _ && _).
      + destruct F as (_ & _ & (F5 & F17)). auto.
      + repeat split; try assumption; now rewrite F. }
  split.
  - (* the interval branch *)
    intros iv mg dmg Hiv Hmg.
    assert (BS : bS = false).
    { rewrite <- U8. unfold PTR_maghrib in Hmg. cbn [_uf] in Hmg.
      now destruct (uf_has (snd Su') 8). }
    rewrite BS, Hiv in LI. cbn [not_nullish andb negb optnum_value] in LI.
    destruct LI as (L5 & L11 & L17 & L23).
    assert (BI : bI = false).
    { subst bI. unfold isha_undefined. fold bS. now rewrite BS, Hiv. }
    destruct (K5 BI) as (K5' & K17 & UI).
    assert (Mg : SLAB_get (fst Su0) (o + 4) = mg).
    { unfold PTR_maghrib in Hmg. cbn [_uf _o] in Hmg. rewrite U8, BS in Hmg.
      injection Hmg as <- _. unfold _vFromSlot; cbn [V_ms]. fold S.
      now rewrite Meta, Keep by lia. }
    rewrite PTR_isha_lanes, UI, !Meta by lia.
    rewrite K5', K17, L5, L17, Mg, (Keep 11%Z), (Keep 23%Z), L11, L23 by lia.
    apply interval_diagnostics.
  - (* the angle branch *)
    intros Hang.
    set (angle := method_isha (r_method r)) in *.
    set (adjustment := adj_isha (r_adjustments r) * 60000).
    set (rule := r_highLatRule r).
    set (sunset := SLAB_get S (o + 28)).
    set (night := SLAB_get S (o + 1) + 86400000 - sunset).
    assert (BI' : not_nullish (ishaInterval (r_method r)) && negb bS = false).
    { destruct Hang as [-> | Hu]; [reflexivity|].
      unfold PTR_sunset in Hu. cbn [_uf] in Hu. rewrite U8 in Hu.
      destruct bS; [apply andb_false_r|discriminate Hu]. }
    pose proof (chaPrayers_isha_time r st1 dcBase o Ho (_SLAB st) BI') as L5.
    fold Su0 in L5.
    rewrite BI' in LI. destruct LI as (L11 & L23 & L17).
    (* the locals of the final engine are those of steps 0 and 1 *)
    destruct (isha_locals_with_SLAB st1 (_SLAB st') dcBase) as (Ec & Et & Ek).
    rewrite <- Hst in Ec, Et, Ek.
    assert (Hcc' : cc st' = cc_refresh r) by (now rewrite Ek).
    rewrite Et, Ec.
    set (c := isha_cosH0 st1 dcBase) in *.
    split; [unfold sinIshaAlt; now rewrite Hcc'|].
    split; [unfold base90Isha; now rewrite Hcc'|].
    split; [unfold adjIshaMs; now rewrite Hcc'|].
    assert (AI : adjIshaMs st1 = adjustment).
    { unfold adjIshaMs. now rewrite Hcc. }
    assert (A23 : SLAB_get S (o + 23) = - angle).
    { now rewrite Meta, Keep, L23 by lia. }
    assert (C11 : SLAB_get S (o + 11) = c).
    { now rewrite Meta, Keep, L11 by lia. }
    assert (EI : bI = out_of_bounds c).
    { subst bI. unfold isha_undefined. fold bS. now rewrite BI'. }
    assert (US : is_undefined (PTR_sunset S (Build_PTR o (snd Su'))) = bS).
    { unfold PTR_sunset. cbn [_uf]. rewrite U8. now destruct bS. }
    rewrite US. rewrite PTR_isha_lanes, C11, A23.
    destruct (out_of_bounds c) eqn:OI.
    + (* beyond the bounds: undefined after step 5 *)
      rewrite (out_of_bounds_not_nan _ OI).
      rewrite EI in Huf.
      destruct bS; cbn [negb andb].
      { subst Su'.
        rewrite (highLatFallback_polar r st1 o Su0 _ _ _ Huf), Huf.
        now destruct (mask_bits bF true bA true) as (_ & -> & _). }
      pose proof (highLatFallback_spec r st1 o Ho Su0 _ _ _ Huf) as F.
      cbv zeta in F. fold Su' in F.
      assert (N : SLAB_get (fst Su0) (o + 1) + MS_PER_DAY -
                  SLAB_get (fst Su0) (o + 28) = night).
      { subst night sunset. rewrite !Meta, !Keep by lia. reflexivity. }
      rewrite N in F. fold rule in F.
      destruct (negb (is_none rule) && (0 <? night)) eqn:Act.
      * destruct F as (Fu & _ & (F5 & F17)).
        rewrite Fu. destruct (mask_bits false false bA false) as (_ & -> & _).
        rewrite !Meta by lia. rewrite F5, F17, AI.
        rewrite fallback_diagnostics
          by (intros E; rewrite E in Act; discriminate Act).
        f_equal. f_equal.
        assert (E28 : SLAB_get (fst Su0) (o + 28) = sunset).
        { subst sunset. now rewrite Meta, Keep by lia. }
        rewrite E28.
        unfold isha_fbMs, spec_isha_fallback. fold r.
        subst rule. destruct (r_highLatRule r) eqn:R; try reflexivity.
        discriminate Act.
      * rewrite F, Huf.
        now destruct (mask_bits bF false bA true) as (_ & -> & _).
    + (* within the bounds: the time of the hour angle *)
      destruct (K5 EI) as (K5' & K17 & UI).
      rewrite UI, !Meta by lia.
      rewrite K5', K17, L5, L17 by reflexivity.
      apply clamp_flag_result.
Qed.

Lemma C4_witness :
  (let st' := state_of (Scenarios.fresh (Scenarios.mecca_umm_al_qura 0)) in
   PTR_isha (_SLAB st') {| _o := 0; _uf := 0 |} =
   valid (1772032991180.0986 + (90 + 0) * 60000)
     {| cosOmega := None; clamped := false;
        fallbackUsed := Some "interval"%string; targetAltitude := 0 |}) /\
  (let st' := state_of (Scenarios.fresh (Scenarios.mecca_maghrib 0)) in
   PTR_isha (_SLAB st') {| _o := 0; _uf := 0 |} =
   valid 1772037187291.0066
     {| cosOmega := Some (-0.25482082958088254); clamped := false;
        fallbackUsed := None; targetAltitude := -17 |}).
Proof.
  cbv zeta. split.
  - assert (E : computePrayerTimes (Math := SeriesMath)
                  (Scenarios.mecca_umm_al_qura 0) initialEngine =
                Normal
                  (state_of (Scenarios.fresh (Scenarios.mecca_umm_al_qura 0)))
                  {| _o := 0; _uf := 0 |})
      by (apply (returns_with
                   (Scenarios.fresh (Scenarios.mecca_umm_al_qura 0)));
          vm_compute; reflexivity).
    destruct (C4_isha_interval_or_angle (Math := SeriesMath) _ _ _ _
                (cc_ok_initial _) slot_ok_initial E) as [H _].
    apply (H 90 1772032991180.0986
             {| cosOmega := Some 0.047487764714441577; clamped := false;
                fallbackUsed := None;
                targetAltitude := -0.83330000000000004 |}).
    + reflexivity.
    + vm_compute. reflexivity.
  - assert (E : computePrayerTimes (Math := SeriesMath)
                  (Scenarios.mecca_maghrib 0) initialEngine =
                Normal (state_of (Scenarios.fresh (Scenarios.mecca_maghrib 0)))
                  {| _o := 0; _uf := 0 |})
      by (apply (returns_with (Scenarios.fresh (Scenarios.mecca_maghrib 0)));
          vm_compute; reflexivity).
    destruct (C4_isha_interval_or_angle (Math := SeriesMath) _ _ _ _
                (cc_ok_initial _) slot_ok_initial E) as [_ H].
    destruct (H (or_introl eq_refl)) as (_ & _ & _ & I).
    rewrite I. vm_compute. reflexivity.
Defined.

(** C4 (as stated) fails for an interval of zero: with sunset defined, isha
    is not computed from the isha angle (17 degrees here, which would give
    target altitude -17 and 1772037187291.0066 ms) but is maghrib + 0
    minutes, flagged as an interval. *)
Lemma C4_counterexample :
  ishaInterval (method Scenarios.zero_interval) = JsNum 0 /\
  match output_of (Scenarios.fresh Scenarios.zero_interval) with
  | Some o =>
      is_undefined (out_sunset o) = false /\
      ms_of (out_maghrib o) = 1772032991180.0986 /\
      out_isha o =
        valid 1772032991180.0986
          {| cosOmega := None; clamped := false;
             fallbackUsed := Some "interval"%string; targetAltitude := 0 |}
  | None => False
  end /\
  option_map (fun o => ms_of (out_isha o))
    (output_of (Scenarios.fresh (Scenarios.mecca_maghrib 0))) =
  Some 1772037187291.0066.
Proof. vm_compute. repeat split. Qed.

(** ** C5: the maghrib adjustment reaches lanes 4 and 5 only *)

Lemma SLAB_get_set (S : Z -> float) (i j : Z) (v : float) :
  SLAB_get (SLAB_set S i v) j =
  if Js.in_range _SLAB_LEN i && (j =? i)%Z then v else SLAB_get S j.
Proof.
  destruct (Z.eq_dec j i) as [->|N].
  - rewrite Z.eqb_refl, andb_true_r.
    unfold SLAB_get, SLAB_set, Js.ta_get, Js.ta_set.
    destruct (Js.in_range _SLAB_LEN i); [now rewrite Z.eqb_refl|reflexivity].
  - rewrite SLAB_gso by assumption.
    apply Z.eqb_neq in N. now rewrite N, andb_false_r.
Qed.

Section AgreeOff.
Variable o : Z.


Lemma agree_off_set (S S' : Z -> float) (i : Z) (v : float) :
  agree_off o S S' -> agree_off o (SLAB_set S i v) (SLAB_set S' i v).
Proof.
  intros A j H4 H5. rewrite !SLAB_get_set.
  destruct (_ && _); [reflexivity|now apply A].
Qed.

Lemma agree_off_set_45 (S S' : Z -> float) (i : Z) (v v' : float) :
  i = (o + 4)%Z \/ i = (o + 5)%Z ->
  agree_off o S S' -> agree_off o (SLAB_set S i v) (SLAB_set S' i v').
Proof.
  intros Hi A j H4 H5. rewrite !SLAB_gso by (destruct Hi; congruence).
  now apply A.
Qed.
End AgreeOff.


Section CachesApart.
Context {Math : MathObject}.

(** The solar and day-constants caches do not look at the config cache. *)
Lemma cachedSolarPosition_with_cc (jd : float) (st : Engine) (c : ConfigCache) :
  cachedSolarPosition jd (with_cc st c) =
  (with_cc (fst (cachedSolarPosition jd st)) c,
   snd (cachedSolarPosition jd st)).
Proof.
  unfold cachedSolarPosition. cbn [with_cc _cacheJDs _cacheVals].
  now destruct (JD_get _ _ =? jd).
Qed.

Lemma dayConstants_with_cc (jd : float) (st : Engine) (c : ConfigCache) :
  dayConstants jd (with_cc st c) =
  (with_cc (fst (dayConstants jd st)) c, snd (dayConstants jd st)).
Proof.
  unfold dayConstants. cbn [with_cc _dcJDs].
  destruct (Js.strict_ne _ _); [|reflexivity].
  rewrite cachedSolarPosition_with_cc.
  destruct (cachedSolarPosition (jd - 1) st) as [st1 r1]. cbn [fst snd].
  rewrite cachedSolarPosition_with_cc.
  destruct (cachedSolarPosition jd st1) as [st2 r2]. cbn [fst snd].
  rewrite cachedSolarPosition_with_cc.
  destruct (cachedSolarPosition (jd + 1) st2) as [st3 r3]. cbn [fst snd].
  now destruct r1, r2, r3.
Qed.

Lemma with_cc_same (st : Engine) : with_cc st (cc st) = st.
Proof. now destruct st. Qed.

Lemma configCache_with_cc (st : Engine) (r : ResolvedInput) :
  cc_ok st r -> configCache r st = with_cc st (cc_refresh r).
Proof.
  unfold cc_ok, configCache. destruct (cc_changed r (cc st)); [reflexivity|].
  intros H. now rewrite <- H, with_cc_same.
Qed.

Lemma with_cc_twice (st : Engine) (c c' : ConfigCache) :
  with_cc (with_cc st c) c' = with_cc st c'.
Proof. reflexivity. Qed.

End CachesApart.

Section MaghribFrame.
Context {Math : MathObject}.
Variable r : ResolvedInput.
Variable st : Engine.
Variables (c : ConfigCache) (k ms : float).
Variables dcBase o : Z.

Let st1 := with_cc st c.
Let st2 := with_cc st (cc_set_maghrib c k ms).

Implicit Types Su : (Z -> float) * Z.


Ltac agree := repeat first [ apply agree_off_set_45; [lia|] | apply agree_off_set ].

(** Every local but [adjMaghribMs] reads the same in both states: the
    locals of step 2 by unfolding, the ones built on them by rewriting. *)
Ltac same0 :=
  unfold sinLatSinD2, cosLatCosD2, Theta0, a2, d2, raAB, raC, declAB, declC,
    dateUtcMidnightMs, sinLat, cosLat, Lw, c360cosLat, horizonAlt,
    sinHorizonAlt, base90Horizon, fajrAlt, sinFajrAlt, base90Fajr, ishaAlt,
    sinIshaAlt, base90Isha, adjFajrMs, adjSunriseMs, adjDhuhrMs, adjAsrMs,
    adjIshaMs, shadowK;
  change (_dc st2) with (_dc st1);
  change (cc st2) with (cc_set_maghrib (cc st1) k ms);
  cbn [cc_set_maghrib _sinLat _cosLat _Lw _360cosLat _horizonAlt
       _sinHorizonAlt _base90Horizon _fajrAlt _sinFajrAlt _base90Fajr
       _ishaAlt _sinIshaAlt _base90Isha _adjFajrMs _adjSunriseMs
       _adjDhuhrMs _adjAsrMs _adjIshaMs _shadowK].

Lemma same_m0Raw : m0Raw st2 dcBase = m0Raw st1 dcBase.
Proof. unfold m0Raw. now same0. Qed.

Lemma same_m0 : m0 st2 dcBase = m0 st1 dcBase.
Proof. unfold m0. now rewrite same_m0Raw. Qed.

Lemma same_transitTheta : transitTheta st2 dcBase = transitTheta st1 dcBase.
Proof. unfold transitTheta. rewrite same_m0. now same0. Qed.

Lemma same_transitA : transitA st2 dcBase = transitA st1 dcBase.
Proof. unfold transitA. rewrite same_m0. now same0. Qed.

Lemma same_rawTransitH : rawTransitH st2 dcBase = rawTransitH st1 dcBase.
Proof.
  unfold rawTransitH. rewrite same_transitTheta, same_transitA. now same0.
Qed.

Lemma same_transitUtcH : transitUtcH st2 dcBase = transitUtcH st1 dcBase.
Proof.
  unfold transitUtcH, transitH. now rewrite same_m0, same_rawTransitH.
Qed.

Lemma same_asrAlt : asrAlt r st2 dcBase = asrAlt r st1 dcBase.
Proof.
  unfold asrAlt, _asrDiff, declAtTransit, transitFrac.
  rewrite same_transitUtcH. now same0.
Qed.

Lemma same_refine_dm (m b : float) :
  refine_dm st2 dcBase m b = refine_dm st1 dcBase m b.
Proof. unfold refine_dm. now same0. Qed.

Ltac same :=
  unfold sinAsrAlt, base90Asr;
  rewrite ?same_m0, ?same_transitUtcH, ?same_asrAlt, ?same_refine_dm;
  same0.

Lemma fajrBlock_rel Su Su' :
  rel o Su Su' -> rel o (fajrBlock st1 dcBase o Su) (fajrBlock st2 dcBase o Su').
Proof.
  intros [A U]. unfold rel, fajrBlock. rewrite U. same.
  destruct (out_of_bounds _); cbn [fst snd]; split; try reflexivity;
    now agree.
Qed.

Lemma sunBlock_rel Su Su' :
  rel o Su Su' -> rel o (sunBlock st1 dcBase o Su) (sunBlock st2 dcBase o Su').
Proof.
  intros [A U]. unfold rel, sunBlock. rewrite U. same.
  destruct (out_of_bounds _); cbn [fst snd]; split; try reflexivity;
    now agree.
Qed.

Lemma dhuhrBlock_rel Su Su' :
  rel o Su Su' -> rel o (dhuhrBlock st1 dcBase o Su) (dhuhrBlock st2 dcBase o Su').
Proof.
  intros [A U]. unfold rel, dhuhrBlock. same. cbn [fst snd].
  split; [now agree|assumption].
Qed.

Lemma asrBlock_rel Su Su' :
  rel o Su Su' ->
  rel o (asrBlock r st1 dcBase o Su) (asrBlock r st2 dcBase o Su').
Proof.
  intros [A U]. unfold rel, asrBlock. rewrite U. same.
  destruct (out_of_bounds _); cbn [fst snd]; split; try reflexivity;
    now agree.
Qed.

Lemma ishaBlock_rel Su Su' :
  rel o Su Su' ->
  rel o (ishaBlock r st1 dcBase o Su) (ishaBlock r st2 dcBase o Su').
Proof.
  intros [A U]. unfold rel, ishaBlock. rewrite U. same.
  destruct (_ && _); [cbn [fst snd]; split; [now agree|reflexivity]|].
  destruct (out_of_bounds _); cbn [fst snd]; split; try reflexivity;
    now agree.
Qed.

Lemma chaPrayers_rel (S : Z -> float) :
  rel o (chaPrayers r st1 dcBase o S) (chaPrayers r st2 dcBase o S).
Proof.
  unfold chaPrayers.
  apply ishaBlock_rel, asrBlock_rel, dhuhrBlock_rel, sunBlock_rel,
    fajrBlock_rel.
  split; [intros j _ _|]; reflexivity.
Qed.

Lemma highLatFallback_rel Su Su' :
  rel o Su Su' ->
  rel o (highLatFallback r st1 o Su) (highLatFallback r st2 o Su').
Proof.
  intros [A U]. unfold rel, highLatFallback. rewrite U.
  rewrite (A (o + 28)%Z), (A (o + 1)%Z) by lia. same.
  destruct (_ && _); [|now split].
  destruct (uf_has (snd Su') 17); [|now split].
  destruct (0 <? _); [|now split].
  destruct (uf_has (snd Su') 1); cbn [fst snd];
    (destruct (uf_has _ 16); cbn [fst snd]; split; try reflexivity;
     now agree).
Qed.

Lemma metaValues_rel (jd : float) (S S' : Z -> float) :
  agree_off o S S' ->
  agree_off o (metaValues st1 dcBase o jd S) (metaValues st2 dcBase o jd S').
Proof. intros A. unfold metaValues. same. now agree. Qed.

End MaghribFrame.

(** ** C5 *)


Section MaghribAdjustment.
Context {Math : MathObject}.
Variables r1 r2 : ResolvedInput.
Hypothesis D : differ_in_maghrib_adjustment_only r1 r2.

Lemma cc_refresh_maghrib :
  cc_refresh r2 =
  cc_set_maghrib (cc_refresh r1) (adj_maghrib (r_adjustments r2))
    (adj_maghrib (r_adjustments r2) * MS_PER_MIN).
Proof.
  destruct D as (Hlat & Hlng & _ & Hm & Hmad & _ & He & HF & HS & HD & HA & HI).
  unfold cc_refresh, cc_set_maghrib.
  cbn [_ccLat _ccLng _ccElev _ccFajr _ccIsha _ccIshaInt _ccMadhab _ccAdjF
       _ccAdjSr _ccAdjD _ccAdjA _ccAdjM _ccAdjI _sinLat _cosLat _Lw
       _360cosLat _horizonAlt _sinHorizonAlt _base90Horizon _fajrAlt
       _sinFajrAlt _base90Fajr _ishaAlt _sinIshaAlt _base90Isha _adjFajrMs
       _adjSunriseMs _adjDhuhrMs _adjAsrMs _adjMaghribMs _adjIshaMs _shadowK].
  now rewrite Hlat, Hlng, Hm, Hmad, He, HF, HS, HD, HA, HI.
Qed.

Lemma cc_ok_takeSlot (r : ResolvedInput) (st : Engine) :
  cc_ok st r -> cc_ok (snd (takeSlot st)) r.
Proof. intros H. exact H. Qed.

(** The two calls end alike, with the same slot and mask and with slabs
    that agree off the maghrib and isha time lanes. *)
Lemma run_core_maghrib (st : Engine) :
  cc_ok st r1 -> cc_ok st r2 ->
  match run_core r1 st, run_core r2 st with
  | Normal st1 p1, Normal st2 p2 =>
      _o p1 = _o p2 /\ _uf p1 = _uf p2 /\
      agree_off (_o p1) (_SLAB st1) (_SLAB st2)
  | Throw _, Throw _ => True
  | _, _ => False
  end.
Proof.
  intros K1 K2. apply cc_ok_takeSlot in K1, K2.
  pose proof D as (Hlat & _ & Hdate & Hm & _ & Hr & _ & _ & _ & _ & _ & HI).
  unfold run_core, _computeCore, coreEvents, julDate_of.
  destruct (takeSlot st) as [o st0]. cbn [snd] in K1, K2.
  rewrite <- Hdate.
  rewrite (configCache_with_cc _ _ K1), (configCache_with_cc _ _ K2).
  rewrite !dayConstants_with_cc.
  destruct (dayConstants _ st0) as [stD [|]]; cbn [fst snd]; [|exact I].
  cbn [_SLAB with_cc with_SLAB _o _uf].
  rewrite <- (chaPrayers_reads r1 r2 Hlat Hm HI).
  rewrite <- (highLatFallback_reads r1 r2 Hm Hr).
  rewrite cc_refresh_maghrib.
  set (c := cc_refresh r1).
  set (k := adj_maghrib _). set (ms := k * MS_PER_MIN).
  set (dcBase := (cache_index _ * DC_STRIDE)%Z).
  pose proof (highLatFallback_rel r1 stD c k ms o _ _
                (chaPrayers_rel r1 stD c k ms dcBase o (_SLAB stD)))
    as [A U].
  split; [reflexivity|]. split; [exact U|].
  now apply metaValues_rel.
Qed.

End MaghribAdjustment.

(** C5. Take two configurations that differ at most in the maghrib minute
    adjustment and run each from the same engine state (coherent for both):
    either both calls throw or both return, and then the reported sunset,
    midnight, first third and last third are identical, diagnostics
    included.  When sunrise and sunset are defined the three night-division
    times are sunset + night * 1/2, night / 3 and night * (2/3) with
    night = sunrise + 86400000 - sunset, sunset being the reported (slot 28)
    value. *)
Theorem C5_night_division_anchored_to_raw_sunset {Math : MathObject}
    (c1 c2 : PrayerTimeInput) (st : Engine) :
  differ_in_maghrib_adjustment_only (_resolve c1) (_resolve c2) ->
  cc_ok st (_resolve c1) ->
  cc_ok st (_resolve c2) ->
  match computePrayerTimes c1 st, computePrayerTimes c2 st with
  | Normal st1 p1, Normal st2 p2 =>
      let S1 := _SLAB st1 in
      let S2 := _SLAB st2 in
      PTR_sunset S1 p1 = PTR_sunset S2 p2 /\
      PTR_midnight S1 p1 = PTR_midnight S2 p2 /\
      PTR_firstThird S1 p1 = PTR_firstThird S2 p2 /\
      PTR_lastThird S1 p1 = PTR_lastThird S2 p2 /\
      (forall sr dsr ss dss,
         PTR_sunrise S1 p1 = valid sr dsr ->
         PTR_sunset S1 p1 = valid ss dss ->
         let night := sr + 86400000 - ss in
         ss = SLAB_get S1 (_o p1 + 28) /\
         PTR_midnight S1 p1 = valid (ss + night * 0.5) DERIVED_DIAG /\
         PTR_firstThird S1 p1 = valid (ss + night / 3) DERIVED_DIAG /\
         PTR_lastThird S1 p1 = valid (ss + night * (2 / 3)) DERIVED_DIAG)
  | Throw _, Throw _ => True
  | _, _ => False
  end.
Proof.
  intros D K1 K2. unfold computePrayerTimes.
  pose proof (run_core_maghrib _ _ D st K1 K2) as R.
  pose proof (run_core_sun_bits (_resolve c1) st) as B.
  destruct (run_core (_resolve c1) st) as [st1 p1|st1];
    destruct (run_core (_resolve c2) st) as [st2 p2|st2]; try exact R.
  destruct R as (Ho & Hu & A). cbv zeta.
  destruct (B st1 p1 eq_refl) as [B2 B10].
  unfold PTR_sunset, PTR_midnight, PTR_firstThird, PTR_lastThird,
    PTR_sunrise, _undefFromSlot, _vFromSlot.
  rewrite <- Hu, <- Ho.
  rewrite <- !(A (_o p1 + 28)%Z), <- !(A (_o p1 + 1)%Z),
    <- !(A (_o p1 + 10)%Z), <- !(A (_o p1 + 16)%Z), <- !(A (_o p1 + 22)%Z),
    <- !(A (_o p1 + 6 + 4)%Z), <- !(A (_o p1 + 18 + 4)%Z) by lia.
  repeat (split; [reflexivity|]).
  intros sr dsr ss dss. rewrite B10, B2.
  destruct (uf_has (_uf p1) 8); [discriminate|].
  unfold V_result. cbn [V_ms]. intros [= <- _] [= <- _].
  repeat split; reflexivity.
Qed.

Lemma C5_witness :
  let st0 := state_of (Scenarios.fresh (Scenarios.mecca_umm_al_qura 0)) in
  let st3 := state_of (Scenarios.fresh (Scenarios.mecca_umm_al_qura 3)) in
  let p := {| _o := 0; _uf := 0 |} in
  PTR_sunset (_SLAB st0) p = PTR_sunset (_SLAB st3) p /\
  PTR_midnight (_SLAB st0) p = PTR_midnight (_SLAB st3) p /\
  PTR_firstThird (_SLAB st0) p = PTR_firstThird (_SLAB st3) p /\
  PTR_lastThird (_SLAB st0) p = PTR_lastThird (_SLAB st3) p.
Proof.
  cbv zeta.
  assert (E0 : computePrayerTimes (Math := SeriesMath)
                 (Scenarios.mecca_umm_al_qura 0) initialEngine =
               Normal (state_of (Scenarios.fresh (Scenarios.mecca_umm_al_qura 0)))
                 {| _o := 0; _uf := 0 |})
    by (apply (returns_with (Scenarios.fresh (Scenarios.mecca_umm_al_qura 0)));
        vm_compute; reflexivity).
  assert (E3 : computePrayerTimes (Math := SeriesMath)
                 (Scenarios.mecca_umm_al_qura 3) initialEngine =
               Normal (state_of (Scenarios.fresh (Scenarios.mecca_umm_al_qura 3)))
                 {| _o := 0; _uf := 0 |})
    by (apply (returns_with (Scenarios.fresh (Scenarios.mecca_umm_al_qura 3)));
        vm_compute; reflexivity).
  assert (D : differ_in_maghrib_adjustment_only
                (_resolve (Scenarios.mecca_umm_al_qura 0))
                (_resolve (Scenarios.mecca_umm_al_qura 3)))
    by (repeat split).
  pose proof (C5_night_division_anchored_to_raw_sunset (Math := SeriesMath)
                _ _ initialEngine D (cc_ok_initial _) (cc_ok_initial _)) as H.
  rewrite E0, E3 in H. cbv zeta in H.
  destruct H as (H1 & H2 & H3 & H4 & _).
  exact (conj H1 (conj H2 (conj H3 H4))).
Defined.

(** ** The kernel does not look at the slab it is given *)

Section Shift.
Context {Math : MathObject}.
Variable config : ResolvedInput.
Variable st : Engine.
Variable dcBase : Z.
Variables o1 o2 : Z.
Hypothesis Ho1 : slot_ok o1.
Hypothesis Ho2 : slot_ok o2.
Implicit Types Su : (Z -> float) * Z.
Implicit Types P Q : Z -> Prop.

Lemma agree_on_set P (S1 S2 : Z -> float) (i : Z) (v : float) :
  (0 <= i < 29)%Z ->
  agree_on o1 o2 P S1 S2 ->
  agree_on o1 o2 (fun k => k = i \/ P k)
    (SLAB_set S1 (o1 + i) v) (SLAB_set S2 (o2 + i) v).
Proof.
  intros Hi A k Hk.
  destruct (Z.eq_dec k i) as [->|N].
  - now slab.
  - destruct Hk as [->|Pk]; [contradiction|].
    rewrite !SLAB_gso by lia. now apply A.
Qed.

Lemma agree_on_weaken P Q (S1 S2 : Z -> float) :
  (forall k, Q k -> P k) -> agree_on o1 o2 P S1 S2 -> agree_on o1 o2 Q S1 S2.
Proof. intros I A k Hk. apply A, I, Hk. Qed.

(** Lanes written on both sides with the same values, over [A]. *)
Ltac lanes A :=
  eapply agree_on_weaken;
  [ | repeat (apply agree_on_set; [lia|]); exact A ];
  intros ?k ?H; cbn [In andb orb negb] in *;
  repeat match goal with
         | H : _ \/ _ |- _ => destruct H
         | H : _ /\ _ |- _ => destruct H
         | H : False |- _ => destruct H
         end;
  try discriminate; subst;
  repeat first [ left; reflexivity | right ]; try assumption.

Lemma fajrBlock_shift P Su1 Su2 :
  rel_on o1 o2 P Su1 Su2 ->
  rel_on o1 o2
    (fun k => P k \/ In k [6; 18]%Z \/
              (out_of_bounds (fajr_cosH0 st dcBase) = false /\
               In k [0; 12]%Z))
    (fajrBlock st dcBase o1 Su1) (fajrBlock st dcBase o2 Su2).
Proof.
  intros [U A]. unfold rel_on, fajrBlock, fajr_cosH0.
  rewrite U. destruct (out_of_bounds _); cbn [fst snd];
    (split; [reflexivity|]); lanes A.
Qed.

Lemma sunBlock_shift P Su1 Su2 :
  rel_on o1 o2 P Su1 Su2 ->
  rel_on o1 o2
    (fun k => P k \/ In k [7; 10; 19; 22]%Z \/
              (out_of_bounds (sun_cosH0 st dcBase) = false /\
               In k [1; 4; 13; 16; 28]%Z))
    (sunBlock st dcBase o1 Su1) (sunBlock st dcBase o2 Su2).
Proof.
  intros [U A]. unfold rel_on, sunBlock, sun_cosH0.
  rewrite U. destruct (out_of_bounds _); cbn [fst snd];
    (split; [reflexivity|]); lanes A.
Qed.

Lemma dhuhrBlock_shift P Su1 Su2 :
  rel_on o1 o2 P Su1 Su2 ->
  rel_on o1 o2 (fun k => P k \/ In k [2; 8; 14; 20]%Z)
    (dhuhrBlock st dcBase o1 Su1) (dhuhrBlock st dcBase o2 Su2).
Proof.
  intros [U A]. unfold rel_on, dhuhrBlock. cbn [fst snd].
  split; [exact U|]. lanes A.
Qed.

Lemma asrBlock_shift P Su1 Su2 :
  rel_on o1 o2 P Su1 Su2 ->
  rel_on o1 o2
    (fun k => P k \/ In k [9; 21]%Z \/
              (out_of_bounds (asr_cosH0 config st dcBase) = false /\
               In k [3; 15]%Z))
    (asrBlock config st dcBase o1 Su1) (asrBlock config st dcBase o2 Su2).
Proof.
  intros [U A]. unfold rel_on, asrBlock, asr_cosH0.
  rewrite U. destruct (out_of_bounds _); cbn [fst snd];
    (split; [reflexivity|]); lanes A.
Qed.

(** The interval branch reads lane 4, which the sun block has written
    whenever that branch is taken. *)
Lemma ishaBlock_shift P Su1 Su2 :
  rel_on o1 o2 P Su1 Su2 ->
  (uf_has (snd Su2) 8 = false -> P 4%Z) ->
  rel_on o1 o2
    (fun k => P k \/ In k [11; 23]%Z \/
              (isha_set config st dcBase (snd Su2) = true /\
               In k [5; 17]%Z))
    (ishaBlock config st dcBase o1 Su1) (ishaBlock config st dcBase o2 Su2).
Proof.
  intros [U A] R4. unfold rel_on, ishaBlock, isha_set, isha_cosH0, by_interval.
  rewrite U. destruct (_ && _) eqn:BI.
  - assert (U8 : uf_has (snd Su2) 8 = false).
    { apply andb_prop in BI as [_ BI]. now apply negb_true_iff in BI. }
    cbn [fst snd]. split; [reflexivity|].
    rewrite (A 4%Z (R4 U8)). lanes A.
  - destruct (out_of_bounds _); cbn [fst snd];
      (split; [reflexivity|]); lanes A.
Qed.


Lemma metaValues_shift P (jd : float) (S1 S2 : Z -> float) :
  agree_on o1 o2 P S1 S2 ->
  agree_on o1 o2 (fun k => P k \/ In k [24; 25; 26; 27]%Z)
    (metaValues st dcBase o1 jd S1) (metaValues st dcBase o2 jd S2).
Proof. intros A. unfold metaValues. lanes A. Qed.

Let bF := out_of_bounds (fajr_cosH0 st dcBase).
Let bS := out_of_bounds (sun_cosH0 st dcBase).
Let bA := out_of_bounds (asr_cosH0 config st dcBase).
Let bI := isha_undefined config st dcBase.

(** Step 5 as a whole, from any two slabs. *)
Lemma chaPrayers_shift (S1 S2 : Z -> float) :
  rel_on o1 o2
    (fun k =>
       In k [2; 6; 7; 8; 9; 10; 11; 14; 18; 19; 20; 21; 22; 23]%Z \/
       (bF = false /\ In k [0; 12]%Z) \/
       (bS = false /\ In k [1; 4; 13; 16; 28]%Z) \/
       (bA = false /\ In k [3; 15]%Z) \/
       (bI = false /\ In k [5; 17]%Z))
    (chaPrayers config st dcBase o1 S1) (chaPrayers config st dcBase o2 S2).
Proof.
  unfold chaPrayers.
  assert (R0 : rel_on o1 o2 (fun _ => False) (S1, 0%Z) (S2, 0%Z))
    by (split; [reflexivity|intros k []]).
  pose proof (asrBlock_shift _ _ _
                (dhuhrBlock_shift _ _ _
                   (sunBlock_shift _ _ _ (fajrBlock_shift _ _ _ R0)))) as R4.
  match type of R4 with
  | rel_on _ _ _ _ ?Su =>
      assert (U8 : uf_has (snd Su) 8 = negb (negb bS));
      [ rewrite asrBlock_uf, dhuhrBlock_uf, sunBlock_uf, fajrBlock_uf;
        cbn [snd]; fold bF bS bA; now destruct bF, bS, bA | ]
  end.
  apply ishaBlock_shift in R4.
  2:{ rewrite U8, negb_involutive. intros B. fold bS. rewrite B.
      cbn [In]. tauto. }
  destruct R4 as [U A]. split; [exact U|].
  eapply agree_on_weaken; [|exact A]. cbv beta.
  unfold isha_set, by_interval. rewrite U8.
  fold bF bS bA. unfold bI, isha_undefined. fold bS.
  intros k H. cbn [In] in *.
  destruct (not_nullish _), bS, (out_of_bounds (isha_cosH0 st dcBase));
    cbn [andb orb negb] in *;
    repeat match goal with
           | H : _ \/ _ |- _ => destruct H
           | H : _ /\ _ |- _ => destruct H
           | H : False |- _ => destruct H
           end;
    try discriminate; subst; tauto.
Qed.

(** Step 6 on a mask of the kernel's making. *)
Lemma highLatFallback_shift P Su1 Su2 (cF cS cA cI : bool) :
  snd Su2 = mask cF cS cA cI ->
  rel_on o1 o2 P Su1 Su2 ->
  (cS = false -> P 28%Z /\ P 1%Z) ->
  let uf' := snd (highLatFallback config st o2 Su2) in
  rel_on o1 o2
    (fun k => P k \/
              (cF = true /\ uf_has uf' 1 = false /\ In k [0; 12]%Z) \/
              (cI = true /\ uf_has uf' 16 = false /\ In k [5; 17]%Z))
    (highLatFallback config st o1 Su1) (highLatFallback config st o2 Su2).
Proof.
  destruct Su1 as [S1 u1], Su2 as [S2 u2]. cbn [fst snd].
  intros -> [U A] R. cbn [fst snd] in U, A. subst u1.
  unfold rel_on, highLatFallback. cbn [fst snd].
  destruct cS.
  - destruct (is_none (r_highLatRule config)), cF, cA, cI;
      cbn -[SLAB_get SLAB_set]; (split; [reflexivity|]); lanes A.
  - destruct (R eq_refl) as [P28 P1].
    rewrite (A 28%Z P28), (A 1%Z P1).
    destruct (is_none (r_highLatRule config)), (0 <? _), cF, cA, cI;
      cbn -[SLAB_get SLAB_set]; (split; [reflexivity|]); lanes A.
Qed.

(** Steps 5, 6 and the meta values: the mask and every lane a getter
    reads come out the same at either slot, whatever the slabs held. *)
Lemma kernel_shift (jd : float) (S1 S2 : Z -> float) :
  let Su1 := highLatFallback config st o1 (chaPrayers config st dcBase o1 S1) in
  let Su2 := highLatFallback config st o2 (chaPrayers config st dcBase o2 S2) in
  snd Su1 = snd Su2 /\
  agree_on o1 o2 (observable (snd Su2))
    (metaValues st dcBase o1 jd (fst Su1))
    (metaValues st dcBase o2 jd (fst Su2)) /\
  uf_has (snd Su2) 2 = uf_has (snd Su2) 8 /\
  uf_has (snd Su2) 10 = uf_has (snd Su2) 8.
Proof.
  cbv zeta.
  pose proof (chaPrayers_shift S1 S2) as R5.
  pose proof (chaPrayers_uf config st dcBase o2 S2) as M.
  fold bF bS bA bI in M.
  pose proof (highLatFallback_shift _ _ _ bF bS bA bI M R5) as R6.
  cbv zeta in R6.
  destruct (highLatFallback_uf_sun config st o2 _ _ _ _ _ M)
    as (U2 & U8 & U10 & U4 & _).
  destruct R6 as [U A].
  { intros B. rewrite B. cbn [In]. tauto. }
  split; [exact U|]. split; [|now rewrite U2, U8, U10].
  eapply agree_on_weaken; [|apply metaValues_shift, A].
  intros k H. unfold observable in H. rewrite U8, U4 in H.
  cbv beta. cbn [In] in *.
  destruct bF, bI; tauto.
Qed.

End Shift.

(** ** The getters read observable lanes only *)

Ltac norm_lanes :=
  repeat match goal with
         | |- context [(?o + ?a + ?b)%Z] =>
             let c := eval compute in (a + b)%Z in
             replace (o + a + b)%Z with (o + c)%Z by lia
         end.

Lemma PTR_read_shift (o1 o2 uf : Z) (S1 S2 : Z -> float) :
  agree_on o1 o2 (observable uf) S1 S2 ->
  uf_has uf 2 = uf_has uf 8 ->
  uf_has uf 10 = uf_has uf 8 ->
  PTR_read S1 {| _o := o1; _uf := uf |} =
  PTR_read S2 {| _o := o2; _uf := uf |}.
Proof.
  intros A U2 U10.
  assert (L : forall k,
            In k [2; 6; 7; 8; 9; 10; 11; 14; 18; 19; 20; 21; 22; 23; 24; 25;
                  26; 27]%Z ->
            SLAB_get S1 (o1 + k) = SLAB_get S2 (o2 + k)).
  { intros k H. apply A. left. cbn [In] in *. tauto. }
  assert (LF : uf_has uf 1 = false -> forall k, In k [0; 12]%Z ->
               SLAB_get S1 (o1 + k) = SLAB_get S2 (o2 + k)).
  { intros B k H. apply A. right; left. now split. }
  assert (LS : uf_has uf 8 = false -> forall k, In k [1; 4; 13; 16; 28]%Z ->
               SLAB_get S1 (o1 + k) = SLAB_get S2 (o2 + k)).
  { intros B k H. apply A. right; right; left. now split. }
  assert (LA : uf_has uf 4 = false -> forall k, In k [3; 15]%Z ->
               SLAB_get S1 (o1 + k) = SLAB_get S2 (o2 + k)).
  { intros B k H. apply A. right; right; right; left. now split. }
  assert (LI : uf_has uf 16 = false -> forall k, In k [5; 17]%Z ->
               SLAB_get S1 (o1 + k) = SLAB_get S2 (o2 + k)).
  { intros B k H. apply A. right; right; right; right. now split. }
  unfold PTR_read, PTR_fajr, PTR_sunrise, PTR_dhuhr, PTR_asr, PTR_sunset,
    PTR_maghrib, PTR_isha, PTR_midnight, PTR_imsak, PTR_firstThird,
    PTR_lastThird, PTR_meta, _undefFromSlot, _vFromSlot.
  cbn [_o _uf]. rewrite U2, U10. norm_lanes.
  replace (SLAB_get S1 o1) with (SLAB_get S1 (o1 + 0)) by (f_equal; lia).
  replace (SLAB_get S2 o2) with (SLAB_get S2 (o2 + 0)) by (f_equal; lia).
  rewrite ?(L 2%Z), ?(L 6%Z), ?(L 7%Z), ?(L 8%Z), ?(L 9%Z), ?(L 10%Z),
    ?(L 11%Z), ?(L 14%Z), ?(L 18%Z), ?(L 19%Z), ?(L 20%Z), ?(L 21%Z),
    ?(L 22%Z), ?(L 23%Z), ?(L 24%Z), ?(L 25%Z), ?(L 26%Z), ?(L 27%Z)
    by (cbn [In]; tauto).
  destruct (uf_has uf 1);
    [|rewrite ?(LF eq_refl 0%Z), ?(LF eq_refl 12%Z) by (cbn [In]; tauto)];
    (destruct (uf_has uf 8);
     [|rewrite ?(LS eq_refl 1%Z), ?(LS eq_refl 4%Z), ?(LS eq_refl 13%Z),
         ?(LS eq_refl 16%Z), ?(LS eq_refl 28%Z) by (cbn [In]; tauto)]);
    (destruct (uf_has uf 4);
     [|rewrite ?(LA eq_refl 3%Z), ?(LA eq_refl 15%Z) by (cbn [In]; tauto)]);
    (destruct (uf_has uf 16);
     [|rewrite ?(LI eq_refl 5%Z), ?(LI eq_refl 17%Z) by (cbn [In]; tauto)]);
    reflexivity.
Qed.

(** ** The caches serve what the miss path computes *)

Lemma in_range_true (len i : Z) :
  (0 <= i < len)%Z -> Js.in_range len i = true.
Proof.
  intros H. unfold Js.in_range.
  apply andb_true_intro. split; [apply Z.leb_le|apply Z.ltb_lt]; lia.
Qed.

Lemma ta_get_set (len : Z) (a : Z -> float) (i j : Z) (v : float) :
  Js.ta_get len (Js.ta_set len a i v) j =
  if Js.in_range len i && (j =? i)%Z then v else Js.ta_get len a j.
Proof.
  unfold Js.ta_get, Js.ta_set.
  destruct (Js.in_range len i) eqn:Ri; cbn [andb]; [|reflexivity].
  destruct (j =? i)%Z eqn:E.
  - apply Z.eqb_eq in E. subst j. now rewrite Ri.
  - now destruct (Js.in_range len j).
Qed.

Lemma cache_index_range (jd : float) : (0 <= cache_index jd < 512)%Z.
Proof.
  unfold cache_index, CACHE_MASK. change 511%Z with (Z.ones 9).
  rewrite Z.land_ones by lia. apply Z.mod_pos_bound. reflexivity.
Qed.

Lemma abs_zero_eqb (x : float) : abs x = 0 -> (x =? 0) = true.
Proof.
  intros H. apply (f_equal Prim2SF) in H. rewrite abs_spec in H.
  rewrite FloatAxioms.eqb_spec. change (Prim2SF 0) with (S754_zero false) in *.
  destruct (Prim2SF x) as [s|s| |s m e]; cbn in *; try discriminate.
  reflexivity.
Qed.

(** A hit on a key that is not zero is a hit on that very key. *)
Lemma hit_same_key (key jd : float) :
  (key =? jd) = true -> nonzero jd -> key = jd.
Proof.
  intros E N. destruct (eqb_true _ _ E) as [K|[_ Z0]]; [exact K|].
  unfold nonzero in N. now rewrite (abs_zero_eqb _ Z0) in N.
Qed.

Section Coherence.
Context {Math : MathObject}.

Lemma cachedSolarPosition_coherent (jd : float) (st : Engine) :
  solar_coherent st ->
  solar_coherent (fst (cachedSolarPosition jd st)) /\
  (nonzero jd ->
   snd (cachedSolarPosition jd st) = Some (Solar.solarPosition jd)).
Proof.
  intros C. unfold cachedSolarPosition.
  pose proof (cache_index_range jd) as R. set (idx := cache_index jd) in *.
  destruct (JD_get (_cacheJDs st) idx =? jd) eqn:E; cbn [fst snd].
  - split; [exact C|]. intros N.
    pose proof (hit_same_key _ _ E N) as K.
    destruct (C idx R) as [Z1|V]; [|now rewrite V, K].
    rewrite K in Z1. unfold nonzero in N. congruence.
  - split; [|reflexivity]. intros i Hi.
    cbn [_cacheJDs _cacheVals with_solar]. unfold JD_get, JD_set.
    rewrite ta_get_set, (in_range_true 512 idx R). cbn [andb].
    destruct (i =? idx)%Z; [now right|apply C, Hi].
Qed.

(** The eleven stores of the miss path, read back. *)
Lemma dc_store_get (d : Z -> float) (b i : Z)
    (v0 v1 v2 v3 v4 v5 v6 v7 v8 v9 v10 : float) :
  (0 <= b)%Z -> (b + 15 < 512 * DC_STRIDE)%Z ->
  DC_get
    (DC_set (DC_set (DC_set (DC_set (DC_set (DC_set (DC_set (DC_set (DC_set
       (DC_set (DC_set d (b + DC_THETA0) v0) (b + DC_A2) v1) (b + DC_D2) v2)
       (b + DC_RA_AB) v3) (b + DC_RA_C) v4) (b + DC_DECL_AB) v5)
       (b + DC_DECL_C) v6) (b + DC_SIN_D2) v7) (b + DC_COS_D2) v8)
       (b + DC_EQT) v9) (b + DC_MIDNIGHT_MS) v10) i =
  if (i =? b + 10)%Z then v10 else if (i =? b + 9)%Z then v9
  else if (i =? b + 8)%Z then v8 else if (i =? b + 7)%Z then v7
  else if (i =? b + 6)%Z then v6 else if (i =? b + 5)%Z then v5
  else if (i =? b + 4)%Z then v4 else if (i =? b + 3)%Z then v3
  else if (i =? b + 2)%Z then v2 else if (i =? b + 1)%Z then v1
  else if (i =? b + 0)%Z then v0 else DC_get d i.
Proof.
  unfold DC_get, DC_set, DC_STRIDE, DC_THETA0, DC_A2, DC_D2, DC_RA_AB,
    DC_RA_C, DC_DECL_AB, DC_DECL_C, DC_SIN_D2, DC_COS_D2, DC_EQT,
    DC_MIDNIGHT_MS.
  intros H0 H1. rewrite !ta_get_set.
  rewrite !in_range_true by lia. reflexivity.
Qed.

Lemma dc_store_row (d : Z -> float) (b j : Z)
    (v0 v1 v2 v3 v4 v5 v6 v7 v8 v9 v10 : float) :
  (0 <= b)%Z -> (b + 15 < 512 * DC_STRIDE)%Z -> (0 <= j <= 10)%Z ->
  DC_get
    (DC_set (DC_set (DC_set (DC_set (DC_set (DC_set (DC_set (DC_set (DC_set
       (DC_set (DC_set d (b + DC_THETA0) v0) (b + DC_A2) v1) (b + DC_D2) v2)
       (b + DC_RA_AB) v3) (b + DC_RA_C) v4) (b + DC_DECL_AB) v5)
       (b + DC_DECL_C) v6) (b + DC_SIN_D2) v7) (b + DC_COS_D2) v8)
       (b + DC_EQT) v9) (b + DC_MIDNIGHT_MS) v10) (b + j) =
  match j with
  | 0%Z => v0 | 1%Z => v1 | 2%Z => v2 | 3%Z => v3 | 4%Z => v4 | 5%Z => v5
  | 6%Z => v6 | 7%Z => v7 | 8%Z => v8 | 9%Z => v9 | _ => v10
  end.
Proof.
  intros H0 H1 Hj. rewrite dc_store_get by assumption.
  assert (E : forall k, ((b + j =? b + k) = (j =? k))%Z).
  { intros k. destruct (Z.eqb_spec j k) as [->|N];
      [apply Z.eqb_refl|apply Z.eqb_neq; lia]. }
  rewrite !E.
  assert (C : (j = 0 \/ j = 1 \/ j = 2 \/ j = 3 \/ j = 4 \/ j = 5 \/ j = 6 \/
               j = 7 \/ j = 8 \/ j = 9 \/ j = 10)%Z) by lia.
  repeat (destruct C as [->|C]; [reflexivity|]). now subst j.
Qed.

Lemma dc_store_other (d : Z -> float) (b i : Z)
    (v0 v1 v2 v3 v4 v5 v6 v7 v8 v9 v10 : float) :
  (0 <= b)%Z -> (b + 15 < 512 * DC_STRIDE)%Z -> (i < b \/ b + 10 < i)%Z ->
  DC_get
    (DC_set (DC_set (DC_set (DC_set (DC_set (DC_set (DC_set (DC_set (DC_set
       (DC_set (DC_set d (b + DC_THETA0) v0) (b + DC_A2) v1) (b + DC_D2) v2)
       (b + DC_RA_AB) v3) (b + DC_RA_C) v4) (b + DC_DECL_AB) v5)
       (b + DC_DECL_C) v6) (b + DC_SIN_D2) v7) (b + DC_COS_D2) v8)
       (b + DC_EQT) v9) (b + DC_MIDNIGHT_MS) v10) i =
  DC_get d i.
Proof.
  intros H0 H1 Hi. rewrite dc_store_get by assumption.
  repeat match goal with
         | |- context [(i =? ?x)%Z] =>
             replace (i =? x)%Z with false by (symmetry; apply Z.eqb_neq; lia)
         end.
  reflexivity.
Qed.

Lemma dayConstants_coherent (jd : float) (st : Engine) :
  solar_coherent st -> dc_coherent st -> ordinary jd ->
  let st' := fst (dayConstants jd st) in
  snd (dayConstants jd st) = true /\
  solar_coherent st' /\ dc_coherent st' /\
  (forall j, (0 <= j <= 10)%Z ->
     DC_get (_dc st') (cache_index jd * DC_STRIDE + j) = dc_row jd j).
Proof.
  intros CS CD (N1 & N0 & N2). cbv zeta. unfold dayConstants.
  pose proof (cache_index_range jd) as R. set (idx := cache_index jd) in *.
  assert (Hb : (0 <= idx * DC_STRIDE)%Z /\
               (idx * DC_STRIDE + 15 < 512 * DC_STRIDE)%Z)
    by (unfold DC_STRIDE; lia).
  destruct Hb as [Hb0 Hb1].
  destruct (Js.strict_ne (JD_get (_dcJDs st) idx) jd) eqn:E.
  - destruct (cachedSolarPosition_coherent (jd - 1) st CS) as [C1 V1].
    pose proof (cachedSolarPosition_keeps (jd - 1) st) as K1.
    destruct (cachedSolarPosition (jd - 1) st) as [st1 v1].
    cbn [fst snd] in C1, V1, K1. rewrite (V1 N1).
    destruct (cachedSolarPosition_coherent jd st1 C1) as [C2 V2].
    pose proof (cachedSolarPosition_keeps jd st1) as K2.
    destruct (cachedSolarPosition jd st1) as [st2 v2].
    cbn [fst snd] in C2, V2, K2. rewrite (V2 N0).
    destruct (cachedSolarPosition_coherent (jd + 1) st2 C2) as [C3 V3].
    pose proof (cachedSolarPosition_keeps (jd + 1) st2) as K3.
    destruct (cachedSolarPosition (jd + 1) st2) as [st3 v3].
    cbn [fst snd] in C3, V3, K3. rewrite (V3 N2).
    destruct K1 as (_ & _ & _ & D1 & J1), K2 as (_ & _ & _ & D2 & J2),
      K3 as (_ & _ & _ & D3 & J3).
    assert (DJ : _dcJDs st3 = _dcJDs st) by congruence.
    assert (DD : _dc st3 = _dc st) by congruence.
    cbn [fst snd _dc _dcJDs with_dc]. split; [reflexivity|].
    split; [exact C3|]. split.
    + intros i Hi. cbn [_dc _dcJDs with_dc]. rewrite DJ, DD.
      unfold JD_get, JD_set.
      rewrite ta_get_set, (in_range_true 512 idx R). cbn [andb].
      destruct (Z.eqb_spec i idx) as [->|Ne].
      * right. intros j Hj. now rewrite dc_store_row.
      * destruct (CD i Hi) as [Z|Row]; [now left|right].
        intros j Hj. rewrite dc_store_other; [now apply Row|assumption..|].
        unfold DC_STRIDE. lia.
    + intros j Hj. rewrite DD. now rewrite dc_store_row.
  - cbn [fst snd]. split; [reflexivity|]. split; [exact CS|].
    split; [exact CD|]. intros j Hj.
    unfold Js.strict_ne in E. apply negb_false_iff in E.
    pose proof (hit_same_key _ _ E N0) as K.
    destruct (CD idx R) as [Z|Row]; [|now rewrite Row, K].
    rewrite K in Z. unfold nonzero in N0. congruence.
Qed.

End Coherence.

(** ** The kernel reads the caches through one row and the config cache *)

Section SameRow.
Context {Math : MathObject}.
Variable r : ResolvedInput.
Variables st1 st2 : Engine.
Variables dcBase o : Z.
Hypothesis Hcc : cc st2 = cc st1.
Hypothesis Hrow : forall k, (0 <= k <= 10)%Z ->
  DC_get (_dc st2) (dcBase + k) = DC_get (_dc st1) (dcBase + k).

Implicit Types Su : (Z -> float) * Z.

Ltac lane :=
  unfold DC_THETA0, DC_A2, DC_D2, DC_RA_AB, DC_RA_C, DC_DECL_AB, DC_DECL_C,
    DC_SIN_D2, DC_COS_D2, DC_EQT, DC_MIDNIGHT_MS; lia.

Ltac row0 :=
  unfold sinLatSinD2, cosLatCosD2, Theta0, a2, d2, raAB, raC, declAB, declC,
    dateUtcMidnightMs, sinLat, cosLat, Lw, c360cosLat, horizonAlt,
    sinHorizonAlt, base90Horizon, fajrAlt, sinFajrAlt, base90Fajr, ishaAlt,
    sinIshaAlt, base90Isha, adjFajrMs, adjSunriseMs, adjDhuhrMs, adjAsrMs,
    adjMaghribMs, adjIshaMs, shadowK;
  rewrite ?Hcc;
  rewrite ?(Hrow DC_THETA0), ?(Hrow DC_A2), ?(Hrow DC_D2), ?(Hrow DC_RA_AB),
    ?(Hrow DC_RA_C), ?(Hrow DC_DECL_AB), ?(Hrow DC_DECL_C),
    ?(Hrow DC_SIN_D2), ?(Hrow DC_COS_D2), ?(Hrow DC_EQT),
    ?(Hrow DC_MIDNIGHT_MS) by lane.

Lemma row_m0Raw : m0Raw st2 dcBase = m0Raw st1 dcBase.
Proof. unfold m0Raw. now row0. Qed.

Lemma row_m0 : m0 st2 dcBase = m0 st1 dcBase.
Proof. unfold m0. now rewrite row_m0Raw. Qed.

Lemma row_transitTheta : transitTheta st2 dcBase = transitTheta st1 dcBase.
Proof. unfold transitTheta. rewrite row_m0. now row0. Qed.

Lemma row_transitA : transitA st2 dcBase = transitA st1 dcBase.
Proof. unfold transitA. rewrite row_m0. now row0. Qed.

Lemma row_rawTransitH : rawTransitH st2 dcBase = rawTransitH st1 dcBase.
Proof.
  unfold rawTransitH. rewrite row_transitTheta, row_transitA. now row0.
Qed.

Lemma row_transitUtcH : transitUtcH st2 dcBase = transitUtcH st1 dcBase.
Proof.
  unfold transitUtcH, transitH. now rewrite row_m0, row_rawTransitH.
Qed.

Lemma row_asrAlt : asrAlt r st2 dcBase = asrAlt r st1 dcBase.
Proof.
  unfold asrAlt, _asrDiff, declAtTransit, transitFrac.
  rewrite row_transitUtcH. now row0.
Qed.

Lemma row_refine_dm (m b : float) :
  refine_dm st2 dcBase m b = refine_dm st1 dcBase m b.
Proof. unfold refine_dm. now row0. Qed.

Ltac row :=
  unfold sinAsrAlt, base90Asr;
  rewrite ?row_m0, ?row_transitUtcH, ?row_asrAlt, ?row_refine_dm;
  row0.

Lemma chaPrayers_same_row (S : Z -> float) :
  chaPrayers r st2 dcBase o S = chaPrayers r st1 dcBase o S.
Proof.
  unfold chaPrayers.
  assert (F : forall Su, fajrBlock st2 dcBase o Su = fajrBlock st1 dcBase o Su)
    by (intros Su; unfold fajrBlock; now row).
  assert (N : forall Su, sunBlock st2 dcBase o Su = sunBlock st1 dcBase o Su)
    by (intros Su; unfold sunBlock; now row).
  assert (D : forall Su,
            dhuhrBlock st2 dcBase o Su = dhuhrBlock st1 dcBase o Su)
    by (intros Su; unfold dhuhrBlock; now row).
  assert (A : forall Su,
            asrBlock r st2 dcBase o Su = asrBlock r st1 dcBase o Su)
    by (intros Su; unfold asrBlock; now row).
  assert (I : forall Su,
            ishaBlock r st2 dcBase o Su = ishaBlock r st1 dcBase o Su)
    by (intros Su; unfold ishaBlock; now row).
  now rewrite F, N, D, A, I.
Qed.

Lemma highLatFallback_same_row Su :
  highLatFallback r st2 o Su = highLatFallback r st1 o Su.
Proof. unfold highLatFallback. now row0. Qed.

Lemma metaValues_same_row (jd : float) (S : Z -> float) :
  metaValues st2 dcBase o jd S = metaValues st1 dcBase o jd S.
Proof. unfold metaValues. now row. Qed.

End SameRow.

(** ** Calls on ordinary dates *)

Section Transparency.
Context {Math : MathObject}.

Lemma JD_get_zero (i : Z) :
  (0 <= i < 512)%Z -> (JD_get (fun _ => 0) i =? 0) = true.
Proof.
  intros H. unfold JD_get, Js.ta_get. now rewrite in_range_true.
Qed.

Lemma engine_ok_initial : engine_ok initialEngine.
Proof.
  repeat split.
  - intros i Hi. left. now apply JD_get_zero.
  - intros i Hi. left. now apply JD_get_zero.
  - exists 0%Z. unfold _SLAB_SLOTS. cbn. lia.
Qed.

Lemma engine_ok_cleared (st : Engine) : engine_ok (clearSolarCache st).
Proof.
  repeat split.
  - intros i Hi. left. now apply JD_get_zero.
  - intros i Hi. left. now apply JD_get_zero.
  - exists 0%Z. unfold _SLAB_SLOTS. cbn. lia.
Qed.

Lemma slot_aligned_ok (st : Engine) : slot_aligned st -> slot_ok (_slabOff st).
Proof.
  intros (n & Hn & ->). unfold slot_ok, _SLAB_LEN, _SLAB_SLOTS in *. lia.
Qed.

Lemma takeSlot_aligned (st : Engine) :
  slot_aligned st -> slot_aligned (snd (takeSlot st)).
Proof.
  intros (n & Hn & E). unfold takeSlot, slot_aligned. cbn [snd _slabOff with_slabOff].
  rewrite E. unfold _SLAB_LEN, _SLAB_SLOTS in *.
  destruct (Z.leb_spec (29 * 16384) (29 * n + 29)).
  - exists 0%Z. lia.
  - exists (n + 1)%Z. lia.
Qed.

(** A call on an ordinary date returns; it has run steps 2 to 6 on a state
    [K] whose config cache and day-constants row are the computed ones. *)
Lemma run_core_ordinary (r : ResolvedInput) (st : Engine) :
  engine_ok st -> cc_ok st r -> ordinary (julDate_of r) ->
  let jd := julDate_of r in
  let dcBase := (cache_index jd * DC_STRIDE)%Z in
  let o := _slabOff st in
  exists K,
    cc K = cc_refresh r /\
    (forall j, (0 <= j <= 10)%Z ->
       DC_get (_dc K) (dcBase + j) = dc_row jd j) /\
    engine_ok K /\
    let Su := highLatFallback r K o (chaPrayers r K dcBase o (_SLAB st)) in
    run_core r st =
    Normal (with_SLAB K (metaValues K dcBase o jd (fst Su)))
      {| _o := o; _uf := snd Su |}.
Proof.
  intros (CS & CD & AL) Hok Ord. cbv zeta.
  unfold run_core, _computeCore, coreEvents.
  pose proof (takeSlot_aligned st AL) as AL0.
  unfold takeSlot in *. cbn [fst snd] in *.
  set (st0 := with_slabOff st _) in *.
  rewrite (configCache_with_cc st0 r Hok), dayConstants_with_cc.
  destruct (dayConstants_coherent (julDate_of r) st0 CS CD Ord)
    as (T & CS' & CD' & Row).
  pose proof (dayConstants_keeps (julDate_of r) st0) as (_ & KS & KO).
  destruct (dayConstants (julDate_of r) st0) as [stD b].
  cbn [fst snd] in *. subst b.
  exists (with_cc stD (cc_refresh r)). cbn [cc _dc with_cc].
  split; [reflexivity|]. split; [exact Row|]. split.
  - repeat split; try assumption.
    destruct AL0 as (n & Hn & E). exists n. split; [exact Hn|].
    cbn [_slabOff with_cc]. now rewrite KO.
  - cbn [_SLAB with_cc]. rewrite KS. reflexivity.
Qed.

Lemma engine_ok_with_SLAB (st : Engine) (S : Z -> float) :
  engine_ok st -> engine_ok (with_SLAB st S).
Proof. intros H. exact H. Qed.

Lemma cc_ok_refreshed (st : Engine) (r : ResolvedInput) :
  cc st = cc_refresh r -> cc_ok st r.
Proof. intros H _. exact H. Qed.

(** Two calls for the same configuration and ordinary date, from any two
    coherent engine states, return the same output; both leave the engine
    coherent. *)
Theorem caches_are_transparent (r : ResolvedInput) (st1 st2 : Engine) :
  engine_ok st1 -> engine_ok st2 -> cc_ok st1 r -> cc_ok st2 r ->
  ordinary (julDate_of r) ->
  exists st1' p1 st2' p2,
    run_core r st1 = Normal st1' p1 /\
    run_core r st2 = Normal st2' p2 /\
    PTR_read (_SLAB st1') p1 = PTR_read (_SLAB st2') p2 /\
    engine_ok st1' /\ cc_ok st1' r /\ engine_ok st2' /\ cc_ok st2' r.
Proof.
  intros E1 E2 K1 K2 Ord.
  destruct (run_core_ordinary r st1 E1 K1 Ord) as (A & Ac & Ar & Ae & Ha).
  destruct (run_core_ordinary r st2 E2 K2 Ord) as (B & Bc & Br & Be & Hb).
  cbv zeta in Ha, Hb.
  set (jd := julDate_of r) in *.
  set (dcBase := (cache_index jd * DC_STRIDE)%Z) in *.
  assert (Hcc : cc A = cc B) by congruence.
  assert (Hrow : forall k, (0 <= k <= 10)%Z ->
            DC_get (_dc A) (dcBase + k) = DC_get (_dc B) (dcBase + k))
    by (intros k Hk; now rewrite Ar, Br).
  rewrite (chaPrayers_same_row r B A dcBase _ Hcc Hrow),
    (highLatFallback_same_row r B A _ Hcc),
    (metaValues_same_row B A dcBase _ Hcc Hrow) in Ha.
  do 4 eexists. split; [exact Ha|]. split; [exact Hb|].
  cbn [_SLAB with_SLAB cc].
  destruct E1 as (_ & _ & L1), E2 as (_ & _ & L2).
  destruct (kernel_shift r B dcBase (_slabOff st1) (_slabOff st2)
              (slot_aligned_ok _ L1) (slot_aligned_ok _ L2) jd
              (_SLAB st1) (_SLAB st2)) as (U & Ag & U2 & U10).
  cbv zeta in U, Ag, U2, U10. rewrite U.
  split; [now apply PTR_read_shift|].
  repeat split; try apply Ae; try apply Be;
    apply cc_ok_refreshed; assumption.
Qed.

(** For an ordinary date the three readings agree with a cold start: the
    call on a warm engine, the call after [clearSolarCache], and a second
    call after the first. *)
Theorem ordinary_dates_are_cache_independent
    (config : PrayerTimeInput) (st : Engine) :
  engine_ok st -> cc_ok st (_resolve config) ->
  ordinary (julDate_of (_resolve config)) ->
  exists out,
    output_of (computePrayerTimes config initialEngine) = Some out /\
    output_of (computePrayerTimes config st) = Some out /\
    output_of (computePrayerTimes config (clearSolarCache st)) = Some out /\
    output_of (computePrayerTimes config
                 (state_of (computePrayerTimes config st))) = Some out.
Proof.
  intros E K Ord. unfold computePrayerTimes.
  set (r := _resolve config) in *.
  destruct (caches_are_transparent r initialEngine st engine_ok_initial E
              (cc_ok_initial r) K Ord)
    as (s0 & p0 & s1 & p1 & R0 & R1 & O1 & _ & _ & E1 & K1).
  destruct (caches_are_transparent r initialEngine (clearSolarCache st)
              engine_ok_initial (engine_ok_cleared st)
              (cc_ok_initial r) (cc_ok_cleared st r) Ord)
    as (s0' & p0' & s2 & p2 & R0' & R2 & O2 & _).
  destruct (caches_are_transparent r initialEngine s1 engine_ok_initial E1
              (cc_ok_initial r) K1 Ord)
    as (s0'' & p0'' & s3 & p3 & R0'' & R3 & O3 & _).
  rewrite R0 in R0', R0''. injection R0' as <- <-. injection R0'' as <- <-.
  exists (PTR_read (_SLAB s0) p0).
  rewrite R0, R1, R2. cbn [output_of state_of]. rewrite R3. cbn [output_of].
  now rewrite <- O1, <- O2, <- O3.
Qed.

(** The engine stays coherent along calls on ordinary dates. *)
Lemma engine_ok_after (r : ResolvedInput) (st : Engine) :
  engine_ok st -> cc_ok st r -> ordinary (julDate_of r) ->
  engine_ok (state_of (run_core r st)) /\ cc_ok (state_of (run_core r st)) r.
Proof.
  intros E K Ord.
  destruct (caches_are_transparent r st st E E K K Ord)
    as (s & p & _ & _ & R & _ & _ & E' & K' & _).
  rewrite R. now split.
Qed.

End Transparency.

(** 2026-02-25 is an ordinary date: after a call for Chittagong, with or
    without [clearSolarCache], Mecca is answered as on a cold start. *)
Example mecca_after_chittagong :
  exists out,
    output_of (Scenarios.fresh Examples.mecca) = Some out /\
    output_of (Scenarios.then_compute Examples.mecca
                 (state_of (Scenarios.fresh Examples.chittagong))) =
      Some out /\
    output_of (Scenarios.then_compute Examples.mecca
                 (clearSolarCache
                    (state_of (Scenarios.fresh Examples.chittagong)))) =
      Some out.
Proof.
  assert (OrdC : ordinary (julDate_of (_resolve Examples.chittagong)))
    by (unfold ordinary, nonzero; vm_compute; auto).
  assert (OrdM : ordinary (julDate_of (_resolve Examples.mecca)))
    by (unfold ordinary, nonzero; vm_compute; auto).
  destruct (engine_ok_after (Math := SeriesMath) (_resolve Examples.chittagong)
              initialEngine engine_ok_initial (cc_ok_initial _) OrdC)
    as [E _].
  assert (K : cc_ok (Math := SeriesMath)
                (state_of (Scenarios.fresh Examples.chittagong))
                (_resolve Examples.mecca)).
  { intros H. vm_compute in H. discriminate H. }
  destruct (ordinary_dates_are_cache_independent (Math := SeriesMath)
              Examples.mecca _ E K OrdM)
    as (out & H0 & H1 & H2 & _).
  exists out. exact (conj H0 (conj H1 H2)).
Qed.

(** ** C9 *)

Lemma computeQibla_formula {Math : MathObject} (lat lng : float) :
  let phi := lat * Units.DEG2RAD in
  let phiK := 21.4225241 * Units.DEG2RAD in
  let dLambda := 39.8261818 * Units.DEG2RAD - lng * Units.DEG2RAD in
  Qibla.computeQibla lat lng =
  Units.normalizeDeg
    (Math_atan2 (Math_sin dLambda)
       (Math_cos phi * Math_tan phiK - Math_sin phi * Math_cos dLambda)
     * Units.RAD2DEG).
Proof. reflexivity. Qed.

(** C9 (divergence).  [computeQibla] is the stated formula, a function of
    its two arguments; but its result is not always below 360:
    [normalizeDeg] sends a bearing just below zero to [d + 360], which
    rounds to 360, and an observer on the equator a hair east of the Kaaba's
    meridian gets the bearing 360. *)
Theorem C9_qibla_bearing_can_be_360 :
  (forall (Math : MathObject) (lat lng : float),
     Qibla.computeQibla lat lng =
     Units.normalizeDeg
       (Math_atan2
          (Math_sin (39.8261818 * Units.DEG2RAD - lng * Units.DEG2RAD))
          (Math_cos (lat * Units.DEG2RAD) *
             Math_tan (21.4225241 * Units.DEG2RAD) -
           Math_sin (lat * Units.DEG2RAD) *
             Math_cos (39.8261818 * Units.DEG2RAD - lng * Units.DEG2RAD))
        * Units.RAD2DEG)) /\
  Units.normalizeDeg (-1e-15) = 360 /\
  Qibla.computeQibla (Math := SeriesMath) 0 39.82618180000001 = 360 /\
  (Qibla.computeQibla (Math := SeriesMath) 0 39.82618180000001 <? 360) = false.
Proof.
  split; [intros; reflexivity|].
  repeat split; vm_compute; reflexivity.
Qed.

(** ** C7 *)

Section ZeroKeys.
Context {Math : MathObject}.

(** Both caches are keyed by Julian Date, start zero-filled and are cleared
    by zero-filling: a lookup of Julian Date 0 is a hit on whatever the
    slot holds. *)
Lemma cache_index_zero : cache_index 0 = 0%Z.
Proof. reflexivity. Qed.

Lemma dayConstants_zero_initial :
  dayConstants 0 initialEngine = (initialEngine, true).
Proof. reflexivity. Qed.

Lemma dayConstants_zero_cleared (st : Engine) :
  dayConstants 0 (clearSolarCache st) = (clearSolarCache st, true).
Proof. reflexivity. Qed.

Lemma cachedSolarPosition_zero_initial :
  cachedSolarPosition 0 initialEngine = (initialEngine, None).
Proof. reflexivity. Qed.

End ZeroKeys.

(** That is why the caches are transparent on ordinary Julian Dates only.
    Julian Date 0 is the instant -210866760000000 ms, 12:00 UTC on the day
    2440588 days before 1970-01-01; it is not the UTC midnight of any day.
    There a freshly loaded module, a warm engine and a cleared one give
    three different answers for Mecca. *)
Lemma julian_date_zero_is_not_ordinary :
  let epoch := Scenarios.mecca_on Scenarios.julian_epoch in
  julDate_of (_resolve epoch) = 0 /\
  ~ ordinary (julDate_of (_resolve epoch)) /\
  Scenarios.julian_epoch = Js.of_Z (86400000 * -2440588 + 43200000) /\
  let warm :=
    state_of (Scenarios.fresh (Scenarios.mecca_on Scenarios.d_2026_05_23)) in
  Scenarios.dhuhr_ms (Scenarios.fresh epoch) = Some 76631326.436367601 /\
  Scenarios.dhuhr_ms (Scenarios.then_compute epoch warm) =
    Some (-210866683225582.03) /\
  Scenarios.dhuhr_ms (Scenarios.then_compute epoch (clearSolarCache warm)) =
    Some 1779527847348.0857.
Proof.
  cbv zeta. split; [vm_compute; reflexivity|]. split.
  { intros (_ & H & _). vm_compute in H. discriminate H. }
  repeat split; vm_compute; reflexivity.
Qed.

(** *** UTC midnights have ordinary Julian Dates *)

Section DayCountFacts.
Import PrimInt63.









End DayCountFacts.


(** *** The engine along the history of a context *)

Section Histories.
Context {Math : MathObject}.
Variable ctx : PrayerContext.





End Histories.



(* ================================================================= *)
(** * Further properties *)

(** ** The two entry points *)

(** X1. A context's [compute] is [computePrayerTimes] on the configuration
    the context was made from, with the date filled in: from every engine
    state both leave the same state and return the same result object. *)
Theorem context_compute_is_computePrayerTimes {Math : MathObject}
    (config : PrayerContextConfig) (d : float) (st : Engine) :
  compute (createPrayerContext config) d st =
  computePrayerTimes (as_input config d) st.
Proof.
  unfold compute, computePrayerTimes.
  apply run_core_reads;
    unfold _resolve, as_input, createPrayerContext, set_date;
    cbn -[nullish];
    destruct (ctx_madhab config), (ctx_highLatRule config),
      (ctx_polarRule config), (ctx_adjustments config),
      (ctx_elevation config); reflexivity.
Qed.

(** X2. [timezoneId], [polarRule] and [midnightMode] are accepted and never
    read: whatever they are replaced by, the call leaves the same engine
    state and returns the same result. *)
Theorem timezone_polarRule_midnightMode_are_not_read {Math : MathObject}
    (config : PrayerTimeInput) (tz : string) (pr : option PolarRule)
    (mm : option MidnightMode) (st : Engine) :
  computePrayerTimes (with_unread config tz pr mm) st =
  computePrayerTimes config st.
Proof.
  unfold computePrayerTimes.
  apply run_core_reads;
    unfold _resolve, with_unread; cbn -[nullish];
    destruct (madhab config), (highLatRule config), (polarRule config), pr,
      (adjustments config), (elevation config); reflexivity.
Qed.

(** X3. A field left out takes its default: standard madhab, middle of the
    night, unresolved polar rule, standard midnight mode, no adjustments,
    elevation 0.  A call with fields omitted and the call with these values
    written out leave the same engine state and return the same result. *)
Theorem omitted_fields_take_their_defaults {Math : MathObject}
    (config : PrayerTimeInput) (st : Engine) :
  computePrayerTimes config st = computePrayerTimes (with_defaults config) st.
Proof.
  unfold computePrayerTimes.
  apply run_core_reads;
    unfold _resolve, with_defaults; cbn -[nullish];
    destruct (madhab config), (highLatRule config), (polarRule config),
      (adjustments config), (elevation config); reflexivity.
Qed.

(** ** The slab ring *)

Section Ring.
Context {Math : MathObject}.

(** A call moves the ring on by one slot, whether it returns or throws. *)
Lemma run_core_slabOff (r : ResolvedInput) (st : Engine) :
  _slabOff (state_of (run_core r st)) =
  (if _SLAB_LEN <=? _slabOff st + 29 then 0 else _slabOff st + 29)%Z.
Proof.
  unfold run_core, _computeCore, coreEvents, takeSlot. cbn [fst snd].
  set (st0 := with_slabOff st _).
  pose proof (dayConstants_keeps (julDate_of r) (configCache r st0)) as K.
  destruct (dayConstants (julDate_of r) (configCache r st0)) as [st1 [|]];
    cbn [fst] in K; destruct K as (_ & _ & Ko);
    cbn [state_of _slabOff with_SLAB]; rewrite Ko;
    unfold configCache; destruct (cc_changed _ _); reflexivity.
Qed.

(** It writes nothing outside the slot it took. *)
Lemma run_core_frame (r : ResolvedInput) (st : Engine) (j : Z) :
  (j < _slabOff st \/ _slabOff st + 29 <= j)%Z ->
  SLAB_get (_SLAB (state_of (run_core r st))) j = SLAB_get (_SLAB st) j.
Proof.
  intros Hj.
  unfold run_core, _computeCore, coreEvents, takeSlot. cbn [fst snd].
  set (st0 := with_slabOff st _).
  pose proof (dayConstants_keeps (julDate_of r) (configCache r st0)) as K.
  assert (S0 : _SLAB (configCache r st0) = _SLAB st)
    by (unfold configCache; destruct (cc_changed _ _); reflexivity).
  destruct (dayConstants (julDate_of r) (configCache r st0)) as [st1 [|]];
    cbn [fst] in K; destruct K as (_ & Ks & _);
    cbn [state_of _SLAB with_SLAB].
  - unfold chaPrayers. frames. now rewrite Ks, S0.
  - now rewrite Ks, S0.
Qed.

Lemma run_core_slot (r : ResolvedInput) (st st' : Engine) (p : PTR) :
  run_core r st = Normal st' p -> _o p = _slabOff st.
Proof.
  intros H. apply run_core_inv in H. cbv zeta in H.
  destruct H as (st1 & _ & _ & _ & _ & ->). reflexivity.
Qed.

(** The getters of a result read its own slot only. *)
Lemma PTR_read_agree (S1 S2 : Z -> float) (p : PTR) :
  (forall j, (_o p <= j < _o p + 29)%Z -> SLAB_get S1 j = SLAB_get S2 j) ->
  PTR_read S1 p = PTR_read S2 p.
Proof.
  intros H.
  unfold PTR_read, PTR_fajr, PTR_sunrise, PTR_dhuhr, PTR_asr, PTR_sunset,
    PTR_maghrib, PTR_isha, PTR_midnight, PTR_imsak, PTR_firstThird,
    PTR_lastThird, PTR_meta, _vFromSlot, _undefFromSlot.
  rewrite !(H (_o p)), !(H (_o p + 1)%Z), !(H (_o p + 10)%Z),
    !(H (_o p + 16)%Z), !(H (_o p + 22)%Z), !(H (_o p + 24)%Z),
    !(H (_o p + 25)%Z), !(H (_o p + 26)%Z), !(H (_o p + 27)%Z),
    !(H (_o p + 28)%Z) by lia.
  rewrite ?(H (_o p + 0)%Z), ?(H (_o p + 2)%Z), ?(H (_o p + 3)%Z),
    ?(H (_o p + 4)%Z), ?(H (_o p + 5)%Z) by lia.
  rewrite ?(H (_o p + 6 + 0)%Z), ?(H (_o p + 6 + 1)%Z),
    ?(H (_o p + 6 + 2)%Z), ?(H (_o p + 6 + 3)%Z), ?(H (_o p + 6 + 4)%Z),
    ?(H (_o p + 6 + 5)%Z), ?(H (_o p + 12 + 0)%Z), ?(H (_o p + 12 + 1)%Z),
    ?(H (_o p + 12 + 2)%Z), ?(H (_o p + 12 + 3)%Z),
    ?(H (_o p + 12 + 4)%Z), ?(H (_o p + 12 + 5)%Z),
    ?(H (_o p + 18 + 0)%Z), ?(H (_o p + 18 + 1)%Z),
    ?(H (_o p + 18 + 2)%Z), ?(H (_o p + 18 + 3)%Z),
    ?(H (_o p + 18 + 4)%Z), ?(H (_o p + 18 + 5)%Z) by lia.
  reflexivity.
Qed.

Lemma then_calls_cons (r : ResolvedInput) (rs : list ResolvedInput)
    (st : Engine) :
  then_calls (r :: rs) st = then_calls rs (state_of (run_core r st)).
Proof. reflexivity. Qed.

(** The slot after a call, counted in slots. *)
Lemma run_core_next_slot (r : ResolvedInput) (st : Engine) (q : Z) :
  (0 <= q < _SLAB_SLOTS)%Z -> _slabOff st = (29 * q)%Z ->
  _slabOff (state_of (run_core r st)) = (29 * ((q + 1) mod _SLAB_SLOTS))%Z.
Proof.
  intros Hq E. rewrite run_core_slabOff, E.
  unfold _SLAB_LEN, _SLAB_SLOTS in *.
  destruct (Z.leb_spec (29 * 16384) (29 * q + 29)).
  - replace (q + 1)%Z with 16384%Z by lia. reflexivity.
  - rewrite Z.mod_small by lia. lia.
Qed.

Lemma then_calls_slot (rs : list ResolvedInput) :
  forall (st : Engine) (q : Z),
    (0 <= q < _SLAB_SLOTS)%Z -> _slabOff st = (29 * q)%Z ->
    _slabOff (then_calls rs st) =
    (29 * ((q + Z.of_nat (List.length rs)) mod _SLAB_SLOTS))%Z.
Proof.
  induction rs as [|r rs IH]; intros st q Hq E.
  - cbn [then_calls fold_left List.length Z.of_nat].
    rewrite Z.add_0_r, Z.mod_small by exact Hq. exact E.
  - rewrite then_calls_cons.
    rewrite (IH _ ((q + 1) mod _SLAB_SLOTS)%Z).
    + f_equal. rewrite Zplus_mod_idemp_l. f_equal.
      cbn [List.length]. lia.
    + apply Z.mod_pos_bound. reflexivity.
    + now apply run_core_next_slot.
Qed.

(** Calls that take other slots leave the lanes of slot [n] alone. *)
Lemma then_calls_frame (n : Z) (rs : list ResolvedInput) :
  forall (st : Engine) (k : Z),
    (0 <= n < _SLAB_SLOTS)%Z -> (1 <= k)%Z ->
    (k + Z.of_nat (List.length rs) <= _SLAB_SLOTS)%Z ->
    _slabOff st = (29 * ((n + k) mod _SLAB_SLOTS))%Z ->
    forall j, (29 * n <= j < 29 * n + 29)%Z ->
      SLAB_get (_SLAB (then_calls rs st)) j = SLAB_get (_SLAB st) j.
Proof.
  induction rs as [|r rs IH]; intros st k Hn Hk Hlen E j Hj;
    [reflexivity|].
  rewrite then_calls_cons. cbn [List.length] in Hlen.
  assert (Hq : (0 <= (n + k) mod _SLAB_SLOTS < _SLAB_SLOTS)%Z)
    by (apply Z.mod_pos_bound; reflexivity).
  rewrite (IH _ (k + 1)%Z); try lia.
  - apply run_core_frame. rewrite E.
    pose proof (Z.div_mod (n + k) _SLAB_SLOTS ltac:(discriminate)) as D.
    unfold _SLAB_SLOTS in *.
    set (q := ((n + k) mod 16384)%Z) in *.
    set (d := ((n + k) / 16384)%Z) in *.
    assert (q <> n) by (intros ->; lia).
    lia.
  - rewrite (run_core_next_slot r st _ Hq E).
    f_equal. rewrite Zplus_mod_idemp_l. f_equal. lia.
Qed.

End Ring.

(** X4. A result object stays readable while the ring goes round: after a
    call has returned, up to 16383 further calls (through either entry
    point, returning or throwing) leave every getter of its result as it
    was. *)
Theorem results_survive_16383_later_calls {Math : MathObject}
    (r : ResolvedInput) (st st1 : Engine) (p : PTR)
    (rs : list ResolvedInput) :
  slot_aligned st ->
  run_core r st = Normal st1 p ->
  (Z.of_nat (List.length rs) < _SLAB_SLOTS)%Z ->
  PTR_read (_SLAB (then_calls rs st1)) p = PTR_read (_SLAB st1) p.
Proof.
  intros (n & Hn & E) H Hlen.
  pose proof (run_core_slot _ _ _ _ H) as Ho.
  pose proof (run_core_next_slot r st n Hn E) as E1.
  rewrite H in E1. cbn [state_of] in E1.
  apply PTR_read_agree. intros j Hj. rewrite Ho, E in Hj.
  apply (then_calls_frame n rs st1 1%Z); try assumption; lia.
Qed.

Lemma slot_aligned_initial : slot_aligned initialEngine.
Proof. exists 0%Z. split; [unfold _SLAB_SLOTS; lia|reflexivity]. Qed.

Lemma results_survive_witness :
  let st1 := Further.after Examples.chittagong in
  PTR_read
    (_SLAB (then_calls (Math := SeriesMath)
              [_resolve Examples.mecca; _resolve Examples.london] st1))
    Further.first_result =
  PTR_read (_SLAB st1) Further.first_result.
Proof.
  apply (results_survive_16383_later_calls (Math := SeriesMath)
           (_resolve Examples.chittagong) initialEngine).
  - exact slot_aligned_initial.
  - apply (returns_with (Scenarios.fresh Examples.chittagong)).
    vm_compute. reflexivity.
  - vm_compute. reflexivity.
Defined.

(** X5. The ring hands out its 16384 slots in turn: the call made after
    [k] further calls writes at offset [(o + 29 k) mod (29 * 16384)], [o]
    being the offset the first of them took.  So the call made 16384 calls
    after a result was returned writes into that result's slot, and its
    getters show the new values from then on. *)
Theorem ring_slot_of_later_call {Math : MathObject}
    (st : Engine) (rs : list ResolvedInput) (r : ResolvedInput) :
  slot_aligned st ->
  let k := Z.of_nat (List.length rs) in
  _slabOff (then_calls rs st) = ((_slabOff st + 29 * k) mod _SLAB_LEN)%Z /\
  forall st' p,
    run_core r (then_calls rs st) = Normal st' p ->
    _o p = ((_slabOff st + 29 * k) mod _SLAB_LEN)%Z /\
    (k = _SLAB_SLOTS -> _o p = _slabOff st).
Proof.
  intros (n & Hn & E) k.
  assert (F : _slabOff (then_calls rs st) =
              ((_slabOff st + 29 * k) mod _SLAB_LEN)%Z).
  { rewrite (then_calls_slot rs st n Hn E), E. subst k.
    unfold _SLAB_LEN.
    rewrite <- Z.mul_add_distr_l, Z.mul_mod_distr_l by discriminate.
    reflexivity. }
  split; [exact F|]. intros st' p H.
  rewrite (run_core_slot _ _ _ _ H). split; [exact F|].
  intros Hk. rewrite F, E, Hk. unfold _SLAB_LEN.
  rewrite <- Z.mul_add_distr_l, Z.mul_mod_distr_l by discriminate.
  rewrite <- (Z.mul_1_l _SLAB_SLOTS) at 1.
  rewrite Z.mod_add by discriminate.
  rewrite Z.mod_small by exact Hn. reflexivity.
Qed.

Lemma ring_slot_witness :
  _slabOff (then_calls (Math := SeriesMath)
              [_resolve Examples.chittagong; _resolve Examples.mecca]
              initialEngine) =
  ((_slabOff initialEngine + 29 * 2) mod _SLAB_LEN)%Z.
Proof.
  exact (proj1 (ring_slot_of_later_call (Math := SeriesMath) initialEngine
                  [_resolve Examples.chittagong; _resolve Examples.mecca]
                  (_resolve Examples.london) slot_aligned_initial)).
Defined.

(** [NaN] absorbs an addition. *)
Lemma nan_add_l (y : float) : nan + y = nan.
Proof.
  apply Prim2SF_inj. rewrite add_spec.
  change (Prim2SF nan) with S754_nan. reflexivity.
Qed.

(** X6. The Julian-Date caches and the slab ring are indexed within their
    bounds; the atan table is not.  Whatever the Julian Date, [NaN] and the
    infinities included, its slot in the two 512-entry caches is within
    0..511 and its eleven day constants lie inside the 512 x 16 array; and
    from an engine whose slab offset is the start of a slot, every sequence
    of calls, and [clearSolarCache], leave it at the start of a slot, with
    room for the 29 lanes a call writes.  [tAtan], unlike [tAcos], does not
    clamp: when the index of its argument falls outside 0..8193 it reads
    outside the table and returns [NaN].  The kernel does so at latitude 88
    for the hanafi madhab on 2025-12-21, where the asr altitude is looked up
    at index -3396 and asr is reported valid with a [NaN] time. *)
Theorem cache_and_slab_indices_in_bounds_atan_index_not :
  (forall jd : float,
     (0 <= cache_index jd < 512)%Z /\
     (0 <= cache_index jd * DC_STRIDE)%Z /\
     (cache_index jd * DC_STRIDE + DC_MIDNIGHT_MS < 512 * DC_STRIDE)%Z) /\
  (forall st, slot_aligned (clearSolarCache st)) /\
  (forall (Math : MathObject) st rs,
     slot_aligned st ->
     slot_aligned (then_calls rs st) /\
     slot_ok (_slabOff (then_calls rs st))) /\
  (forall (Math : MathObject) (x : float),
     let i := Js.ToInt32 ((x + 1) * _AT_HALF) in
     (i < 0 \/ _AT_SIZE + 1 < i)%Z -> tAtan x = nan) /\
  asr_atan_index (Math := SeriesMath) (_resolve Further.near_pole)
    (Further.after Further.near_pole) = (-3396)%Z /\
  out_asr (Further.shown Further.near_pole) =
    valid nan {| cosOmega := None; clamped := false; fallbackUsed := None;
                 targetAltitude := nan |}.
Proof.
  split; [|split; [|split; [|split]]].
  - intros jd. pose proof (cache_index_range jd).
    unfold DC_STRIDE, DC_MIDNIGHT_MS. lia.
  - intros st. exists 0%Z. split; [unfold _SLAB_SLOTS; lia|reflexivity].
  - intros Math st rs (n & Hn & E).
    assert (Al : slot_aligned (then_calls rs st)).
    { exists ((n + Z.of_nat (List.length rs)) mod _SLAB_SLOTS)%Z. split.
      - apply Z.mod_pos_bound. reflexivity.
      - now apply then_calls_slot. }
    split; [exact Al|now apply slot_aligned_ok].
  - intros Math x i Hi. unfold tAtan. fold i.
    assert (E : _AT i = nan).
    { unfold _AT, _AT_SIZE in *.
      destruct Hi as [Hi | Hi].
      - apply Z.leb_gt in Hi. rewrite Hi. cbn [andb].
        destruct (Z.eqb_spec i (4096 * 2 + 1)) as [->|_];
          [discriminate Hi|reflexivity].
      - replace ((i <=? 4096 * 2)%Z) with false
          by (symmetry; apply Z.leb_gt; lia).
        rewrite andb_false_r.
        destruct (Z.eqb_spec i (4096 * 2 + 1)); [lia|reflexivity]. }
    rewrite E. apply nan_add_l.
  - split; vm_compute; reflexivity.
Qed.

Lemma slab_offset_witness :
  slot_ok (_slabOff (then_calls (Math := SeriesMath)
                       [_resolve Examples.chittagong] initialEngine)).
Proof.
  exact (proj2 (proj1 (proj2 (proj2
           cache_and_slab_indices_in_bounds_atan_index_not))
                  SeriesMath initialEngine [_resolve Examples.chittagong]
                  slot_aligned_initial)).
Defined.

(** X7. [clearSolarCache] is a full reset: whatever state the engine is in,
    the next call for an ordinary date returns, answers exactly as a freshly
    loaded module would, and writes into slot 0 of the ring again. *)
Theorem clearSolarCache_restores_cold_start {Math : MathObject}
    (config : PrayerTimeInput) (st : Engine) :
  ordinary (julDate_of (_resolve config)) ->
  exists st' p out,
    computePrayerTimes config (clearSolarCache st) = Normal st' p /\
    _o p = 0%Z /\
    PTR_read (_SLAB st') p = out /\
    output_of (computePrayerTimes config initialEngine) = Some out.
Proof.
  intros Ord. unfold computePrayerTimes.
  destruct (caches_are_transparent (_resolve config)
              (clearSolarCache st) initialEngine
              (engine_ok_cleared st) engine_ok_initial
              (cc_ok_cleared st _) (cc_ok_initial _) Ord)
    as (s1 & p1 & s2 & p2 & R1 & R2 & E & _).
  exists s1, p1, (PTR_read (_SLAB s1) p1).
  split; [exact R1|]. split; [exact (run_core_slot _ _ _ _ R1)|].
  split; [reflexivity|].
  rewrite R2. cbn [output_of]. now rewrite E.
Qed.

Lemma clearSolarCache_witness :
  exists st' p out,
    computePrayerTimes (Math := SeriesMath) Examples.mecca
      (clearSolarCache (Further.after Examples.chittagong)) = Normal st' p /\
    _o p = 0%Z /\
    PTR_read (_SLAB st') p = out /\
    output_of (Scenarios.fresh Examples.mecca) = Some out.
Proof.
  apply (clearSolarCache_restores_cold_start (Math := SeriesMath)
           Examples.mecca (Further.after Examples.chittagong)).
  unfold ordinary, nonzero. vm_compute. auto.
Defined.

(** ** hour-angle.ts *)

(** X8. The corrected hour angle is solvable exactly when the plain hour
    angle for the same altitude, latitude and day-of declination is, and
    both report the same [cosOmega] and the same [clamped] flag; and its
    fast variant, given the latitude's sine and cosine and the west
    longitude, returns the very same result. *)
Theorem correctedHourAngle_solvable_as_computeHourAngle {Math : MathObject}
    (m0 angle lat lng : float) (afterTransit : bool)
    (Theta0 a2 a1 a3 d2 d1 d3 : float) :
  let corrected :=
    HourAngle.correctedHourAngle m0 angle lat lng afterTransit
      Theta0 a2 a1 a3 d2 d1 d3 in
  match HourAngle.computeHourAngle angle lat d2, corrected with
  | HourAngle.ha_undefined c, HourAngle.ha_undefined c' => c' = c
  | HourAngle.ha_valid _ c cl, HourAngle.ha_valid _ c' cl' =>
      c' = c /\ cl' = cl
  | _, _ => False
  end /\
  HourAngle.correctedHourAngleFast m0 angle
    (Math_sin (lat * Units.DEG2RAD)) (Math_cos (lat * Units.DEG2RAD))
    (- lng) afterTransit Theta0 a2 a1 a3 d2 d1 d3 = corrected.
Proof.
  cbv zeta. split; [|reflexivity].
  unfold HourAngle.computeHourAngle, HourAngle.correctedHourAngle,
    HourAngle.cosOmega_of, Units.sinDeg, Units.cosDeg.
  destruct (_ || _); [reflexivity|split; reflexivity].
Qed.

(** ** sunnah.ts *)

(** Both sun bits clear means the night mask is clear. *)
Lemma uf_has_10 (uf : Z) :
  uf_has uf 2 = false -> uf_has uf 8 = false -> uf_has uf 10 = false.
Proof.
  unfold uf_has. rewrite !negb_false_iff, !Z.eqb_eq. intros H2 H8.
  change 10%Z with (Z.lor 2 8). now rewrite Z.land_lor_distr_r, H2, H8.
Qed.

(** X9. The midnight and last third a result reports are the Sunnah times
    of [computeSunnahTimes] for the night from its sunset to its own sunrise
    moved on by 24 hours (not to the next day's fajr). *)
Theorem night_times_are_sunnah_times_to_next_sunrise
    (S : Z -> float) (p : PTR) (sr ss : float) (dsr dss : PrayerDiagnostics) :
  PTR_sunrise S p = valid sr dsr ->
  PTR_sunset S p = valid ss dss ->
  let sunnah := Sunnah.computeSunnahTimes ss (sr + 86400000) in
  PTR_midnight S p = valid (Sunnah.middleOfTheNight sunnah) DERIVED_DIAG /\
  PTR_lastThird S p =
    valid (Sunnah.lastThirdOfTheNight sunnah) DERIVED_DIAG.
Proof.
  unfold PTR_sunrise, PTR_sunset, PTR_midnight, PTR_lastThird.
  destruct (uf_has (_uf p) 2) eqn:U2; [discriminate|].
  destruct (uf_has (_uf p) 8) eqn:U8; [discriminate|].
  rewrite (uf_has_10 _ U2 U8).
  unfold V_result, _vFromSlot. cbn [V_ms].
  intros [= <- _] [= <- _]. split; reflexivity.
Qed.

Lemma night_times_witness :
  let out := Further.shown Examples.chittagong in
  let sunnah :=
    Sunnah.computeSunnahTimes 1772020477923.0896
      (1771978651233.033 + 86400000) in
  out_midnight out = valid (Sunnah.middleOfTheNight sunnah) DERIVED_DIAG /\
  out_lastThird out = valid (Sunnah.lastThirdOfTheNight sunnah) DERIVED_DIAG.
Proof.
  apply (night_times_are_sunnah_times_to_next_sunrise
           (_SLAB (Further.after Examples.chittagong)) Further.first_result
           1771978651233.033 1772020477923.0896
           {| cosOmega := Some 0.050440307002003852; clamped := false;
              fallbackUsed := None; targetAltitude := -0.83330000000000004 |}
           {| cosOmega := Some 0.050440307002003852; clamped := false;
              fallbackUsed := None;
              targetAltitude := -0.83330000000000004 |}).
  - vm_compute. reflexivity.
  - vm_compute. reflexivity.
Defined.

(** ** More on the order of binary64 *)

Lemma SFleb_trans (a b c : spec_float) :
  SFleb a b = true -> SFleb b c = true -> SFleb a c = true.
Proof.
  unfold SFleb.
  destruct a as [sa|sa| |sa ma ea], b as [sb|sb| |sb mb eb],
    c as [sc|sc| |sc mc ec]; cbn;
    try destruct sa; try destruct sb; try destruct sc;
    try discriminate; try reflexivity.
  all: repeat match goal with
         | |- context [(?x ?= ?y)%Z] => destruct (Z.compare_spec x y)
         end;
    try discriminate; try reflexivity; try lia; subst.
  all: repeat match goal with
         | |- context [Pos.compare_cont Eq ?x ?y] =>
             change (Pos.compare_cont Eq x y) with (Pos.compare x y);
             destruct (Pos.compare_spec x y)
         end;
    cbn; try discriminate; try reflexivity; try lia.
Qed.

Lemma leb_trans (x y z : float) :
  (x <=? y) = true -> (y <=? z) = true -> (x <=? z) = true.
Proof. rewrite !leb_spec. apply SFleb_trans. Qed.

Lemma leb_not_nan (x y : float) :
  (x <=? y) = true -> is_nan x = false /\ is_nan y = false.
Proof.
  rewrite leb_compare, !is_nan_spec.
  destruct (Prim2SF x), (Prim2SF y); cbn; auto; discriminate.
Qed.

(** Among numbers, [x < y] fails exactly when [y <= x]. *)
Lemma ltb_negb_leb (x y : float) :
  is_nan x = false -> is_nan y = false -> (x <? y) = negb (y <=? x).
Proof.
  intros Nx Ny. destruct (x <? y) eqn:L.
  - now rewrite (ltb_leb_false _ _ L).
  - now rewrite (not_ltb_leb y x Ny Nx L).
Qed.

Lemma ltb_false_iff (x y : float) :
  (x <? y) = false <->
  is_nan x = true \/ is_nan y = true \/ (y <=? x) = true.
Proof.
  split.
  - intros L. destruct (is_nan x) eqn:Nx; [now left|].
    destruct (is_nan y) eqn:Ny; [now right; left|].
    right; right. now apply not_ltb_leb.
  - intros [N | [N | L]]; destruct (x <? y) eqn:E; try reflexivity;
      exfalso.
    + apply ltb_not_nan in E. destruct E. congruence.
    + apply ltb_not_nan in E. destruct E. congruence.
    + apply ltb_leb_false in E. congruence.
Qed.

(** ** schema.ts *)

(** X10. The three range validators return their argument untouched or
    throw; they return exactly when the argument is within the range or is
    [NaN], which no comparison rejects. *)
Theorem range_validators_let_NaN_through (v : float) :
  (Schema.Latitude_assert v = Schema.Returns v <->
   is_nan v = true \/ ((-90 <=? v) = true /\ (v <=? 90) = true)) /\
  (Schema.Longitude_assert v = Schema.Returns v <->
   is_nan v = true \/ ((-180 <=? v) = true /\ (v <=? 180) = true)) /\
  (Schema.Meters_assert v = Schema.Returns v <->
   is_nan v = true \/ (0 <=? v) = true) /\
  (forall w,
     Schema.Latitude_assert v = Schema.Returns w \/
     Schema.Longitude_assert v = Schema.Returns w \/
     Schema.Meters_assert v = Schema.Returns w -> w = v).
Proof.
  assert (R : forall lo hi : float,
            is_nan lo = false -> is_nan hi = false ->
            ((v <? lo) || (hi <? v) = false <->
             is_nan v = true \/ ((lo <=? v) = true /\ (v <=? hi) = true))).
  { intros lo hi Nlo Nhi. rewrite orb_false_iff, !ltb_false_iff.
    rewrite Nlo, Nhi. split.
    - intros [[N | [N | L]] [N' | [N' | L']]]; try discriminate; auto.
    - intros [N | [L L']]; [split; [left | right; left]; exact N|].
      split; [right; right; exact L | right; right; exact L']. }
  unfold Schema.Latitude_assert, Schema.Longitude_assert,
    Schema.Meters_assert.
  split; [|split; [|split]].
  - rewrite <- (R (-90) 90) by reflexivity.
    destruct (_ || _); split; congruence.
  - rewrite <- (R (-180) 180) by reflexivity.
    destruct (_ || _); split; congruence.
  - split.
    + intros H. destruct (v <? 0) eqn:L; [discriminate|].
      apply ltb_false_iff in L. destruct L as [N | [N | L]]; auto.
      discriminate.
    + intros H. assert (L : (v <? 0) = false)
        by (apply ltb_false_iff; destruct H; auto).
      now rewrite L.
  - intros w [H | [H | H]];
      match type of H with
      | (if ?c then _ else _) = _ => destruct c
      end; congruence.
Qed.

(** ** prayer-utils.ts *)

Section CurrentAndNext.
Import PrayerUtils Daily.
Variable times : PrayerTimesOutput.
Variable nowMs : float.

Lemma currentPrayer_due :
  currentPrayer times nowMs =
  first_passing (due times nowMs) [isha; maghrib; asr; dhuhr; sunrise; fajr].
Proof. reflexivity. Qed.

Lemma nextPrayer_ahead :
  nextPrayer times nowMs =
  first_passing (ahead times nowMs)
    [fajr; sunrise; dhuhr; asr; maghrib; isha].
Proof. reflexivity. Qed.

Lemma due_none : due times nowMs none = false.
Proof. reflexivity. Qed.

Lemma ahead_none : ahead times nowMs none = false.
Proof. reflexivity. Qed.

(** No prayer is both due and ahead. *)
Lemma due_not_ahead (p : Prayer) :
  due times nowMs p = true -> ahead times nowMs p = false.
Proof.
  unfold due, ahead. destruct (timeForPrayer times p) as [t|]; [|auto].
  intros D. destruct (nowMs <? t) eqn:L; [|reflexivity].
  apply ltb_leb_false in L. congruence.
Qed.

End CurrentAndNext.

Lemma currentPrayer_last_due (times : PrayerTimesOutput) (nowMs : float) :
  let c := PrayerUtils.currentPrayer times nowMs in
  (c = PrayerUtils.none \/ Daily.due times nowMs c = true) /\
  (forall q, (Daily.place c < Daily.place q)%Z ->
             Daily.due times nowMs q = false).
Proof.
  cbv zeta. rewrite currentPrayer_due.
  pose proof (due_none times nowMs) as D0.
  cbn [PrayerUtils.first_passing].
  destruct (Daily.due times nowMs PrayerUtils.isha) eqn:D6,
    (Daily.due times nowMs PrayerUtils.maghrib) eqn:D5,
    (Daily.due times nowMs PrayerUtils.asr) eqn:D4,
    (Daily.due times nowMs PrayerUtils.dhuhr) eqn:D3,
    (Daily.due times nowMs PrayerUtils.sunrise) eqn:D2,
    (Daily.due times nowMs PrayerUtils.fajr) eqn:D1;
    (split; [auto|]); intros [] Hq; cbn in Hq; solve [assumption | lia].
Qed.

Lemma nextPrayer_first_ahead (times : PrayerTimesOutput) (nowMs : float) :
  let n := PrayerUtils.nextPrayer times nowMs in
  (n = PrayerUtils.none \/ Daily.ahead times nowMs n = true) /\
  (forall q, (Daily.place q < Daily.place n)%Z \/ n = PrayerUtils.none ->
             Daily.ahead times nowMs q = false).
Proof.
  cbv zeta. rewrite nextPrayer_ahead.
  pose proof (ahead_none times nowMs) as A0.
  cbn [PrayerUtils.first_passing].
  destruct (Daily.ahead times nowMs PrayerUtils.fajr) eqn:A1,
    (Daily.ahead times nowMs PrayerUtils.sunrise) eqn:A2,
    (Daily.ahead times nowMs PrayerUtils.dhuhr) eqn:A3,
    (Daily.ahead times nowMs PrayerUtils.asr) eqn:A4,
    (Daily.ahead times nowMs PrayerUtils.maghrib) eqn:A5,
    (Daily.ahead times nowMs PrayerUtils.isha) eqn:A6;
    (split; [auto|]);
    intros [] [Hq | Hq]; cbn in Hq;
    solve [assumption | lia | discriminate].
Qed.

(** X11. [currentPrayer] returns the last prayer of the daily order whose
    time is defined and not after now, and [nextPrayer] the first whose
    time is defined and after now; prayers with an undefined time are
    skipped, and ["none"] is returned exactly when no prayer qualifies. *)
Theorem currentPrayer_and_nextPrayer_pick_last_and_first
    (times : PrayerTimesOutput) (nowMs : float) :
  let c := PrayerUtils.currentPrayer times nowMs in
  let n := PrayerUtils.nextPrayer times nowMs in
  (c = PrayerUtils.none \/ Daily.due times nowMs c = true) /\
  (forall q, (Daily.place c < Daily.place q)%Z ->
             Daily.due times nowMs q = false) /\
  (n = PrayerUtils.none \/ Daily.ahead times nowMs n = true) /\
  (forall q, (Daily.place q < Daily.place n)%Z \/ n = PrayerUtils.none ->
             Daily.ahead times nowMs q = false).
Proof.
  cbv zeta.
  destruct (currentPrayer_last_due times nowMs) as [C1 C2].
  destruct (nextPrayer_first_ahead times nowMs) as [N1 N2].
  exact (conj C1 (conj C2 (conj N1 N2))).
Qed.

(** X12. [currentPrayer] and [nextPrayer] never name the same prayer: for
    any times and any instant they agree only on ["none"]. *)
Theorem currentPrayer_is_never_nextPrayer
    (times : PrayerTimesOutput) (nowMs : float) :
  PrayerUtils.currentPrayer times nowMs = PrayerUtils.nextPrayer times nowMs ->
  PrayerUtils.currentPrayer times nowMs = PrayerUtils.none.
Proof.
  intros E.
  destruct (currentPrayer_last_due times nowMs) as [[C | C] _];
    [exact C|].
  destruct (nextPrayer_first_ahead times nowMs) as [[N | N] _];
    [congruence|].
  rewrite <- E in N. apply due_not_ahead in C. congruence.
Qed.

Lemma never_nextPrayer_witness :
  PrayerUtils.currentPrayer (Further.shown Examples.chittagong) nan =
  PrayerUtils.none.
Proof.
  apply currentPrayer_is_never_nextPrayer. vm_compute. reflexivity.
Defined.

(** X13. For times in chronological order and an instant that is a number,
    [nextPrayer] is the prayer after [currentPrayer] in the daily order
    (fajr after ["none"], ["none"] after isha); the current prayer is
    ["none"] exactly before fajr and the next one is ["none"] exactly from
    isha on. *)
Theorem nextPrayer_follows_currentPrayer
    (times : PrayerTimesOutput) (nowMs : float) :
  Daily.chronological times ->
  is_nan nowMs = false ->
  PrayerUtils.nextPrayer times nowMs =
    Daily.following (PrayerUtils.currentPrayer times nowMs) /\
  (PrayerUtils.currentPrayer times nowMs = PrayerUtils.none <->
   Daily.ahead times nowMs PrayerUtils.fajr = true) /\
  (PrayerUtils.nextPrayer times nowMs = PrayerUtils.none <->
   Daily.due times nowMs PrayerUtils.isha = true).
Proof.
  intros (t1 & t2 & t3 & t4 & t5 & t6 & T1 & T2 & T3 & T4 & T5 & T6 &
          L12 & L23 & L34 & L45 & L56) Hn.
  rewrite currentPrayer_due, nextPrayer_ahead.
  cbn [PrayerUtils.first_passing]. unfold Daily.due, Daily.ahead.
  rewrite T1, T2, T3, T4, T5, T6.
  pose proof (leb_not_nan _ _ L12) as [N1 N2].
  pose proof (leb_not_nan _ _ L34) as [N3 N4].
  pose proof (leb_not_nan _ _ L56) as [N5 N6].
  rewrite !ltb_negb_leb by assumption.
  pose proof (fun H => leb_trans t1 t2 nowMs L12 H) as M1.
  pose proof (fun H => leb_trans t2 t3 nowMs L23 H) as M2.
  pose proof (fun H => leb_trans t3 t4 nowMs L34 H) as M3.
  pose proof (fun H => leb_trans t4 t5 nowMs L45 H) as M4.
  pose proof (fun H => leb_trans t5 t6 nowMs L56 H) as M5.
  destruct (t6 <=? nowMs);
    [pose proof (M5 eq_refl) as E5; rewrite E5 in *|];
    (destruct (t5 <=? nowMs);
     [pose proof (M4 eq_refl) as E4; rewrite E4 in *|]);
    (destruct (t4 <=? nowMs);
     [pose proof (M3 eq_refl) as E3; rewrite E3 in *|]);
    (destruct (t3 <=? nowMs);
     [pose proof (M2 eq_refl) as E2; rewrite E2 in *|]);
    (destruct (t2 <=? nowMs);
     [pose proof (M1 eq_refl) as E1; rewrite E1 in *|]);
    try destruct (t1 <=? nowMs);
    cbn; repeat split; intros; try reflexivity; discriminate.
Qed.

Lemma chronological_chittagong :
  Daily.chronological (Further.shown Examples.chittagong).
Proof.
  exists 1771974170473.6189, 1771978651233.033, 1771999555527.4502,
    1772014632566.355, 1772020477923.0896, 1772024701424.6741.
  vm_compute. repeat split.
Qed.

(** 2026-02-25 10:00 UTC in Chittagong: after dhuhr, before asr. *)
Lemma nextPrayer_follows_witness :
  let times := Further.shown Examples.chittagong in
  PrayerUtils.nextPrayer times 1772013600000 =
    Daily.following (PrayerUtils.currentPrayer times 1772013600000) /\
  (PrayerUtils.currentPrayer times 1772013600000 = PrayerUtils.none <->
   Daily.ahead times 1772013600000 PrayerUtils.fajr = true) /\
  (PrayerUtils.nextPrayer times 1772013600000 = PrayerUtils.none <->
   Daily.due times 1772013600000 PrayerUtils.isha = true).
Proof.
  apply (nextPrayer_follows_currentPrayer
           (Further.shown Examples.chittagong) 1772013600000).
  - exact chronological_chittagong.
  - reflexivity.
Defined.

(** ** date-utils.ts and the Julian Date of solar.ts *)

Lemma holds_from_spec (test : Z -> bool) (n : nat) :
  forall lo, holds_from test lo n = true ->
  forall k, (lo <= k < lo + Z.of_nat n)%Z -> test k = true.
Proof.
  induction n as [|n IH]; intros lo H k Hk; [lia|].
  cbn [holds_from] in H. destruct (test lo) eqn:T; [|discriminate].
  destruct (Z.eq_dec k lo) as [->|]; [exact T|].
  apply (IH (lo + 1)%Z H). lia.
Qed.

Lemma holds_in_range (test : Z -> bool) (lo len : Z) :
  holds_from test lo (Z.to_nat len) = true ->
  forall k, (lo <= k < lo + len)%Z -> test k = true.
Proof.
  intros H k Hk. apply (holds_from_spec test (Z.to_nat len) lo H).
  rewrite Z2Nat.id; lia.
Qed.

(** An equation between numbers that depends on an integer [k] of a given
    range, settled by evaluating both sides for each [k]. *)
Ltac each k lo n :=
  apply FloatAxioms.Leibniz.eqb_spec;
  match goal with
  | |- ?g = true =>
      let f := eval pattern k in g in
      match f with
      | ?test _ =>
          change (test k = true);
          apply (holds_in_range test lo n); [vm_compute; reflexivity | lia]
      end
  end.

(** X14. [isLeapYear] is the Gregorian rule, for negative years too: a
    year from -9999 to 9999 is a leap year exactly when it is a multiple
    of 4 and not of 100, or a multiple of 400. *)
Theorem isLeapYear_is_the_gregorian_rule (y : Z) :
  (-9999 <= y <= 9999)%Z ->
  DateUtils.isLeapYear (Js.of_Z y) = gregorian_leap y.
Proof.
  intros Hy. apply eqb_prop.
  change ((fun y => Bool.eqb (DateUtils.isLeapYear (Js.of_Z y))
                      (gregorian_leap y)) y = true).
  apply (holds_in_range _ (-9999) 19999); [|lia].
  vm_cast_no_check (eq_refl true).
Qed.

Lemma isLeapYear_witness :
  DateUtils.isLeapYear (Js.of_Z 1900) = gregorian_leap 1900.
Proof. apply isLeapYear_is_the_gregorian_rule. lia. Defined.

(** X15. [dayOfYear] is the number of days in the months before, February
    counting 29 days when [isLeapYear] says so, plus the day of the month:
    it numbers the days of a year 1, 2, ... without a gap, up to 365 or
    366 on 31 December. *)
Theorem dayOfYear_counts_the_days (year : float) (m d : Z) :
  (0 <= m < 12)%Z -> (1 <= d <= 31)%Z ->
  let leap := DateUtils.isLeapYear year in
  DateUtils.dayOfYear
    {| DateUtils.getFullYear := year;
       DateUtils.getMonth := Js.of_Z m;
       DateUtils.getDate := Js.of_Z d |} =
  Js.of_Z (days_before leap m + d) /\
  (days_before leap 11 + 31 = year_length leap)%Z.
Proof.
  intros Hm Hd leap. split; [|now destruct leap].
  unfold DateUtils.dayOfYear.
  cbn [DateUtils.getFullYear DateUtils.getMonth DateUtils.getDate].
  fold leap. clearbody leap.
  assert (M : In m [0; 1; 2; 3; 4; 5; 6; 7; 8; 9; 10; 11]%Z)
    by (cbn; lia).
  destruct leap; cbn in M;
    repeat (destruct M as [<-|M]; [each d 1%Z 31%Z|]);
    contradiction.
Qed.

Lemma dayOfYear_witness :
  let leap := DateUtils.isLeapYear 2024 in
  DateUtils.dayOfYear
    {| DateUtils.getFullYear := 2024;
       DateUtils.getMonth := Js.of_Z 11;
       DateUtils.getDate := Js.of_Z 31 |} =
  Js.of_Z (days_before leap 11 + 31) /\
  (days_before leap 11 + 31 = year_length leap)%Z.
Proof. apply (dayOfYear_counts_the_days 2024 11 31); lia. Defined.

(** X16. [daysSinceSolstice] turns the day of the year by a fixed amount,
    wrapping at the length of the year: 10 days on in the north, 172 days
    back (173 in a leap year) in the south, where a latitude that is not
    [>= 0], [NaN] included, counts as south.  So every day of the year gets
    a different number from 0 to 364 (365 in a leap year). *)
Theorem daysSinceSolstice_turns_the_year (year latitude : float) (doy : Z) :
  let leap := DateUtils.isLeapYear year in
  let shift :=
    if 0 <=? latitude then 10%Z else (if leap then -173 else -172)%Z in
  (1 <= doy <= year_length leap)%Z ->
  DateUtils.daysSinceSolstice (Js.of_Z doy) year latitude =
  Js.of_Z ((doy + shift) mod year_length leap).
Proof.
  intros leap shift. subst shift. unfold DateUtils.daysSinceSolstice.
  fold leap. clearbody leap.
  destruct leap, (0 <=? latitude); cbn [year_length]; intros Hd.
  - each doy 1%Z 366%Z.
  - each doy 1%Z 366%Z.
  - each doy 1%Z 365%Z.
  - each doy 1%Z 365%Z.
Qed.

Lemma daysSinceSolstice_witness :
  DateUtils.daysSinceSolstice (Js.of_Z 1) 2024 (-33.87) =
  Js.of_Z ((1 + -173) mod 366).
Proof.
  apply (daysSinceSolstice_turns_the_year 2024 (-33.87) 1).
  vm_compute. split; discriminate.
Defined.

Lemma julian_date_of_month_base (y m d : Z) :
  julian_date_of (y, m, d) = julian_date_from (month_base y m) d.
Proof.
  unfold julian_date_of, julian_date_from, month_base, Solar.toJulianDate.
  now destruct (Js.of_Z m <=? 2).
Qed.

Lemma month_length_range (leap : bool) (m : Z) :
  (28 <= month_length leap m <= 31)%Z.
Proof.
  unfold month_length.
  destruct leap; repeat (destruct m as [|[m|m|]|]; try lia).
Qed.

Lemma months_step_by_one :
  holds_from (fun y => holds_from (month_steps_by_one y) 1 12) 1800
    (Z.to_nat 401) = true.
Proof. vm_cast_no_check (eq_refl true). Qed.

(** X17. [toJulianDate] follows the civil calendar: from 1800 to 2200 it
    grows by exactly 1 from each day to the next, across the ends of months
    and years and across 29 February or its absence (none in 1800, 1900,
    2100 and 2200, one in 2000); on 1970-01-01 it is 2440587.5, the
    constant the kernel adds to [date / 86400000]. *)
Theorem toJulianDate_follows_the_calendar :
  julian_date_of (1970, 1, 1)%Z = 2440587.5 /\
  (forall r, r_date r = 0 -> julDate_of r = julian_date_of (1970, 1, 1)%Z) /\
  forall y m d : Z,
    (1800 <= y <= 2200)%Z -> (1 <= m <= 12)%Z ->
    (1 <= d <= month_length (gregorian_leap y) (m - 1))%Z ->
    julian_date_of (tomorrow (y, m, d)) = julian_date_of (y, m, d) + 1.
Proof.
  split; [vm_compute; reflexivity|]. split.
  { intros r E. unfold julDate_of. rewrite E. vm_compute. reflexivity. }
  intros y m d Hy Hm Hd.
  pose proof (holds_in_range _ _ _ months_step_by_one y ltac:(lia)) as C.
  cbv beta in C.
  apply (fun H => holds_in_range _ 1 12 H m ltac:(lia)) in C.
  unfold month_steps_by_one in C. apply andb_prop in C. destruct C as [C1 C2].
  pose proof (month_length_range (gregorian_leap y) (m - 1)) as B.
  unfold tomorrow.
  destruct (Z.ltb_spec d (month_length (gregorian_leap y) (m - 1))) as [L|L].
  - rewrite !julian_date_of_month_base.
    apply (fun H => holds_in_range _ 1 30 H d ltac:(lia)) in C1.
    cbv beta in C1.
    apply Z.ltb_lt in L. rewrite L in C1. cbn [implb] in C1.
    now apply FloatAxioms.Leibniz.eqb_spec.
  - assert (E : d = month_length (gregorian_leap y) (m - 1)) by lia.
    unfold next_month in C2.
    destruct (m <? 12)%Z; rewrite !julian_date_of_month_base, E;
      now apply FloatAxioms.Leibniz.eqb_spec.
Qed.

Lemma toJulianDate_witness :
  julian_date_of (2100, 3, 1)%Z = julian_date_of (2100, 2, 28)%Z + 1.
Proof.
  apply (proj2 (proj2 toJulianDate_follows_the_calendar) 2100 2 28)%Z.
  - lia.
  - lia.
  - vm_compute. split; discriminate.
Defined.

(** ** Dhuhr and the metadata *)

(** X18. Dhuhr is always defined: in every result it is the reported solar
    noon plus the dhuhr adjustment x 60000 ms, with no [cosOmega], no clamp,
    no fallback and a target altitude of 90; and the reported Julian Date is
    [date / 86400000 + 2440587.5]. *)
Theorem dhuhr_is_solar_noon_plus_adjustment {Math : MathObject}
    (config : PrayerTimeInput) (st st' : Engine) (p : PTR) :
  cc_ok st (_resolve config) ->
  slot_ok (_slabOff st) ->
  computePrayerTimes config st = Normal st' p ->
  let out := PTR_read (_SLAB st') p in
  out_dhuhr out =
    valid (solarNoonMs (out_meta out) +
           adj_dhuhr (r_adjustments (_resolve config)) * 60000)
      {| cosOmega := None; clamped := false; fallbackUsed := None;
         targetAltitude := 90 |} /\
  julianDate (out_meta out) = julDate_of (_resolve config).
Proof.
  intros Hok Ho H.
  unfold computePrayerTimes in H.
  pose proof (run_core_inv _ _ _ _ H) as I. cbv zeta in I.
  destruct I as (st1 & _ & Hc & HS & _ & Hp). subst p.
  set (r := _resolve config) in *.
  set (o := _slabOff st) in *.
  set (dcBase := (cache_index (julDate_of r) * DC_STRIDE)%Z) in *.
  set (uf := snd (highLatFallback r st1 o _)) in *.
  assert (Hadj : adjDhuhrMs st1 = adj_dhuhr (r_adjustments r) * 60000).
  { unfold adjDhuhrMs. now rewrite Hc, configCache_cc. }
  cbv zeta. cbn [out_dhuhr out_meta PTR_read].
  unfold PTR_dhuhr, PTR_meta, _vFromSlot. cbn [_o solarNoonMs julianDate].
  replace (o + 6 + 2)%Z with (o + 8)%Z by lia.
  replace (o + 12 + 2)%Z with (o + 14)%Z by lia.
  replace (o + 18 + 2)%Z with (o + 20)%Z by lia.
  rewrite HS.
  assert (L27 : SLAB_get (metaValues st1 dcBase o (julDate_of r)
                  (fst (highLatFallback r st1 o
                     (chaPrayers r st1 dcBase o (_SLAB st))))) (o + 27) =
                julDate_of r)
    by (unfold metaValues; now slab).
  assert (L26 : SLAB_get (metaValues st1 dcBase o (julDate_of r)
                  (fst (highLatFallback r st1 o
                     (chaPrayers r st1 dcBase o (_SLAB st))))) (o + 26) =
                dateUtcMidnightMs st1 dcBase +
                transitUtcH st1 dcBase * 3600000)
    by (unfold metaValues; now slab).
  rewrite L27, L26. split; [|reflexivity].
  unfold chaPrayers. frames. unfold dhuhrBlock. cbn [fst]. slab.
  rewrite Hadj. reflexivity.
Qed.

Lemma dhuhr_witness :
  let out := Further.shown Further.chittagong_dhuhr_5 in
  out_dhuhr out =
    valid (solarNoonMs (out_meta out) + 5 * 60000)
      {| cosOmega := None; clamped := false; fallbackUsed := None;
         targetAltitude := 90 |} /\
  julianDate (out_meta out) = julDate_of (_resolve Further.chittagong_dhuhr_5).
Proof.
  apply (dhuhr_is_solar_noon_plus_adjustment (Math := SeriesMath)
           Further.chittagong_dhuhr_5 initialEngine).
  - apply cc_ok_initial.
  - exact slot_ok_initial.
  - apply (returns_with (Scenarios.fresh Further.chittagong_dhuhr_5)).
    vm_compute. reflexivity.
Defined.

(** ** What the high-latitude rule reaches *)

Section RuleOnly.
Context {Math : MathObject}.
Variables r1 r2 : ResolvedInput.
Hypothesis Hlat : r_latitude r1 = r_latitude r2.
Hypothesis Hlng : r_longitude r1 = r_longitude r2.
Hypothesis Hdate : r_date r1 = r_date r2.
Hypothesis Hmethod : r_method r1 = r_method r2.
Hypothesis Hmadhab : r_madhab r1 = r_madhab r2.
Hypothesis Hadj : r_adjustments r1 = r_adjustments r2.
Hypothesis Helev : r_elevation r1 = r_elevation r2.

(** Two calls that differ in the rule only: both throw, or both return
    results in the same slot whose masks agree on the sunrise, asr and
    sunset bits and whose lanes agree but for the fajr and isha times and
    flags. *)
Lemma run_core_rule (st : Engine) :
  match run_core r1 st, run_core r2 st with
  | Normal st1 p1, Normal st2 p2 =>
      _o p1 = _o p2 /\
      uf_has (_uf p1) 2 = uf_has (_uf p2) 2 /\
      uf_has (_uf p1) 4 = uf_has (_uf p2) 4 /\
      uf_has (_uf p1) 8 = uf_has (_uf p2) 8 /\
      uf_has (_uf p1) 10 = uf_has (_uf p2) 10 /\
      forall j,
        j <> (_o p1 + 0)%Z -> j <> (_o p1 + 12)%Z ->
        j <> (_o p1 + 5)%Z -> j <> (_o p1 + 17)%Z ->
        SLAB_get (_SLAB st1) j = SLAB_get (_SLAB st2) j
  | Throw _, Throw _ => True
  | _, _ => False
  end.
Proof.
  unfold run_core, _computeCore, coreEvents, julDate_of.
  destruct (takeSlot st) as [o st0].
  rewrite <- Hdate,
    <- (configCache_reads r1 r2 Hlat Hlng Hmethod Hmadhab Hadj Helev).
  destruct (dayConstants _ _) as [K [|]]; [|exact I].
  rewrite <- (chaPrayers_reads r1 r2 Hlat Hmethod (f_equal adj_isha Hadj)).
  set (dcBase := (cache_index _ * DC_STRIDE)%Z).
  set (Su := chaPrayers r1 K dcBase o (_SLAB K)).
  pose proof (chaPrayers_uf r1 K dcBase o (_SLAB K)) as M. fold Su in M.
  destruct (highLatFallback_uf_sun r1 K o Su _ _ _ _ M)
    as (A2 & A8 & A10 & A4 & _).
  destruct (highLatFallback_uf_sun r2 K o Su _ _ _ _ M)
    as (B2 & B8 & B10 & B4 & _).
  cbn [_o _uf _SLAB with_SLAB].
  rewrite A2, A4, A8, A10, B2, B4, B8, B10.
  repeat (split; [reflexivity|]).
  intros j J0 J12 J5 J17. unfold metaValues. rewrite !SLAB_get_set.
  repeat (destruct (_ && _); [reflexivity|]).
  now rewrite !highLatFallback_frame.
Qed.

End RuleOnly.

Lemma resolve_set_highLatRule (config : PrayerTimeInput) (rule : HighLatRule) :
  let r := _resolve (set_highLatRule config rule) in
  r_latitude r = latitude config /\
  r_longitude r = longitude config /\
  r_date r = date config /\
  r_method r = method config /\
  r_madhab r = nullish (madhab config) standard /\
  r_adjustments r = nullish (adjustments config) _DEFAULT_ADJ /\
  r_elevation r = nullish (elevation config) 0.
Proof.
  unfold _resolve, set_highLatRule; cbn.
  destruct (madhab config), (polarRule config), (adjustments config),
    (elevation config); repeat split.
Qed.

(** X19. The high-latitude rule reaches fajr and isha (and imsak, ten
    minutes before fajr) and nothing else: two calls from the same engine
    state that differ in [highLatRule] only both throw or both return, and
    then report the same sunrise, dhuhr, asr, sunset, maghrib, midnight,
    first third, last third and metadata, diagnostics included. *)
Theorem highLatRule_moves_only_fajr_and_isha {Math : MathObject}
    (config : PrayerTimeInput) (rule1 rule2 : HighLatRule) (st : Engine) :
  match computePrayerTimes (set_highLatRule config rule1) st,
        computePrayerTimes (set_highLatRule config rule2) st with
  | Normal st1 p1, Normal st2 p2 =>
      let out1 := PTR_read (_SLAB st1) p1 in
      let out2 := PTR_read (_SLAB st2) p2 in
      out_sunrise out1 = out_sunrise out2 /\
      out_dhuhr out1 = out_dhuhr out2 /\
      out_asr out1 = out_asr out2 /\
      out_sunset out1 = out_sunset out2 /\
      out_maghrib out1 = out_maghrib out2 /\
      out_midnight out1 = out_midnight out2 /\
      out_firstThird out1 = out_firstThird out2 /\
      out_lastThird out1 = out_lastThird out2 /\
      out_meta out1 = out_meta out2
  | Throw _, Throw _ => True
  | _, _ => False
  end.
Proof.
  unfold computePrayerTimes.
  pose proof (resolve_set_highLatRule config rule1)
    as (A1 & A2 & A3 & A4 & A5 & A6 & A7).
  pose proof (resolve_set_highLatRule config rule2)
    as (B1 & B2 & B3 & B4 & B5 & B6 & B7).
  assert (R := run_core_rule (_resolve (set_highLatRule config rule1))
                 (_resolve (set_highLatRule config rule2))
                 ltac:(congruence) ltac:(congruence) ltac:(congruence)
                 ltac:(congruence) ltac:(congruence) ltac:(congruence)
                 ltac:(congruence) st).
  destruct (run_core _ st) as [st1 p1|st1];
    destruct (run_core _ st) as [st2 p2|st2]; try exact R.
  destruct R as (Ho & U2 & U4 & U8 & U10 & L). cbv zeta.
  cbn [PTR_read out_sunrise out_dhuhr out_asr out_sunset out_maghrib
       out_midnight out_firstThird out_lastThird out_meta].
  unfold PTR_sunrise, PTR_dhuhr, PTR_asr, PTR_sunset, PTR_maghrib,
    PTR_midnight, PTR_firstThird, PTR_lastThird, PTR_meta,
    _vFromSlot, _undefFromSlot.
  rewrite <- U2, <- U4, <- U8, <- U10, <- Ho.
  rewrite <- !(L (_o p1 + 1)%Z), <- !(L (_o p1 + 2)%Z),
    <- !(L (_o p1 + 3)%Z), <- !(L (_o p1 + 4)%Z),
    <- !(L (_o p1 + 10)%Z), <- !(L (_o p1 + 16)%Z),
    <- !(L (_o p1 + 22)%Z), <- !(L (_o p1 + 24)%Z),
    <- !(L (_o p1 + 25)%Z), <- !(L (_o p1 + 26)%Z),
    <- !(L (_o p1 + 27)%Z), <- !(L (_o p1 + 28)%Z),
    <- !(L (_o p1 + 6 + 1)%Z), <- !(L (_o p1 + 6 + 2)%Z),
    <- !(L (_o p1 + 6 + 3)%Z), <- !(L (_o p1 + 6 + 4)%Z),
    <- !(L (_o p1 + 12 + 1)%Z), <- !(L (_o p1 + 12 + 2)%Z),
    <- !(L (_o p1 + 12 + 3)%Z), <- !(L (_o p1 + 12 + 4)%Z),
    <- !(L (_o p1 + 18 + 1)%Z), <- !(L (_o p1 + 18 + 2)%Z),
    <- !(L (_o p1 + 18 + 3)%Z), <- !(L (_o p1 + 18 + 4)%Z) by lia.
  repeat split; reflexivity.
Qed.

(** ** What the madhab and a prayer's own adjustment reach *)

Lemma float_eq_dec (x y : float) : x = y \/ x <> y.
Proof.
  destruct (PrimFloat.Leibniz.eqb x y) eqn:E.
  - left. now apply FloatAxioms.Leibniz.eqb_spec.
  - right. intros H. apply FloatAxioms.Leibniz.eqb_spec in H. congruence.
Qed.

Lemma Madhab_eq_dec (a b : Madhab) : a = b \/ a <> b.
Proof. destruct a, b; (now left) || (right; discriminate). Qed.

(** Bits other than the asr bit. *)
Lemma uf_has_asr_free (uf m : Z) :
  Z.land (Z.lnot 4) m = m -> uf_has (asr_free uf) m = uf_has uf m.
Proof.
  intros H. unfold uf_has, asr_free. now rewrite <- Z.land_assoc, H.
Qed.

Lemma uf_has_free (uf uf' m : Z) :
  Z.land (Z.lnot 4) m = m -> asr_free uf = asr_free uf' ->
  uf_has uf m = uf_has uf' m.
Proof.
  intros H E.
  now rewrite <- (uf_has_asr_free uf m H), E, (uf_has_asr_free uf' m H).
Qed.

Lemma asr_free_lor (uf uf' m : Z) :
  asr_free uf = asr_free uf' ->
  asr_free (Z.lor uf m) = asr_free (Z.lor uf' m).
Proof.
  unfold asr_free. intros E. now rewrite !Z.land_lor_distr_l, E.
Qed.

Lemma asr_free_lor_4 (uf : Z) : asr_free (Z.lor uf 4) = asr_free uf.
Proof.
  unfold asr_free. rewrite Z.land_lor_distr_l.
  change (Z.land 4 (Z.lnot 4)) with 0%Z. apply Z.lor_0_r.
Qed.

Lemma asr_free_land (uf uf' m : Z) :
  asr_free uf = asr_free uf' ->
  asr_free (Z.land uf m) = asr_free (Z.land uf' m).
Proof.
  unfold asr_free. intros E.
  rewrite <- !Z.land_assoc, !(Z.land_comm m), !Z.land_assoc. now rewrite E.
Qed.

Section AgreeBut.
Variable o : Z.
Variable X : Z -> Prop.

Lemma agree_but_set (S S' : Z -> float) (k : Z) (v v' : float) :
  X k \/ v = v' ->
  agree_but o X S S' ->
  agree_but o X (SLAB_set S (o + k) v) (SLAB_set S' (o + k) v').
Proof.
  intros H A j Hj. rewrite !SLAB_get_set.
  destruct (Js.in_range _ _ && (o + j =? o + k)%Z) eqn:E;
    [|now apply A].
  destruct H as [x | ->]; [|reflexivity].
  exfalso. apply andb_prop in E as [_ E]. apply Z.eqb_eq in E.
  assert (j = k) by lia. subst. auto.
Qed.

Lemma agree_but_set_l (S S' : Z -> float) (k : Z) (v : float) :
  X k -> agree_but o X S S' -> agree_but o X (SLAB_set S (o + k) v) S'.
Proof.
  intros x A j Hj. rewrite SLAB_gso; [now apply A|].
  intros E. assert (j = k) by lia. subst. auto.
Qed.

Lemma agree_but_set_r (S S' : Z -> float) (k : Z) (v : float) :
  X k -> agree_but o X S S' -> agree_but o X S (SLAB_set S' (o + k) v).
Proof.
  intros x A j Hj. rewrite SLAB_gso; [now apply A|].
  intros E. assert (j = k) by lia. subst. auto.
Qed.

End AgreeBut.

Section OwnInputs.
Context {Math : MathObject}.
Variables r1 r2 : ResolvedInput.
Hypothesis D : differ_in_own_inputs r1 r2.
Variable st : Engine.
Variables dcBase o : Z.

Let st1 := with_cc st (cc_refresh r1).
Let st2 := with_cc st (cc_refresh r2).
Let X := own_lane r1 r2.
Let A := r_madhab r1 = r_madhab r2.

Implicit Types Su : (Z -> float) * Z.

Lemma not_own (k : Z) :
  k <> 0%Z -> k <> 2%Z -> k <> 3%Z -> k <> 5%Z -> k <> 9%Z ->
  k <> 15%Z -> k <> 21%Z -> ~ X k.
Proof. unfold X, own_lane. lia. Qed.

(** The lanes that may differ, or else the values that do not. *)
Lemma own_fajr : X 0%Z \/ adjFajrMs st1 = adjFajrMs st2.
Proof.
  destruct (float_eq_dec (adj_fajr (r_adjustments r1))
              (adj_fajr (r_adjustments r2))) as [E|N].
  - right. unfold adjFajrMs, st1, st2. cbn. now rewrite E.
  - left. unfold X, own_lane. auto.
Qed.

Lemma own_dhuhr : X 2%Z \/ adjDhuhrMs st1 = adjDhuhrMs st2.
Proof.
  destruct (float_eq_dec (adj_dhuhr (r_adjustments r1))
              (adj_dhuhr (r_adjustments r2))) as [E|N].
  - right. unfold adjDhuhrMs, st1, st2. cbn. now rewrite E.
  - left. unfold X, own_lane. auto.
Qed.

Lemma own_isha :
  X 5%Z \/
  (adjIshaMs st1 = adjIshaMs st2 /\
   adj_isha (r_adjustments r1) = adj_isha (r_adjustments r2)).
Proof.
  destruct (float_eq_dec (adj_isha (r_adjustments r1))
              (adj_isha (r_adjustments r2))) as [E|N].
  - right. unfold adjIshaMs, st1, st2. cbn. now rewrite E.
  - left. unfold X, own_lane. auto.
Qed.

Lemma own_asr :
  (X 3%Z /\ X 9%Z /\ X 15%Z /\ X 21%Z) \/
  (A /\ adjAsrMs st1 = adjAsrMs st2).
Proof.
  destruct (Madhab_eq_dec (r_madhab r1) (r_madhab r2)) as [E|N];
    [destruct (float_eq_dec (adj_asr (r_adjustments r1))
                 (adj_asr (r_adjustments r2))) as [E'|N]|].
  - right. split; [exact E|].
    unfold adjAsrMs, st1, st2. cbn. now rewrite E'.
  - left. unfold X, own_lane. repeat split; right; right; right;
      (split; [lia|tauto]).
  - left. unfold X, own_lane. repeat split; right; right; right;
      (split; [lia|tauto]).
Qed.

(** Every local that neither the madhab nor an adjustment enters reads
    the same in both states. *)
Ltac loc0 :=
  pose proof D as (Hlat & Hlng & _ & Hm & _ & He & Hsr & Hmg);
  unfold sinLatSinD2, cosLatCosD2, Theta0, a2, d2, raAB, raC, declAB, declC,
    dateUtcMidnightMs, sinLat, cosLat, Lw, c360cosLat, horizonAlt,
    sinHorizonAlt, base90Horizon, fajrAlt, sinFajrAlt, base90Fajr, ishaAlt,
    sinIshaAlt, base90Isha, adjSunriseMs, adjMaghribMs;
  unfold st1, st2;
  cbn [cc _dc with_cc cc_refresh _sinLat _cosLat _Lw _360cosLat _horizonAlt
       _sinHorizonAlt _base90Horizon _fajrAlt _sinFajrAlt _base90Fajr
       _ishaAlt _sinIshaAlt _base90Isha _adjSunriseMs _adjMaghribMs];
  rewrite <- ?Hlat, <- ?Hlng, <- ?Hm, <- ?He, <- ?Hsr, <- ?Hmg.

Lemma loc_m0Raw : m0Raw st2 dcBase = m0Raw st1 dcBase.
Proof. unfold m0Raw. now loc0. Qed.

Lemma loc_m0 : m0 st2 dcBase = m0 st1 dcBase.
Proof. unfold m0. now rewrite loc_m0Raw. Qed.

Lemma loc_transitTheta : transitTheta st2 dcBase = transitTheta st1 dcBase.
Proof. unfold transitTheta. rewrite loc_m0. now loc0. Qed.

Lemma loc_transitA : transitA st2 dcBase = transitA st1 dcBase.
Proof. unfold transitA. rewrite loc_m0. now loc0. Qed.

Lemma loc_rawTransitH : rawTransitH st2 dcBase = rawTransitH st1 dcBase.
Proof.
  unfold rawTransitH. rewrite loc_transitTheta, loc_transitA. now loc0.
Qed.

Lemma loc_transitUtcH : transitUtcH st2 dcBase = transitUtcH st1 dcBase.
Proof.
  unfold transitUtcH, transitH. now rewrite loc_m0, loc_rawTransitH.
Qed.

Lemma loc_refine_dm (m b : float) :
  refine_dm st2 dcBase m b = refine_dm st1 dcBase m b.
Proof. unfold refine_dm. now loc0. Qed.

Lemma loc_asrAlt : A -> asrAlt r2 st2 dcBase = asrAlt r1 st1 dcBase.
Proof.
  intros E. unfold asrAlt, _asrDiff, declAtTransit, transitFrac, shadowK.
  rewrite loc_transitUtcH. loc0. cbn [cc with_cc cc_refresh _shadowK].
  unfold A in E. now rewrite E, Hlat.
Qed.

Ltac loc :=
  rewrite ?loc_m0, ?loc_transitUtcH, ?loc_refine_dm; loc0.

Ltac agree :=
  repeat (apply agree_but_set; [right; reflexivity|]); try assumption.

Lemma fajrBlock_own Su Su' :
  rel_but o X A Su Su' ->
  rel_but o X A (fajrBlock st1 dcBase o Su) (fajrBlock st2 dcBase o Su').
Proof.
  intros (L & U & E). unfold rel_but, fajrBlock. loc.
  destruct (out_of_bounds _); cbn [fst snd].
  - split; [now agree|]. split; [now apply asr_free_lor|].
    intros a. now rewrite (E a).
  - split; [|now split].
    apply agree_but_set;
      [destruct own_fajr as [x|e]; [now left|right; f_equal; exact e]|].
    now agree.
Qed.

Lemma sunBlock_own Su Su' :
  rel_but o X A Su Su' ->
  rel_but o X A (sunBlock st1 dcBase o Su) (sunBlock st2 dcBase o Su').
Proof.
  intros (L & U & E). unfold rel_but, sunBlock. loc.
  destruct (out_of_bounds _); cbn [fst snd].
  - split; [now agree|]. split; [now apply asr_free_lor|].
    intros a. now rewrite (E a).
  - split; [now agree|now split].
Qed.

Lemma dhuhrBlock_own Su Su' :
  rel_but o X A Su Su' ->
  rel_but o X A (dhuhrBlock st1 dcBase o Su) (dhuhrBlock st2 dcBase o Su').
Proof.
  intros (L & U & E). unfold rel_but, dhuhrBlock. loc. cbn [fst snd].
  split; [|now split].
  agree. apply agree_but_set; [|exact L].
  destruct own_dhuhr as [x|e]; [now left|right; f_equal; exact e].
Qed.

Lemma asrBlock_own Su Su' :
  rel_but o X A Su Su' ->
  rel_but o X A (asrBlock r1 st1 dcBase o Su) (asrBlock r2 st2 dcBase o Su').
Proof.
  intros (L & U & E). unfold rel_but, asrBlock, sinAsrAlt, base90Asr.
  destruct (Madhab_eq_dec (r_madhab r1) (r_madhab r2)) as [a|n].
  - (* the same madhab: the same altitude, hence the same branch *)
    rewrite (loc_asrAlt a). loc.
    destruct (out_of_bounds _); cbn [fst snd].
    + split; [now agree|]. split; [now apply asr_free_lor|].
      intros _. now rewrite (E a).
    + split; [|now split].
      apply agree_but_set; [|now agree].
      destruct own_asr as [(x & _)|(_ & e)];
        [now left|right; f_equal; exact e].
  - (* another madhab: all four asr lanes are its own *)
    destruct own_asr as [(x3 & x9 & x15 & x21)|(a & _)];
      [|contradiction].
    destruct (out_of_bounds _), (out_of_bounds _); cbn [fst snd];
      (split; [|split; [|intros a; contradiction]]);
      rewrite ?asr_free_lor_4; try assumption.
    + apply agree_but_set; [now left|].
      apply agree_but_set; [now left|]. exact L.
    + apply agree_but_set_r; [exact x3|].
      apply agree_but_set_r; [exact x15|].
      apply agree_but_set; [now left|].
      apply agree_but_set; [now left|]. exact L.
    + apply agree_but_set_l; [exact x3|].
      apply agree_but_set_l; [exact x15|].
      apply agree_but_set; [now left|].
      apply agree_but_set; [now left|]. exact L.
    + apply agree_but_set; [now left|].
      apply agree_but_set; [now left|].
      apply agree_but_set; [now left|].
      apply agree_but_set; [now left|]. exact L.
Qed.

Ltac nx := apply not_own; lia.

Lemma ishaBlock_own Su Su' :
  rel_but o X A Su Su' ->
  rel_but o X A (ishaBlock r1 st1 dcBase o Su) (ishaBlock r2 st2 dcBase o Su').
Proof.
  intros (L & U & E). unfold rel_but, ishaBlock.
  rewrite (uf_has_free (snd Su) (snd Su') 8 eq_refl U).
  rewrite (L 4%Z ltac:(nx)). loc.
  destruct (_ && _); cbn [fst snd].
  - split; [|now split]. agree.
    apply agree_but_set; [|exact L].
    destruct own_isha as [x|(_ & e)]; [now left|right; now rewrite e].
  - destruct (out_of_bounds _); cbn [fst snd].
    + split; [now agree|]. split; [now apply asr_free_lor|].
      intros a. now rewrite (E a).
    + split; [|now split].
      apply agree_but_set; [|now agree].
      destruct own_isha as [x|(e & _)]; [now left|right; f_equal; exact e].
Qed.

Lemma chaPrayers_own (S : Z -> float) :
  rel_but o X A (chaPrayers r1 st1 dcBase o S) (chaPrayers r2 st2 dcBase o S).
Proof.
  unfold chaPrayers.
  apply ishaBlock_own, asrBlock_own, dhuhrBlock_own, sunBlock_own,
    fajrBlock_own.
  split; [intros k _; reflexivity|]. split; [reflexivity|].
  intros _; reflexivity.
Qed.

Lemma highLatFallback_own Su Su' :
  rel_but o X A Su Su' ->
  rel_but o X A (highLatFallback r1 st1 o Su) (highLatFallback r2 st2 o Su').
Proof.
  intros (L & U & E). unfold rel_but, highLatFallback, fajr_fbMs, isha_fbMs.
  pose proof D as (_ & _ & _ & Hm & Hr & _).
  rewrite <- Hr, <- Hm.
  rewrite (L 28%Z ltac:(nx)), (L 1%Z ltac:(nx)).
  rewrite (uf_has_free (snd Su) (snd Su') 10 eq_refl U),
    (uf_has_free (snd Su) (snd Su') 17 eq_refl U),
    (uf_has_free (snd Su) (snd Su') 1 eq_refl U).
  destruct (_ && _); [|now split].
  destruct (uf_has (snd Su') 17); [|now split].
  destruct (0 <? _); [|now split].
  assert (F : forall v v' : float,
            v = v' -> X 0%Z \/ v + adjFajrMs st1 = v' + adjFajrMs st2).
  { intros v v' ->. destruct own_fajr as [x|e]; [now left|].
    right. now rewrite e. }
  assert (I : forall v v' : float,
            v = v' -> X 5%Z \/ v + adjIshaMs st1 = v' + adjIshaMs st2).
  { intros v v' ->. destruct own_isha as [x|(e & _)]; [now left|].
    right. now rewrite e. }
  destruct (uf_has (snd Su') 1); cbn [fst snd].
  - rewrite (uf_has_free _ _ 16 eq_refl
               (asr_free_land _ _ (Z.lnot 1) U)).
    destruct (uf_has _ 16); cbn [fst snd].
    + split; [|split].
      * apply agree_but_set; [right; reflexivity|].
        apply agree_but_set; [now apply I|].
        apply agree_but_set; [right; reflexivity|].
        apply agree_but_set; [now apply F|]. exact L.
      * now apply asr_free_land, asr_free_land.
      * intros a. now rewrite (E a).
    + split; [|split].
      * apply agree_but_set; [right; reflexivity|].
        apply agree_but_set; [now apply F|]. exact L.
      * now apply asr_free_land.
      * intros a. now rewrite (E a).
  - rewrite (uf_has_free (snd Su) (snd Su') 16 eq_refl U).
    destruct (uf_has _ 16); cbn [fst snd]; [|now split].
    split; [|split].
    + apply agree_but_set; [right; reflexivity|].
      apply agree_but_set; [now apply I|]. exact L.
    + now apply asr_free_land.
    + intros a. now rewrite (E a).
Qed.

Lemma metaValues_own (jd : float) (S S' : Z -> float) :
  agree_but o X S S' ->
  agree_but o X (metaValues st1 dcBase o jd S) (metaValues st2 dcBase o jd S').
Proof. intros L. unfold metaValues. loc. now agree. Qed.

End OwnInputs.

Section OwnInputsRun.
Context {Math : MathObject}.
Variables r1 r2 : ResolvedInput.
Hypothesis D : differ_in_own_inputs r1 r2.

(** The two calls end alike, in the same slot, with masks that agree off
    the asr bit and slabs that agree off the lanes of their own. *)
Lemma run_core_own (st : Engine) :
  cc_ok st r1 -> cc_ok st r2 ->
  match run_core r1 st, run_core r2 st with
  | Normal st1 p1, Normal st2 p2 =>
      _o p1 = _o p2 /\
      asr_free (_uf p1) = asr_free (_uf p2) /\
      (r_madhab r1 = r_madhab r2 -> _uf p1 = _uf p2) /\
      agree_but (_o p1) (own_lane r1 r2) (_SLAB st1) (_SLAB st2)
  | Throw _, Throw _ => True
  | _, _ => False
  end.
Proof.
  intros K1 K2. apply cc_ok_takeSlot in K1, K2.
  pose proof D as (_ & _ & Hdate & _).
  unfold run_core, _computeCore, coreEvents, julDate_of.
  destruct (takeSlot st) as [o st0]. cbn [snd] in K1, K2.
  rewrite <- Hdate.
  rewrite (configCache_with_cc _ _ K1), (configCache_with_cc _ _ K2).
  rewrite !dayConstants_with_cc.
  destruct (dayConstants _ st0) as [stD [|]]; cbn [fst snd]; [|exact I].
  cbn [_SLAB with_cc with_SLAB _o _uf].
  set (dcBase := (cache_index _ * DC_STRIDE)%Z).
  pose proof (highLatFallback_own r1 r2 D stD o _ _
                (chaPrayers_own r1 r2 D stD dcBase o (_SLAB stD)))
    as (L & U & E).
  split; [reflexivity|]. split; [exact U|]. split; [exact E|].
  now apply metaValues_own.
Qed.

End OwnInputsRun.

(** X20. The madhab and the fajr, dhuhr, asr and isha adjustments are
    local.  Two calls from the same engine state (coherent for both) whose
    configurations differ in nothing else both throw or both return, and
    then report the same sunrise, sunset, maghrib, midnight, first third,
    last third and metadata; fajr and imsak are the same when the fajr
    adjustments are, dhuhr when the dhuhr adjustments are, asr when the
    madhabs and the asr adjustments are, and isha when the isha adjustments
    are. *)
Theorem madhab_and_own_adjustments_are_local {Math : MathObject}
    (c1 c2 : PrayerTimeInput) (st : Engine) :
  differ_in_own_inputs (_resolve c1) (_resolve c2) ->
  cc_ok st (_resolve c1) ->
  cc_ok st (_resolve c2) ->
  match computePrayerTimes c1 st, computePrayerTimes c2 st with
  | Normal st1 p1, Normal st2 p2 =>
      let out1 := PTR_read (_SLAB st1) p1 in
      let out2 := PTR_read (_SLAB st2) p2 in
      let a1 := r_adjustments (_resolve c1) in
      let a2 := r_adjustments (_resolve c2) in
      out_sunrise out1 = out_sunrise out2 /\
      out_sunset out1 = out_sunset out2 /\
      out_maghrib out1 = out_maghrib out2 /\
      out_midnight out1 = out_midnight out2 /\
      out_firstThird out1 = out_firstThird out2 /\
      out_lastThird out1 = out_lastThird out2 /\
      out_meta out1 = out_meta out2 /\
      (adj_fajr a1 = adj_fajr a2 ->
       out_fajr out1 = out_fajr out2 /\ out_imsak out1 = out_imsak out2) /\
      (adj_dhuhr a1 = adj_dhuhr a2 -> out_dhuhr out1 = out_dhuhr out2) /\
      (r_madhab (_resolve c1) = r_madhab (_resolve c2) ->
       adj_asr a1 = adj_asr a2 -> out_asr out1 = out_asr out2) /\
      (adj_isha a1 = adj_isha a2 -> out_isha out1 = out_isha out2)
  | Throw _, Throw _ => True
  | _, _ => False
  end.
Proof.
  intros D K1 K2. unfold computePrayerTimes.
  pose proof (run_core_own _ _ D st K1 K2) as R.
  destruct (run_core (_resolve c1) st) as [st1 p1|st1];
    destruct (run_core (_resolve c2) st) as [st2 p2|st2]; try exact R.
  destruct R as (Ho & U & E & L). cbv zeta.
  set (r1 := _resolve c1) in *. set (r2 := _resolve c2) in *.
  assert (N : forall k, k <> 0%Z -> k <> 2%Z -> k <> 3%Z -> k <> 5%Z ->
                        k <> 9%Z -> k <> 15%Z -> k <> 21%Z ->
              SLAB_get (_SLAB st1) (_o p1 + k) =
              SLAB_get (_SLAB st2) (_o p1 + k)).
  { intros k; intros. apply L. unfold own_lane. lia. }
  pose proof (uf_has_free _ _ 1 eq_refl U) as U1.
  pose proof (uf_has_free _ _ 2 eq_refl U) as U2.
  pose proof (uf_has_free _ _ 8 eq_refl U) as U8.
  pose proof (uf_has_free _ _ 10 eq_refl U) as U10.
  pose proof (uf_has_free _ _ 16 eq_refl U) as U16.
  cbn [PTR_read out_fajr out_sunrise out_dhuhr out_asr out_sunset out_maghrib
       out_isha out_midnight out_imsak out_firstThird out_lastThird out_meta].
  unfold PTR_fajr, PTR_sunrise, PTR_dhuhr, PTR_asr, PTR_sunset, PTR_maghrib,
    PTR_isha, PTR_midnight, PTR_imsak, PTR_firstThird, PTR_lastThird,
    PTR_meta, _vFromSlot, _undefFromSlot.
  rewrite <- Ho, <- U1, <- U2, <- U8, <- U10, <- U16.
  rewrite <- !(N 1%Z), <- !(N 4%Z), <- !(N 10%Z), <- !(N 16%Z),
    <- !(N 22%Z), <- !(N 24%Z), <- !(N 25%Z), <- !(N 26%Z), <- !(N 27%Z),
    <- !(N 28%Z) by lia.
  replace (_o p1 + 6 + 0)%Z with (_o p1 + 6)%Z by lia.
  replace (_o p1 + 12 + 0)%Z with (_o p1 + 12)%Z by lia.
  replace (_o p1 + 18 + 0)%Z with (_o p1 + 18)%Z by lia.
  replace (_o p1 + 6 + 1)%Z with (_o p1 + 7)%Z by lia.
  replace (_o p1 + 12 + 1)%Z with (_o p1 + 13)%Z by lia.
  replace (_o p1 + 18 + 1)%Z with (_o p1 + 19)%Z by lia.
  replace (_o p1 + 6 + 2)%Z with (_o p1 + 8)%Z by lia.
  replace (_o p1 + 12 + 2)%Z with (_o p1 + 14)%Z by lia.
  replace (_o p1 + 18 + 2)%Z with (_o p1 + 20)%Z by lia.
  replace (_o p1 + 6 + 3)%Z with (_o p1 + 9)%Z by lia.
  replace (_o p1 + 12 + 3)%Z with (_o p1 + 15)%Z by lia.
  replace (_o p1 + 18 + 3)%Z with (_o p1 + 21)%Z by lia.
  replace (_o p1 + 6 + 4)%Z with (_o p1 + 10)%Z by lia.
  replace (_o p1 + 12 + 4)%Z with (_o p1 + 16)%Z by lia.
  replace (_o p1 + 18 + 4)%Z with (_o p1 + 22)%Z by lia.
  replace (_o p1 + 6 + 5)%Z with (_o p1 + 11)%Z by lia.
  replace (_o p1 + 12 + 5)%Z with (_o p1 + 17)%Z by lia.
  replace (_o p1 + 18 + 5)%Z with (_o p1 + 23)%Z by lia.
  replace (SLAB_get (_SLAB st1) (_o p1))
    with (SLAB_get (_SLAB st1) (_o p1 + 0)) by (f_equal; lia).
  replace (SLAB_get (_SLAB st2) (_o p1))
    with (SLAB_get (_SLAB st2) (_o p1 + 0)) by (f_equal; lia).
  rewrite <- !(N 6%Z), <- !(N 7%Z), <- !(N 8%Z), <- !(N 10%Z), <- !(N 11%Z),
    <- !(N 12%Z), <- !(N 13%Z), <- !(N 14%Z), <- !(N 16%Z), <- !(N 17%Z),
    <- !(N 18%Z), <- !(N 19%Z), <- !(N 20%Z), <- !(N 22%Z), <- !(N 23%Z)
    by lia.
  repeat (split; [reflexivity|]).
  split; [|split; [|split]].
  - intros e.
    assert (L0 : SLAB_get (_SLAB st1) (_o p1 + 0) =
                 SLAB_get (_SLAB st2) (_o p1 + 0))
      by (apply L; unfold own_lane; intros H; decompose [and or] H;
          try lia; contradiction).
    rewrite L0. split; reflexivity.
  - intros e.
    assert (L2 : SLAB_get (_SLAB st1) (_o p1 + 2) =
                 SLAB_get (_SLAB st2) (_o p1 + 2))
      by (apply L; unfold own_lane; intros H; decompose [and or] H;
          try lia; contradiction).
    now rewrite L2.
  - intros em ea.
    assert (LA : forall k, (k = 3 \/ k = 9 \/ k = 15 \/ k = 21)%Z ->
                 SLAB_get (_SLAB st1) (_o p1 + k) =
                 SLAB_get (_SLAB st2) (_o p1 + k))
      by (intros k Hk; apply L; unfold own_lane; intros H;
          decompose [and or] H; try lia; tauto).
    rewrite (E em), (LA 3%Z), (LA 9%Z), (LA 15%Z), (LA 21%Z) by lia.
    reflexivity.
  - intros e.
    assert (L5 : SLAB_get (_SLAB st1) (_o p1 + 5) =
                 SLAB_get (_SLAB st2) (_o p1 + 5))
      by (apply L; unfold own_lane; intros H; decompose [and or] H;
          try lia; contradiction).
    now rewrite L5.
Qed.

Lemma own_adjustments_witness :
  let out1 := Further.shown Further.mecca_standard in
  let out2 := Further.shown Further.mecca_hanafi_adjusted in
  out_sunrise out1 = out_sunrise out2 /\
  out_sunset out1 = out_sunset out2 /\
  out_maghrib out1 = out_maghrib out2 /\
  out_midnight out1 = out_midnight out2 /\
  out_firstThird out1 = out_firstThird out2 /\
  out_lastThird out1 = out_lastThird out2 /\
  out_meta out1 = out_meta out2.
Proof.
  cbv zeta.
  assert (E1 : computePrayerTimes (Math := SeriesMath)
                 Further.mecca_standard initialEngine =
               Normal (Further.after Further.mecca_standard)
                 Further.first_result)
    by (apply (returns_with (Scenarios.fresh Further.mecca_standard));
        vm_compute; reflexivity).
  assert (E2 : computePrayerTimes (Math := SeriesMath)
                 Further.mecca_hanafi_adjusted initialEngine =
               Normal (Further.after Further.mecca_hanafi_adjusted)
                 Further.first_result)
    by (apply (returns_with (Scenarios.fresh Further.mecca_hanafi_adjusted));
        vm_compute; reflexivity).
  assert (D : differ_in_own_inputs (_resolve Further.mecca_standard)
                (_resolve Further.mecca_hanafi_adjusted))
    by (repeat split).
  pose proof (madhab_and_own_adjustments_are_local (Math := SeriesMath)
                _ _ initialEngine D (cc_ok_initial _) (cc_ok_initial _)) as H.
  rewrite E1, E2 in H. cbv zeta in H.
  destruct H as (H1 & H2 & H3 & H4 & H5 & H6 & H7 & _).
  exact (conj H1 (conj H2 (conj H3 (conj H4 (conj H5 (conj H6 H7)))))).
Defined.
